(** * Personal finance tracker: persistence and aggregation layer

    A shallow embedding of the TypeScript sources
    - [utils/errorHandling.ts] (error classes, [isTransientError],
      [retryWithBackoff]),
    - the IndexedDB storage adapter (the generic [IndexedDBAdapter]),
    - [services/budgetService.ts] ([BudgetService]),
    - [services/calculationService.ts] ([CalculationService]),
    - [services/transactionService.ts] ([TransactionService]),
    - the CSV utility functions ([escapeCSVField], [parseCSVLine] and the
      lines of [generateTransactionsCSV] and [generateBudgetsCSV]),
    - the loops of [handleImport] in the import view, and the effects of
      the two cards of the dashboard,
    together with the properties of the specification that concern them
    and further properties of the code.

    Conventions of the embedding.
    - A JavaScript [number] that holds an amount of money is an IEEE 754
      double ([number], with the arithmetic of [JsNumber]): sums are
      rounded, they can overflow, and NaN is a value.  Counters of the
      loops, delays and time values are integers of [Z].
    - A JavaScript string is a [string].  What the runtime does to a
      string by its own tables and rules ([toLowerCase], [trim]), how it
      reads a date ([new Date(s)]) and how it prints a number
      ([toString]) are taken from a [Runtime]; the properties hold for
      every runtime, and only what the language standard fixes is
      assumed of one.
    - A rejected promise or a thrown exception is an explicit result.
    - The embedded store is a finite map from primary key to record; it is
      taken to be open and it fails only as its constraints say (an
      existing key on [add], a unique index).  Where a property lists the
      ways a call can fail, a failure of the store itself is among them.
    - Writing to the console ([logError], [console.warn]) is left out.
    - [Math.random] is answered from a given sequence of numbers. *)

From Stdlib Require Import ZArith List String Ascii Bool Lia.
From Stdlib Require Import Sorting.Sorted Sorting.Permutation.
From stdpp Require Import gmap strings.
Import ListNotations.

Local Open Scope string_scope.
Local Open Scope list_scope.
Local Open Scope Z_scope.

(* ===================================================================== *)
(** ** JavaScript numbers *)
(* ===================================================================== *)

(** An IEEE 754 double.  A finite double is a whole multiple of 2^-1074,
    the smallest double above zero: [Finite negative magnitude] is
    [magnitude] times 2^-1074, with its sign; magnitude 0 is the zero of
    that sign.  The doubles are the magnitudes of at most 53 significant
    bits below 2^2098 (which stands for 2^1024); the arithmetic rounds
    to them. *)
Inductive number :=
| NaN
| Infinity (negative : bool)
| Finite (negative : bool) (magnitude : N).

Module JsNumber.

(** The literal [0] *)
Definition zero : number := Finite false 0.

(** Rounding to the nearest magnitude of 53 significant bits, to the
    even one of two that are equally near. *)
Definition roundMagnitude (m : N) : N :=
  let shift := (N.size m - 53)%N in
  if (shift =? 0)%N then m
  else
    let q := (m / 2 ^ shift)%N in
    let r := (m mod 2 ^ shift)%N in
    let half := (2 ^ (shift - 1))%N in
    if ((half <? r) || ((r =? half) && N.odd q))%N
    then ((q + 1) * 2 ^ shift)%N
    else (q * 2 ^ shift)%N.

(** The double nearest to a magnitude; what rounds to 2^1024 or above
    is infinite. *)
Definition round (negative : bool) (m : N) : number :=
  let m' := roundMagnitude m in
  if (2 ^ 2098 <=? m')%N then Infinity negative else Finite negative m'.

(** The value of a finite double, in multiples of 2^-1074. *)
Definition signed (negative : bool) (m : N) : Z :=
  if negative then - Z.of_N m else Z.of_N m.

(** [a + b]: the exact sum, rounded.  A sum that is exactly zero is +0,
    unless both operands are -0. *)
Definition add (a b : number) : number :=
  match a, b with
  | NaN, _ | _, NaN => NaN
  | Infinity s, Infinity s' => if Bool.eqb s s' then a else NaN
  | Infinity _, Finite _ _ => a
  | Finite _ _, Infinity _ => b
  | Finite s m, Finite s' m' =>
      let z := signed s m + signed s' m' in
      if z =? 0 then Finite (s && s') 0
      else round (z <? 0) (Z.abs_N z)
  end.

(** [-a] *)
Definition negate (a : number) : number :=
  match a with
  | NaN => NaN
  | Infinity s => Infinity (negb s)
  | Finite s m => Finite (negb s) m
  end.

(** [a - b] *)
Definition sub (a b : number) : number := add a (negate b).

(** [Math.abs(a)] *)
Definition abs (a : number) : number :=
  match a with
  | NaN => NaN
  | Infinity _ => Infinity false
  | Finite _ m => Finite false m
  end.

(** [a < b]; false when one of them is NaN. *)
Definition ltb (a b : number) : bool :=
  match a, b with
  | NaN, _ | _, NaN => false
  | Infinity s, Infinity s' => s && negb s'
  | Infinity s, Finite _ _ => s
  | Finite _ _, Infinity s' => negb s'
  | Finite s m, Finite s' m' => signed s m <? signed s' m'
  end.

(** [a <= b]; false when one of them is NaN. *)
Definition leb (a b : number) : bool :=
  match a, b with
  | NaN, _ | _, NaN => false
  | Infinity s, Infinity s' => s || negb s'
  | Infinity s, Finite _ _ => s
  | Finite _ _, Infinity s' => negb s'
  | Finite s m, Finite s' m' => signed s m <=? signed s' m'
  end.

(** [isFinite(a)] *)
Definition isFinite (a : number) : bool :=
  match a with
  | Finite _ _ => true
  | NaN | Infinity _ => false
  end.

(** A number in a condition: NaN and the two zeros count as false. *)
Definition truthy (a : number) : bool :=
  match a with
  | NaN => false
  | Infinity _ => true
  | Finite _ m => negb (m =? 0)%N
  end.

(** What [Array.prototype.sort] makes of the number its comparator
    returns: its sign, NaN counting as 0. *)
Definition signum (a : number) : Z :=
  match a with
  | NaN => 0
  | Infinity s => if s then -1 else 1
  | Finite s m => if (m =? 0)%N then 0 else if s then -1 else 1
  end.

(** The number a literal of digits denotes. *)
Definition ofZ (z : Z) : number := round (z <? 0) (Z.abs_N z * 2 ^ 1074).

(** The number a decimal literal denotes: the double nearest to
    [n / d].  The quotient is taken with two more binary digits and a
    note of whether anything is left beyond them, and rounded from
    there. *)
Definition decimal (n : Z) (d : positive) : number :=
  let x := (Z.abs_N n * 2 ^ 1076)%N in
  let q := (x / Npos d)%N in
  let sticky := negb (x mod Npos d =? 0)%N in
  let shift := N.max (N.size q - 53) 2 in
  let q' := (q / 2 ^ shift)%N in
  let r := (q mod 2 ^ shift)%N in
  let half := (2 ^ (shift - 1))%N in
  let up := ((half <? r) || ((r =? half) && (sticky || N.odd q')))%N in
  let m := ((if up then q' + 1 else q') * 2 ^ (shift - 2))%N in
  if (2 ^ 2098 <=? m)%N then Infinity (n <? 0) else Finite (n <? 0) m.

(** The sum of a list of numbers as a [reduce] from 0 adds them: from
    the left, each partial sum rounded. *)
Definition sumOf (l : list number) : number := fold_left add l zero.

End JsNumber.

(* ===================================================================== *)
(** ** JavaScript string primitives *)
(* ===================================================================== *)

Module JsString.

(** [s.startsWith(p)] *)
Definition startsWith (s p : string) : bool := String.prefix p s.

(** [s.includes(p)] *)
Fixpoint includes (s p : string) : bool :=
  String.prefix p s ||
  match s with
  | EmptyString => false
  | String _ s' => includes s' p
  end.

(** [s.substring(0, n)] *)
Definition substring0 (n : nat) (s : string) : string := String.substring 0 n s.

(** The order of two strings by their code units, as a number: negative,
    zero or positive. *)
Definition compareCodeUnits (a b : string) : Z :=
  match String.compare a b with
  | Lt => -1
  | Eq => 0
  | Gt => 1
  end.

(** [a.localeCompare(b)] as a number: negative, zero or positive.  The
    comparison is the code-unit order, with which the collation agrees on
    the keys the engine builds (digits and hyphens at fixed positions). *)
Definition localeCompare (a b : string) : Z := compareCodeUnits a b.

(** An upper-case ASCII letter. *)
Definition isUpper (c : ascii) : bool :=
  let n := N_of_ascii c in ((65 <=? n) && (n <=? 90))%N.

End JsString.

(* ===================================================================== *)
(** ** A stable comparator sort: [Array.prototype.sort(compareFn)] *)
(* ===================================================================== *)

Section Sort.
Context {A : Type}.
(** The comparator, by the sign of what it returns. *)
Variable cmp : A -> A -> Z.

(** An element enters in front of the first element it does not have to
    follow; elements that compare equal keep their order. *)
Fixpoint sortInsert (x : A) (l : list A) : list A :=
  match l with
  | [] => [x]
  | y :: ys => if cmp x y <=? 0 then x :: y :: ys else y :: sortInsert x ys
  end.

Fixpoint sortWith (l : list A) : list A :=
  match l with
  | [] => []
  | x :: xs => sortInsert x (sortWith xs)
  end.

(** The order a comparator asks for: [a] may stand before [b]. *)
Definition inOrder (a b : A) : Prop := cmp a b <= 0.
End Sort.

(* ===================================================================== *)
(** ** Data model (the core data models of the application) *)
(* ===================================================================== *)

Record Transaction := mkTransaction {
  tx_id : string;
  tx_date : string;        (* ISO 8601, YYYY-MM-DD *)
  tx_amount : number;      (* positive: income, negative: expense *)
  tx_category : string;
  tx_notes : option string
}.

Record Budget := mkBudget {
  b_id : string;
  b_month : string;        (* YYYY-MM *)
  b_category : string;
  b_limit : number
}.

Record CategoryTotal := mkCategoryTotal {
  ct_category : string;
  ct_total : number
}.

Record SpendingOverTime := mkSpendingOverTime {
  sp_date : string;
  sp_amount : number
}.

(* ===================================================================== *)
(** ** [Map<string, number>]: insertion-ordered *)
(* ===================================================================== *)

Module JsMap.

Definition NumberMap := list (string * number).

Fixpoint get (m : NumberMap) (k : string) : option number :=
  match m with
  | [] => None
  | (k', v) :: m' => if String.eqb k' k then Some v else get m' k
  end.

(** [m.set(k, v)]: an existing key keeps its position. *)
Fixpoint set (m : NumberMap) (k : string) (v : number) : NumberMap :=
  match m with
  | [] => [(k, v)]
  | (k', v') :: m' =>
      if String.eqb k' k then (k', v) :: m' else (k', v') :: set m' k v
  end.

(** [m.get(k) || 0] *)
Definition getOr0 (m : NumberMap) (k : string) : number :=
  match get m k with
  | Some v => if JsNumber.truthy v then v else JsNumber.zero
  | None => JsNumber.zero
  end.

Definition entries (m : NumberMap) : list (string * number) := m.

End JsMap.

(* ===================================================================== *)
(** ** The runtime's [Date], as far as the engine uses it *)
(* ===================================================================== *)

Module JsDate.

Definition msPerDay : Z := 86400000.

Definition isLeapYear (y : Z) : bool :=
  ((y mod 4 =? 0) && negb (y mod 100 =? 0)) || (y mod 400 =? 0).

Definition daysInMonth (y m : Z) : Z :=
  if m =? 2 then (if isLeapYear y then 29 else 28)
  else if (m =? 4) || (m =? 6) || (m =? 9) || (m =? 11) then 30
  else 31.

(** Day number (days since 1970-01-01) of the proleptic Gregorian date
    [y]-[m]-[d]; [d] may lie outside the month, as [MakeDay] allows. *)
Definition daysFromCivil (y m d : Z) : Z :=
  let y' := if m <=? 2 then y - 1 else y in
  let era := y' / 400 in
  let yoe := y' - era * 400 in
  let mp := (m + 9) mod 12 in
  let doy := (153 * mp + 2) / 5 + d - 1 in
  let doe := yoe * 365 + yoe / 4 - yoe / 100 + doy in
  era * 146097 + doe - 719468.

(** Year, month (1..12) and day of month of a day number. *)
Definition civilFromDays (z : Z) : Z * Z * Z :=
  let z := z + 719468 in
  let era := z / 146097 in
  let doe := z - era * 146097 in
  let yoe := (doe - doe / 1460 + doe / 36524 - doe / 146096) / 365 in
  let y := yoe + era * 400 in
  let doy := doe - (365 * yoe + yoe / 4 - yoe / 100) in
  let mp := (5 * doy + 2) / 153 in
  let d := doy - (153 * mp + 2) / 5 + 1 in
  let m := if mp <? 10 then mp + 3 else mp - 9 in
  (if m <=? 2 then y + 1 else y, m, d).

(** Day of the week of a day number: 0 is Sunday, 1 is Monday. *)
Definition weekDay (day : Z) : Z := (day + 4) mod 7.

(** A [Date] object holds a time value in milliseconds since the epoch,
    or NaN (an invalid date), here [None]. *)
Definition Date := option Z.

Definition timeClip (ms : Z) : Date :=
  if Z.abs ms <=? 8640000000000000 then Some ms else None.

Definition isDigit (c : ascii) : bool :=
  let n := N_of_ascii c in ((48 <=? n) && (n <=? 57))%N.

Definition digitValue (c : ascii) : Z := Z.of_N (N_of_ascii c) - 48.

(** The value of a string of decimal digits. *)
Fixpoint digitsFrom (acc : Z) (s : string) : option Z :=
  match s with
  | EmptyString => Some acc
  | String c s' =>
      if isDigit c then digitsFrom (10 * acc + digitValue c) s' else None
  end.

Definition parseDigits (s : string) : option Z :=
  match s with
  | EmptyString => None
  | _ => digitsFrom 0 s
  end.

(** The time value of a string in the date-only form YYYY-MM-DD that
    names a day of the calendar: its midnight, UTC.  This much of
    [new Date(s)] the language standard fixes; what any other string
    gives is up to the runtime. *)
Definition dateOnly (s : string) : Date :=
  if (String.length s =? 10)%nat
     && String.eqb (String.substring 4 1 s) "-"
     && String.eqb (String.substring 7 1 s) "-"
  then
    match parseDigits (String.substring 0 4 s),
          parseDigits (String.substring 5 2 s),
          parseDigits (String.substring 8 2 s) with
    | Some y, Some m, Some d =>
        if (1 <=? m) && (m <=? 12) && (1 <=? d) && (d <=? daysInMonth y m)
        then timeClip (daysFromCivil y m d * msPerDay)
        else None
    | _, _, _ => None
    end
  else None.

Section Local.
(** Minutes the local clock is ahead of UTC (negative west of
    Greenwich); the offset is taken to be the same all year. *)
Variable tz : Z.

Definition localTime (ms : Z) : Z := ms + tz * 60000.
Definition utcOfLocal (ms : Z) : Z := ms - tz * 60000.

(** [d.getDay()] ; [None] is NaN. *)
Definition getDay (d : Date) : option Z :=
  match d with
  | Some ms => Some (weekDay (localTime ms / msPerDay))
  | None => None
  end.

(** [d.getDate()] *)
Definition getDate (d : Date) : option Z :=
  match d with
  | Some ms => let '(_, _, dd) := civilFromDays (localTime ms / msPerDay) in Some dd
  | None => None
  end.

(** [d.setDate(dt)]: the local year, month and time of day are kept,
    the day of the month becomes [dt], overflowing into the
    neighbouring months. *)
Definition setDate (d : Date) (dt : option Z) : Date :=
  match d, dt with
  | Some ms, Some dt =>
      let lt := localTime ms in
      let '(y, m, _) := civilFromDays (lt / msPerDay) in
      let day := daysFromCivil y m 1 + dt - 1 in
      timeClip (utcOfLocal (day * msPerDay + lt mod msPerDay))
  | _, _ => None
  end.
End Local.

Definition digitChar (d : Z) : ascii := ascii_of_N (48 + Z.to_N d).

(** The last [width] decimal digits of [n], zero padded. *)
Fixpoint padDigits (width : nat) (n : Z) : string :=
  match width with
  | O => EmptyString
  | S w => padDigits w (n / 10) +:+ String (digitChar (n mod 10)) EmptyString
  end.

Definition formatYear (y : Z) : string :=
  if (0 <=? y) && (y <=? 9999) then padDigits 4 y
  else (if y <? 0 then "-" else "+") +:+ padDigits 6 (Z.abs y).

(** [d.toISOString()]; [None] is the RangeError of an invalid date. *)
Definition toISOString (d : Date) : option string :=
  match d with
  | Some ms =>
      let '(y, m, dd) := civilFromDays (ms / msPerDay) in
      let r := ms mod msPerDay in
      Some (formatYear y +:+ "-" +:+ padDigits 2 m +:+ "-" +:+ padDigits 2 dd
            +:+ "T" +:+ padDigits 2 (r / 3600000)
            +:+ ":" +:+ padDigits 2 (r / 60000 mod 60)
            +:+ ":" +:+ padDigits 2 (r / 1000 mod 60)
            +:+ "." +:+ padDigits 3 (r mod 1000) +:+ "Z")
  | None => None
  end.

End JsDate.

(* ===================================================================== *)
(** ** What is taken from the runtime *)
(* ===================================================================== *)

(** The functions of the JavaScript runtime that the program calls and
    that work by tables and rules of the runtime's own, with what the
    language standard says of them: a string put in lower case holds no
    upper-case ASCII letter; trimming a trimmed string changes nothing,
    and trimming makes no string longer; a date of the date-only form is
    read as its midnight, UTC; a number is printed without a comma and
    without a double quote. *)
Class Runtime := {
  (** [s.toLowerCase()] *)
  toLowerCase : string -> string;
  (** [s.trim()] *)
  trim : string -> string;
  (** [new Date(s)] *)
  newDate : string -> JsDate.Date;
  (** [x.toString()] for a number [x] *)
  numberToString : number -> string;
  toLowerCase_lower :
    forall s c, In c (list_ascii_of_string (toLowerCase s)) ->
                JsString.isUpper c = false;
  trim_idempotent : forall s, trim (trim s) = trim s;
  trim_shorter : forall s, (String.length (trim s) <= String.length s)%nat;
  newDate_dateOnly :
    forall s ms, JsDate.dateOnly s = Some ms -> newDate s = Some ms;
  numberToString_plain :
    forall x c, In c (list_ascii_of_string (numberToString x)) ->
                c <> ","%char /\ c <> "034"%char
}.

(** A runtime to run the examples in.  It knows the ASCII letters and
    the ASCII white space, reads the dates of the date-only form and no
    other string, and prints a number with all the decimal digits of its
    value.  On ASCII text, on the dates of the calendar and on whole
    numbers below 10^21 it does what JavaScript does. *)
Module AsciiRuntime.

(** 'A'..'Z' are moved to 'a'..'z'. *)
Definition lowerChar (c : ascii) : ascii :=
  let n := N_of_ascii c in
  if ((65 <=? n) && (n <=? 90))%N then ascii_of_N (n + 32) else c.

Fixpoint lower (s : string) : string :=
  match s with
  | EmptyString => EmptyString
  | String c s' => String (lowerChar c) (lower s')
  end.

(** TAB, LF, VT, FF, CR and SPACE. *)
Definition isSpace (c : ascii) : bool :=
  let n := N_of_ascii c in
  ((9 <=? n) && (n <=? 13) || (n =? 32))%N.

Fixpoint trimStart (s : string) : string :=
  match s with
  | EmptyString => EmptyString
  | String c s' => if isSpace c then trimStart s' else s
  end.

Fixpoint trimEnd (s : string) : string :=
  match s with
  | EmptyString => EmptyString
  | String c s' =>
      match trimEnd s' with
      | EmptyString => if isSpace c then EmptyString else String c EmptyString
      | r => String c r
      end
  end.

Definition strip (s : string) : string := trimEnd (trimStart s).

(** The decimal digit of a number below ten. *)
Definition digit (d : N) : ascii :=
  match String.get (N.to_nat d) "0123456789" with
  | Some c => c
  | None => "0"%char
  end.

(** The decimal digits of a whole number. *)
Fixpoint digitsFrom (fuel : nat) (n : N) (done : string) : string :=
  match fuel with
  | O => done
  | S fuel' =>
      let done' := String (digit (n mod 10)) done in
      if (n / 10 =? 0)%N then done' else digitsFrom fuel' (n / 10) done'
  end.

Definition digits (n : N) : string := digitsFrom (S (N.to_nat (N.size n))) n "".

(** The decimal digits of [f / 2^1074], a number below one. *)
Fixpoint fraction (fuel : nat) (f : N) : string :=
  match fuel with
  | O => EmptyString
  | S fuel' =>
      if (f =? 0)%N then EmptyString
      else String (digit (f * 10 / 2 ^ 1074))
                  (fraction fuel' (f * 10 mod 2 ^ 1074))
  end.

Definition print (x : number) : string :=
  match x with
  | NaN => "NaN"
  | Infinity negative => if negative then "-Infinity" else "Infinity"
  | Finite negative m =>
      let f := (m mod 2 ^ 1074)%N in
      (if negative && negb (m =? 0)%N then "-" else "")
      +:+ digits (m / 2 ^ 1074)
      +:+ (if (f =? 0)%N then "" else String "."%char (fraction 1074 f))
  end.

#[local] Obligation Tactic := idtac.

Program Instance runtime : Runtime := {|
  toLowerCase := lower;
  trim := strip;
  newDate := JsDate.dateOnly;
  numberToString := print
|}.
Next Obligation.
  assert (Hc : forall c, JsString.isUpper (lowerChar c) = false).
  { intros c. unfold lowerChar, JsString.isUpper. cbv zeta.
    destruct ((65 <=? N_of_ascii c)%N && (N_of_ascii c <=? 90)%N) eqn:E.
    - apply Bool.andb_true_iff in E. destruct E as [E1 E2].
      apply N.leb_le in E1, E2.
      rewrite N_ascii_embedding by lia.
      apply Bool.andb_false_iff. right. apply N.leb_gt. lia.
    - exact E. }
  intros s. induction s as [|d s IH]; intros c; cbn [lower list_ascii_of_string].
  - intros [].
  - intros [<-|Hin]; [apply Hc|now apply IH].
Qed.
Next Obligation.
  assert (Hend : forall c s, trimEnd (String c s) = EmptyString
                             \/ exists r, trimEnd (String c s) = String c r).
  { intros c s. cbn [trimEnd]. destruct (trimEnd s).
    - destruct (isSpace c); [now left|right; eauto].
    - right. eauto. }
  assert (Hstart : forall s, trimStart s = EmptyString
                             \/ exists c r, trimStart s = String c r
                                            /\ isSpace c = false).
  { intros s. induction s as [|c s IH]; cbn [trimStart]; [now left|].
    destruct (isSpace c) eqn:E; [exact IH|right; eauto]. }
  assert (Hidem : forall s, trimEnd (trimEnd s) = trimEnd s).
  { intros s. induction s as [|c s IH]; [reflexivity|].
    cbn [trimEnd]. destruct (trimEnd s) as [|d r] eqn:E.
    - destruct (isSpace c) eqn:Ec; cbn [trimEnd]; [reflexivity|]. now rewrite Ec.
    - change (trimEnd (String c (String d r))) with
        (match trimEnd (String d r) with
         | EmptyString => if isSpace c then EmptyString else String c EmptyString
         | r' => String c r'
         end).
      now rewrite IH. }
  intros s. unfold strip.
  destruct (Hstart s) as [->|(c & r & -> & Hc)]; [reflexivity|].
  destruct (Hend c r) as [E|(r' & E)]; rewrite E; [reflexivity|].
  cbn [trimStart]. rewrite Hc, <- E. apply Hidem.
Qed.
Next Obligation.
  assert (Hstart : forall s, (String.length (trimStart s) <= String.length s)%nat).
  { intros s. induction s as [|c s IH]; [reflexivity|]. cbn [trimStart].
    destruct (isSpace c); cbn [String.length]; lia. }
  assert (Hend : forall s, (String.length (trimEnd s) <= String.length s)%nat).
  { intros s. induction s as [|c s IH]; [reflexivity|]. cbn [trimEnd].
    destruct (trimEnd s) as [|d r].
    - destruct (isSpace c); cbn [String.length]; lia.
    - cbn [String.length] in *. lia. }
  intros s. unfold strip. specialize (Hend (trimStart s)). specialize (Hstart s). lia.
Qed.
Next Obligation. intros s ms H. exact H. Qed.
Next Obligation.
  set (ok := fun c : ascii => c <> ","%char /\ c <> "034"%char).
  assert (Happ : forall a b c,
            In c (list_ascii_of_string (a +:+ b)) ->
            In c (list_ascii_of_string a) \/ In c (list_ascii_of_string b)).
  { intros a b c. induction a as [|x a IH].
    - now right.
    - change (String x a +:+ b) with (String x (a +:+ b)).
      cbn [list_ascii_of_string In]. tauto. }
  assert (Hdigit : forall d, ok (digit d)).
  { intros d. unfold digit.
    assert (H : forall n c, String.get n "0123456789" = Some c -> ok c).
    { intros n c. do 10 (destruct n as [|n]; [intros [= <-]; split; discriminate|]).
      discriminate. }
    destruct (String.get (N.to_nat d) "0123456789") as [c|] eqn:E;
      [now apply (H _ _ E)|split; discriminate]. }
  assert (Hdigits : forall fuel n done,
            (forall c, In c (list_ascii_of_string done) -> ok c) ->
            forall c, In c (list_ascii_of_string (digitsFrom fuel n done)) -> ok c).
  { intros fuel. induction fuel as [|fuel IH]; intros n done Hdone; [exact Hdone|].
    cbn [digitsFrom].
    assert (Hdone' : forall c,
              In c (list_ascii_of_string (String (digit (n mod 10)) done)) -> ok c).
    { intros c [<-|Hin]; [apply Hdigit|now apply Hdone]. }
    destruct (n / 10 =? 0)%N; [exact Hdone'|now apply IH]. }
  assert (Hfraction : forall fuel f c,
            In c (list_ascii_of_string (fraction fuel f)) -> ok c).
  { intros fuel. induction fuel as [|fuel IH]; intros f c; cbn [fraction].
    - intros [].
    - destruct (f =? 0)%N; [intros []|].
      intros [<-|Hin]; [apply Hdigit|now apply (IH _ _ Hin)]. }
  assert (Hword : forall w : string,
            forallb (fun c => negb (Ascii.eqb c ",") && negb (Ascii.eqb c "034"))
                    (list_ascii_of_string w) = true ->
            forall c, In c (list_ascii_of_string w) -> ok c).
  { intros w Hw c Hin. rewrite forallb_forall in Hw. specialize (Hw c Hin).
    apply Bool.andb_true_iff in Hw. destruct Hw as [H1 H2].
    apply Bool.negb_true_iff in H1, H2.
    split; intros ->; discriminate. }
  intros x c. destruct x as [|negative|negative m]; cbn [print].
  - now apply Hword.
  - destruct negative; now apply Hword.
  - cbv zeta. intros Hin.
    apply Happ in Hin. destruct Hin as [Hin|Hin].
    + destruct (negative && negb (m =? 0)%N); revert Hin; now apply Hword.
    + apply Happ in Hin. destruct Hin as [Hin|Hin].
      * revert Hin. apply Hdigits. intros ? [].
      * destruct (m mod 2 ^ 1074 =? 0)%N; [destruct Hin|].
        destruct Hin as [<-|Hin]; [split; discriminate|].
        now apply (Hfraction _ _ _ Hin).
Qed.

End AsciiRuntime.

(* ===================================================================== *)
(** ** The calculation engine on well-typed input *)
(* ===================================================================== *)

Inductive GroupBy := Day | Week | Month.

Module CalculationService.
Import JsString.

(** [transactions.reduce((sum, transaction) => sum + transaction.amount, 0)] *)
Definition sumAmounts (transactions : list Transaction) : number :=
  fold_left (fun sum transaction => JsNumber.add sum (tx_amount transaction))
            transactions JsNumber.zero.

Definition calculateTotalBalance (transactions : list Transaction) : number :=
  sumAmounts transactions.

(** The filter of [calculateMonthlySpending]. *)
Definition inMonth (month : string) (t : Transaction) : bool :=
  startsWith (tx_date t) month && JsNumber.ltb (tx_amount t) JsNumber.zero.

Definition calculateMonthlySpending
    (transactions : list Transaction) (month : string) : number :=
  let monthTransactions := List.filter (inMonth month) transactions in
  JsNumber.abs (sumAmounts monthTransactions).

(** [transaction => transaction.amount < 0] *)
Definition isExpense (transaction : Transaction) : bool :=
  JsNumber.ltb (tx_amount transaction) JsNumber.zero.

(** The body of the [forEach] of [calculateCategoryTotals]. *)
Definition addToCategory (categoryMap : JsMap.NumberMap) (transaction : Transaction)
  : JsMap.NumberMap :=
  let current := JsMap.getOr0 categoryMap (tx_category transaction) in
  JsMap.set categoryMap (tx_category transaction)
            (JsNumber.add current (JsNumber.abs (tx_amount transaction))).

(** The comparator [(a, b) => b.total - a.total], as the sort reads it. *)
Definition byTotal (a b : CategoryTotal) : Z :=
  JsNumber.signum (JsNumber.sub (ct_total b) (ct_total a)).

(** [calculateCategoryTotals] after its filter. *)
Definition categoryTotalsOf (expenses : list Transaction) : list CategoryTotal :=
  let categoryMap := fold_left addToCategory expenses [] in
  let totals :=
    List.map (fun '(category, total) => mkCategoryTotal category total)
             (JsMap.entries categoryMap) in
  sortWith byTotal totals.

Definition calculateCategoryTotals
    (transactions : list Transaction) : list CategoryTotal :=
  categoryTotalsOf (List.filter isExpense transactions).

Section Environment.
Context {R : Runtime}.
(** The time zone of the browser, in minutes ahead of UTC. *)
Variable tz : Z.

(** [getGroupKey]; [None] when [toISOString] throws. *)
Definition getGroupKey (date : string) (groupBy : GroupBy) : option string :=
  match groupBy with
  | Day => Some date
  | Month => Some (substring0 7 date)
  | Week =>
      let dateObj := newDate date in
      let dayOfWeek := JsDate.getDay tz dateObj in
      let diff :=
        match dayOfWeek with
        | Some dow => Some (if dow =? 0 then -6 else 1 - dow)
        | None => None
        end in
      let monday :=
        JsDate.setDate tz dateObj
          (match JsDate.getDate tz dateObj, diff with
           | Some d, Some k => Some (d + k)
           | _, _ => None
           end) in
      match JsDate.toISOString monday with
      | Some iso => Some (substring0 10 iso)
      | None => None
      end
  end.

(** The [forEach] of [calculateSpendingOverTime]; [None] when a group
    key cannot be computed and the loop is left by the exception. *)
Fixpoint groupSpending (groupBy : GroupBy) (expenses : list Transaction)
    (spendingMap : JsMap.NumberMap) : option JsMap.NumberMap :=
  match expenses with
  | [] => Some spendingMap
  | transaction :: rest =>
      match getGroupKey (tx_date transaction) groupBy with
      | Some groupKey =>
          let current := JsMap.getOr0 spendingMap groupKey in
          groupSpending groupBy rest
            (JsMap.set spendingMap groupKey
               (JsNumber.add current (JsNumber.abs (tx_amount transaction))))
      | None => None
      end
  end.

(** [calculateSpendingOverTime] after its filter. *)
Definition spendingOverTimeOf (expenses : list Transaction) (groupBy : GroupBy)
  : list SpendingOverTime :=
  match groupSpending groupBy expenses [] with
  | Some spendingMap =>
      let spendingData :=
        List.map (fun '(date, amount) => mkSpendingOverTime date amount)
                 (JsMap.entries spendingMap) in
      sortWith (fun a b => localeCompare (sp_date a) (sp_date b)) spendingData
  | None => []          (* the catch clause *)
  end.

Definition calculateSpendingOverTime
    (transactions : list Transaction) (groupBy : GroupBy)
  : list SpendingOverTime :=
  spendingOverTimeOf (List.filter isExpense transactions) groupBy.
End Environment.

(** The filter of [calculateBudgetRemaining]. *)
Definition isRelevant (budget : Budget) (t : Transaction) : bool :=
  startsWith (tx_date t) (b_month budget)
  && String.eqb (tx_category t) (b_category budget)
  && JsNumber.ltb (tx_amount t) JsNumber.zero.

Definition calculateBudgetRemaining
    (budget : Budget) (transactions : list Transaction) : number :=
  let relevantTransactions := List.filter (isRelevant budget) transactions in
  let spent := JsNumber.abs (sumAmounts relevantTransactions) in
  JsNumber.sub (b_limit budget) spent.

End CalculationService.

(* ===================================================================== *)
(** ** The calculation engine on any input *)
(* ===================================================================== *)

(** The engine is called from untyped views: its [try]/[catch] and its
    [Array.isArray] test decide what happens when the arguments are not
    what the types promise. *)
Module CalculationServiceJs.
Import JsString CalculationService.

(** A value found in the array where a transaction is expected: [null],
    [undefined], a transaction, or an object with a date and a category
    but no [amount] property. *)
Inductive Element :=
| ElNull
| ElUndefined
| ElTransaction (t : Transaction)
| ElNoAmount (date category : string).

(** The [transactions] argument. *)
Inductive Argument :=
| NotAnArray
| AnArray (elements : list Element).

(** The [budget] argument. *)
Inductive BudgetArgument :=
| BudgetNull
| BudgetUndefined
| BudgetObject (budget : Budget).

(** How a call of an engine function ends. *)
Inductive Result (A : Type) :=
| Returned (a : A)
| Raised.
Arguments Returned {A} a.
Arguments Raised {A}.

(** [try { body } catch (error) { handler }]; a [body] of [None] has
    thrown. *)
Definition tryCatch {A : Type} (body : option A) (handler : Result A) : Result A :=
  match body with
  | Some a => Returned a
  | None => handler
  end.

(** [if (!Array.isArray(transactions)) throw ...] *)
Definition requireArray {A : Type} (transactions : Argument)
    (k : list Element -> option A) : option A :=
  match transactions with
  | NotAnArray => None
  | AnArray elements => k elements
  end.

(** [transactions.reduce((sum, transaction) => sum + transaction.amount, 0)]:
    reading a property of [null] or [undefined] throws, a missing amount
    is [undefined] and makes the sum NaN. *)
Fixpoint reduceAmounts (sum : number) (elements : list Element) : option number :=
  match elements with
  | [] => Some sum
  | ElNull :: _ | ElUndefined :: _ => None
  | ElTransaction t :: rest => reduceAmounts (JsNumber.add sum (tx_amount t)) rest
  | ElNoAmount _ _ :: rest => reduceAmounts (JsNumber.add sum NaN) rest
  end.

(** [transactions.filter(callback)] for a callback that reads properties
    of the element and ends in [... && t.amount < 0]: reading a property
    of [null] or [undefined] throws, [undefined < 0] is false. *)
Fixpoint filterElements (callback : Transaction -> bool) (elements : list Element)
  : option (list Transaction) :=
  match elements with
  | [] => Some []
  | ElNull :: _ | ElUndefined :: _ => None
  | ElTransaction t :: rest =>
      match filterElements callback rest with
      | Some kept => Some (if callback t then t :: kept else kept)
      | None => None
      end
  | ElNoAmount _ _ :: rest => filterElements callback rest
  end.

Definition calculateTotalBalanceJs (transactions : Argument) : Result number :=
  tryCatch
    (requireArray transactions (fun elements => reduceAmounts JsNumber.zero elements))
    (Returned JsNumber.zero).

Definition calculateMonthlySpendingJs (transactions : Argument) (month : string)
  : Result number :=
  tryCatch
    (requireArray transactions (fun elements =>
       match filterElements (inMonth month) elements with
       | Some monthTransactions =>
           Some (JsNumber.abs (sumAmounts monthTransactions))
       | None => None
       end))
    (Returned JsNumber.zero).

Definition calculateCategoryTotalsJs (transactions : Argument)
  : Result (list CategoryTotal) :=
  tryCatch
    (requireArray transactions (fun elements =>
       match filterElements isExpense elements with
       | Some expenses => Some (categoryTotalsOf expenses)
       | None => None
       end))
    (Returned []).

Definition calculateSpendingOverTimeJs {R : Runtime} (tz : Z)
    (transactions : Argument) (groupBy : GroupBy)
  : Result (list SpendingOverTime) :=
  tryCatch
    (requireArray transactions (fun elements =>
       match filterElements isExpense elements with
       | Some expenses => Some (spendingOverTimeOf tz expenses groupBy)
       | None => None
       end))
    (Returned []).

(** [budget.limit], in the body and again in the [catch] clause. *)
Definition limitOf (budget : BudgetArgument) : option number :=
  match budget with
  | BudgetObject b => Some (b_limit b)
  | BudgetNull | BudgetUndefined => None
  end.

Definition calculateBudgetRemainingJs (budget : BudgetArgument)
    (transactions : Argument) : Result number :=
  tryCatch
    (requireArray transactions (fun elements =>
       match budget with
       | BudgetObject b =>
           match filterElements (isRelevant b) elements with
           | Some relevantTransactions =>
               let spent := JsNumber.abs (sumAmounts relevantTransactions) in
               Some (JsNumber.sub (b_limit b) spent)
           | None => None
           end
       | BudgetNull | BudgetUndefined => None
       end))
    (match limitOf budget with
     | Some limit => Returned limit
     | None => Raised
     end).

(** The input is malformed in a way the engine notices: the argument is
    not an array, or the array holds [null] or [undefined]. *)
Definition noticed (transactions : Argument) : Prop :=
  match transactions with
  | NotAnArray => True
  | AnArray elements => In ElNull elements \/ In ElUndefined elements
  end.

End CalculationServiceJs.

(* ===================================================================== *)
(** ** Vocabulary of the specification: the calculation engine *)
(* ===================================================================== *)

(** Sum of a list of integers. *)
Definition sumZ (l : list Z) : Z := fold_right Z.add 0 l.

Module CalculationSpec.
Import JsString CalculationService.

(** The amounts without their signs. *)
Definition absAmounts (l : list Transaction) : list number :=
  List.map (fun t => JsNumber.abs (tx_amount t)) l.

(** A transaction counts against a budget: its date starts with the
    month, its category is the very same string, it is an expense. *)
Definition countsAgainst (budget : Budget) (t : Transaction) : bool :=
  String.prefix (b_month budget) (tx_date t)
  && (if string_dec (tx_category t) (b_category budget) then true else false)
  && JsNumber.ltb (tx_amount t) JsNumber.zero.

(** The spent figure, in the words of the specification: the sum of
    |amount| over the transactions that count against the budget, added
    up in the order of the list. *)
Definition spent (budget : Budget) (transactions : list Transaction) : number :=
  JsNumber.sumOf (absAmounts (List.filter (countsAgainst budget) transactions)).

Definition totals (l : list CategoryTotal) : list number := List.map ct_total l.

(** Each total is at least the next one. *)
Definition descending (l : list CategoryTotal) : Prop :=
  Sorted (fun a b => JsNumber.leb (ct_total b) (ct_total a) = true) l.

(** Each total is strictly greater than the next one. *)
Definition strictlyDescending (l : list CategoryTotal) : Prop :=
  Sorted (fun a b => JsNumber.ltb (ct_total b) (ct_total a) = true) l.

(** The sum of |amount| over the expenses of a category, added up in the
    order of the list. *)
Definition categorySpending (category : string) (l : list Transaction) : number :=
  JsNumber.sumOf
    (absAmounts
       (List.filter
          (fun t => isExpense t && String.eqb (tx_category t) category) l)).

(** One step of the loops that add each expense to the figure kept under
    its key: the category in [calculateCategoryTotals], the group key in
    [calculateSpendingOverTime]. *)
Definition groupStep (key : Transaction -> string) (m : JsMap.NumberMap)
    (t : Transaction) : JsMap.NumberMap :=
  JsMap.set m (key t)
    (JsNumber.add (JsMap.getOr0 m (key t)) (JsNumber.abs (tx_amount t))).

(** Every figure kept in a map is above zero. *)
Definition positiveValues (m : JsMap.NumberMap) : Prop :=
  forall k v, JsMap.get m k = Some v -> JsNumber.ltb JsNumber.zero v = true.

(** The key of the week of a date, from what [new Date] makes of the
    date: the steps of [getGroupKey] after the date is read. *)
Definition weekKeyOf (tz : Z) (dateObj : JsDate.Date) : option string :=
  match JsDate.toISOString
          (JsDate.setDate tz dateObj
             match JsDate.getDate tz dateObj,
                   match JsDate.getDay tz dateObj with
                   | Some dow => Some (if dow =? 0 then -6 else 1 - dow)
                   | None => None
                   end with
             | Some d, Some k => Some (d + k)
             | _, _ => None
             end) with
  | Some iso => Some (substring0 10 iso)
  | None => None
  end.

(** The key that names a day, given by its day number: the first ten
    characters of the ISO string of its midnight, UTC. *)
Definition dayKey (day : Z) : option string :=
  match JsDate.toISOString (Some (day * JsDate.msPerDay)) with
  | Some iso => Some (substring0 10 iso)
  | None => None
  end.

(** The way back to Monday from a day, as [getGroupKey] computes it: six
    days from a Sunday, [dayOfWeek - 1] days from any other day. *)
Definition mondayShift (day : Z) : Z :=
  let dayOfWeek := JsDate.weekDay day in
  if dayOfWeek =? 0 then -6 else 1 - dayOfWeek.

(** Bucket keys in ascending order. *)
Definition ascendingKeys (l : list SpendingOverTime) : Prop :=
  Sorted (fun a b => String.leb (sp_date a) (sp_date b) = true) l.

End CalculationSpec.

(* ===================================================================== *)
(** ** Errors and promises ([utils/errorHandling.ts]) *)
(* ===================================================================== *)

(** The class of an error object, as [instanceof] sees it. *)
Inductive ErrorClass :=
| PlainError | ValidationErrorClass | StorageErrorClass | NetworkErrorClass
| DOMExceptionClass.

(** An instance of [Error]: its class, [name], [message] and, for a
    [StorageError], the error it wraps. *)
#[warnings="-register-all"]
Inductive Error :=
| mkError (cls : ErrorClass) (name message : string) (originalError : option Error).

Definition err_class (e : Error) : ErrorClass := let 'mkError c _ _ _ := e in c.
Definition err_name (e : Error) : string := let 'mkError _ n _ _ := e in n.
Definition err_message (e : Error) : string := let 'mkError _ _ m _ := e in m.
Definition err_original (e : Error) : option Error := let 'mkError _ _ _ o := e in o.

(** [new Error(message)] *)
Definition newError (message : string) : Error :=
  mkError PlainError "Error" message None.

(** [new ValidationError(message)] *)
Definition ValidationError (message : string) : Error :=
  mkError ValidationErrorClass "ValidationError" message None.

(** [new StorageError(message, originalError)] *)
Definition StorageError (message : string) (originalError : option Error) : Error :=
  mkError StorageErrorClass "StorageError" message originalError.

(** An exception of the embedded store. *)
Definition DOMException (name message : string) : Error :=
  mkError DOMExceptionClass name message None.

(** What a [throw] or a rejected promise carries: an [Error] instance, or
    any other value, kept as its [String(value)]. *)
Inductive Thrown :=
| ThrowError (e : Error)
| ThrowValue (repr : string).

(** How an awaited promise settles. *)
Inductive Outcome (A : Type) :=
| Resolved (a : A)
| Rejected (error : Thrown).
Arguments Resolved {A} a.
Arguments Rejected {A} error.

(** [error instanceof Error ? error : new Error(String(error))] *)
Definition toError (error : Thrown) : Error :=
  match error with
  | ThrowError e => e
  | ThrowValue repr => newError repr
  end.

Definition transientMessages : list string :=
  ["network"; "timeout"; "temporarily unavailable"; "connection";
   "ECONNREFUSED"; "ETIMEDOUT"].

Definition isTransientError {R : Runtime} (error : Error) : bool :=
  let errorMessage := toLowerCase (err_message error) in
  existsb (fun msg => JsString.includes errorMessage msg) transientMessages.

(** What an observer of [retryWithBackoff] sees: calls of [fn], numbered
    from 0, and waits on the timer, in milliseconds. *)
Inductive Event :=
| Attempt (attempt : Z)
| Wait (delay : Z).

(** An asynchronous computation over a state [St]. *)
Definition Async (St A : Type) : Type := St -> Outcome A * St.

Section Retry.
Context {R : Runtime} {St A : Type}.
Variable fn : Async St A.
Variables maxRetries initialDelay : Z.

(** The [for] loop, entered with [iterations] rounds to go. *)
Fixpoint retryLoop (iterations : nat) (attempt : Z) (lastError : option Error)
    (s : St) : Outcome A * St * list Event :=
  match iterations with
  | O =>
      (* [throw lastError!] after the loop *)
      (Rejected (match lastError with
                 | Some e => ThrowError e
                 | None => ThrowValue "undefined"
                 end), s, [])
  | S iterations' =>
      let '(result, s1) := fn s in
      match result with
      | Resolved a => (Resolved a, s1, [Attempt attempt])
      | Rejected error =>
          let lastError := toError error in
          if negb (isTransientError lastError)
          then (Rejected (ThrowError lastError), s1, [Attempt attempt])
          else if attempt =? maxRetries
          then (Rejected (ThrowError lastError), s1, [Attempt attempt])
          else
            let delay := initialDelay * 2 ^ attempt in
            let '(result', s2, events) :=
              retryLoop iterations' (attempt + 1) (Some lastError) s1 in
            (result', s2, Attempt attempt :: Wait delay :: events)
      end
  end.

(** [for (let attempt = 0; attempt <= maxRetries; attempt++)] *)
Definition retryWithBackoff (s : St) : Outcome A * St * list Event :=
  retryLoop (Z.to_nat (maxRetries + 1)) 0 None s.

(** The same, without the record of the observer. *)
Definition retrying : Async St A :=
  fun s => let '(result, s', _) := retryWithBackoff s in (result, s').
End Retry.

(** Sequencing of awaited computations; a rejection ends the sequence. *)
Definition ret {St A : Type} (a : A) : Async St A := fun s => (Resolved a, s).

Definition throw {St A : Type} (e : Error) : Async St A :=
  fun s => (Rejected (ThrowError e), s).

Definition bind {St A B : Type} (c : Async St A) (k : A -> Async St B)
  : Async St B :=
  fun s =>
    match c s with
    | (Resolved a, s') => k a s'
    | (Rejected error, s') => (Rejected error, s')
    end.

(** [try { c } catch (error) { throw handler(error) }] *)
Definition catchRethrow {St A : Type} (c : Async St A) (handler : Thrown -> Thrown)
  : Async St A :=
  fun s =>
    match c s with
    | (Resolved a, s') => (Resolved a, s')
    | (Rejected error, s') => (Rejected (handler error), s')
    end.

Notation "'await' x '<-' c ';' k" := (bind c (fun x => k))
  (at level 10, x name, c at level 100, k at level 200).
Notation "'awaiting' c ';' k" := (bind c (fun _ => k))
  (at level 10, c at level 100, k at level 200).

(* ===================================================================== *)
(** ** The storage adapter ([services/storage.ts]) *)
(* ===================================================================== *)

(** Values of the fields of a stored object. *)
Inductive JsValue :=
| VUndefined | VNull | VBool (b : bool) | VNum (n : number) | VStr (s : string).

#[global] Instance number_eq_dec : EqDecision number.
Proof. solve_decision. Defined.

#[global] Instance JsValue_eq_dec : EqDecision JsValue.
Proof. solve_decision. Defined.

(** The key an index holds for a record. *)
Definition IndexKey : Type := list JsValue.

(** What [IndexedDBAdapter<T extends { id: string }>] needs of [T]:
    [Omit<T, 'id'>], [Partial<T>], the two object spreads of the adapter
    and the value at the key path ['id']. *)
Class Entity (T : Type) := {
  Draft : Type;
  Patch : Type;
  (** [{ ...item, id }] *)
  withId : Draft -> string -> T;
  (** [{ ...existing, ...item, id }] *)
  spread : T -> Patch -> string -> T;
  (** [value.id] *)
  keyOf : T -> string;
  keyOf_withId : forall item id, keyOf (withId item id) = id;
  keyOf_spread : forall existing item id, keyOf (spread existing item id) = id
}.

Module UUID.

Definition template : string := "xxxxxxxx-xxxx-4xxx-yxxx-xxxxxxxxxxxx".

(** [v.toString(16)] for [v] in 0..15 *)
Definition hexDigit (v : Z) : ascii :=
  match String.get (Z.to_nat v) "0123456789abcdef" with
  | Some c => c
  | None => "?"%char
  end.

(** The callback of [replace(/[xy]/g, ...)]; [r] is [(Math.random() * 16) | 0]. *)
Definition replacement (c : ascii) (r : Z) : ascii :=
  let v := if Ascii.eqb c "x" then r else Z.lor (Z.land r 3) 8 in
  hexDigit v.

(** The [i]-th call of [Math.random] is answered from [rnd]. *)
Fixpoint fill (template : string) (rnd : nat -> Z) (i : nat) : string :=
  match template with
  | EmptyString => EmptyString
  | String c rest =>
      if Ascii.eqb c "x" || Ascii.eqb c "y"
      then String (replacement c (rnd i mod 16)) (fill rest rnd (S i))
      else String c (fill rest rnd i)
  end.

Definition generateUUID (rnd : nat -> Z) : string := fill template rnd 0.

End UUID.

Module IndexedDBAdapter.
Section Adapter.
Context {R : Runtime} {T : Type} {EntityT : Entity T}.

(** The unique indexes of the object store: for each, the key it holds
    for a record, if the record has one. *)
Variable uniqueIndexes : list (T -> option IndexKey).

Local Abbreviation Store := (gmap string T).

(** Another record already holds the key of [value] in a unique index. *)
Definition indexClash (s : Store) (value : T) : bool :=
  existsb
    (fun index =>
       match index value with
       | None => false
       | Some k =>
           existsb
             (fun entry =>
                negb (String.eqb (fst entry) (keyOf value))
                && bool_decide (index (snd entry) = Some k))
             (map_to_list s)
       end)
    uniqueIndexes.

Definition keyExists : Error :=
  DOMException "ConstraintError" "Key already exists in the object store.".

Definition indexViolated : Error :=
  DOMException "ConstraintError"
    "Unable to add key to index: at least one key does not satisfy the uniqueness requirements.".

(** [db.add(storeName, value)] *)
Definition db_add (value : T) : Async Store unit :=
  fun s =>
    match s !! keyOf value with
    | Some _ => (Rejected (ThrowError keyExists), s)
    | None =>
        if indexClash s value then (Rejected (ThrowError indexViolated), s)
        else (Resolved tt, <[keyOf value := value]> s)
    end.

(** [db.put(storeName, value)] *)
Definition db_put (value : T) : Async Store unit :=
  fun s =>
    if indexClash s value then (Rejected (ThrowError indexViolated), s)
    else (Resolved tt, <[keyOf value := value]> s).

(** [db.get(storeName, id)] *)
Definition db_get (id : string) : Async Store (option T) :=
  fun s => (Resolved (s !! id), s).

(** The records of a store in the ascending order of their keys; keys
    that are strings are ordered by their code units. *)
Definition records (s : Store) : list T :=
  List.map snd
    (sortWith (fun a b => JsString.compareCodeUnits (fst a) (fst b))
              (map_to_list s)).

(** [db.getAll(storeName)] *)
Definition db_getAll : Async Store (list T) :=
  fun s => (Resolved (records s), s).

(** [db.delete(storeName, id)] *)
Definition db_delete (id : string) : Async Store unit :=
  fun s => (Resolved tt, delete id s).

Definition add (rnd : nat -> Z) (item : Draft) : Async Store string :=
  catchRethrow
    (let id := UUID.generateUUID rnd in
     let itemWithId := withId item id in
     awaiting retrying (db_add itemWithId) 2 100;
     ret id)
    (fun error =>
       match error with
       | ThrowError e =>
           if String.eqb (err_name e) "QuotaExceededError"
           then ThrowError (StorageError
                  "Storage quota exceeded. Please export your data and clear old records."
                  (Some e))
           else ThrowError (StorageError ("Failed to add item: " +:+ err_message e)
                                         (Some e))
       | ThrowValue _ => ThrowError (StorageError "Failed to add item: Unknown error" None)
       end).

Definition getAll : Async Store (list T) :=
  catchRethrow
    (retrying db_getAll 2 100)
    (fun error =>
       match error with
       | ThrowError e =>
           ThrowError (StorageError ("Failed to retrieve items: " +:+ err_message e)
                                    (Some e))
       | ThrowValue _ =>
           ThrowError (StorageError "Failed to retrieve items: Unknown error" None)
       end).

Definition getById (id : string) : Async Store (option T) :=
  catchRethrow
    (retrying (db_get id) 2 100)
    (fun error =>
       match error with
       | ThrowError e =>
           ThrowError (StorageError ("Failed to retrieve item: " +:+ err_message e)
                                    (Some e))
       | ThrowValue _ =>
           ThrowError (StorageError "Failed to retrieve item: Unknown error" None)
       end).

Definition notFound (id : string) : Error :=
  StorageError ("Item with id " +:+ id +:+ " not found") None.

(** The function [update] hands to [retryWithBackoff]. *)
Definition updateAttempt (id : string) (item : Patch) : Async Store unit :=
  await existing <- db_get id;
  match existing with
  | None => throw (notFound id)
  | Some existing =>
      let updated := spread existing item id in
      db_put updated
  end.

Definition update (id : string) (item : Patch) : Async Store unit :=
  catchRethrow
    (retrying (updateAttempt id item) 2 100)
    (fun error =>
       match error with
       | ThrowError e =>
           match err_class e with
           | StorageErrorClass => ThrowError e
           | _ => ThrowError (StorageError ("Failed to update item: " +:+ err_message e)
                                           (Some e))
           end
       | ThrowValue _ =>
           ThrowError (StorageError "Failed to update item: Unknown error" None)
       end).

Definition delete (id : string) : Async Store unit :=
  catchRethrow
    (retrying (db_delete id) 2 100)
    (fun error =>
       match error with
       | ThrowError e =>
           ThrowError (StorageError ("Failed to delete item: " +:+ err_message e)
                                    (Some e))
       | ThrowValue _ =>
           ThrowError (StorageError "Failed to delete item: Unknown error" None)
       end).

End Adapter.
End IndexedDBAdapter.

(** *** Stored objects as the runtime has them: fields by name *)

Abbreviation JsObject := (gmap string JsValue).

Module JsObjects.

Definition idOf (o : JsObject) : string :=
  match o !! "id" with
  | Some (VStr k) => k
  | _ => ""
  end.

#[global] Program Instance JsObject_Entity : Entity JsObject := {
  Draft := JsObject;
  Patch := JsObject;
  withId item id := <["id" := VStr id]> item;
  spread existing item id := <["id" := VStr id]> (item ∪ existing);
  keyOf := idOf
}.
Next Obligation. intros item id. unfold idOf. now rewrite lookup_insert_eq. Qed.
Next Obligation. intros existing item id. unfold idOf. now rewrite lookup_insert_eq. Qed.

(** A number as a key: NaN is not a valid key, and the two zeros are
    one key. *)
Definition numberKey (n : number) : option JsValue :=
  match n with
  | NaN => None
  | Infinity _ => Some (VNum n)
  | Finite _ m => Some (VNum (if (m =? 0)%N then JsNumber.zero else n))
  end.

(** The key of a record in an index on the key path [paths]; a record
    lacking a valid key on a component is not indexed. *)
Fixpoint indexKey (paths : list string) (o : JsObject) : option IndexKey :=
  match paths with
  | [] => Some []
  | f :: rest =>
      match o !! f, indexKey rest o with
      | Some (VStr s), Some k => Some (VStr s :: k)
      | Some (VNum n), Some k =>
          match numberKey n with
          | Some key => Some (key :: k)
          | None => None
          end
      | _, _ => None
      end
  end.

(** The two object stores of the database. *)
Definition transactionStoreIndexes : list (JsObject -> option IndexKey) := [].
Definition budgetStoreIndexes : list (JsObject -> option IndexKey) :=
  [indexKey ["month"; "category"]].

End JsObjects.

(* ===================================================================== *)
(** ** Vocabulary of the specification: retries and the adapter *)
(* ===================================================================== *)

Module RetrySpec.
Section Attempts.
Context {St A : Type}.
Variable fn : Async St A.

(** The state in which call number [k] of [fn] starts. *)
Fixpoint stateBefore (k : nat) (s : St) : St :=
  match k with
  | O => s
  | S k' => stateBefore k' (snd (fn s))
  end.

(** How call number [k] of [fn] settles, and the state it leaves. *)
Definition attemptOutcome (k : nat) (s : St) : Outcome A :=
  fst (fn (stateBefore k s)).

Definition stateAfter (k : nat) (s : St) : St :=
  snd (fn (stateBefore k s)).
End Attempts.

(** A call that failed with an error classified as transient. *)
Definition failedTransient {R : Runtime} {A : Type} (r : Outcome A) : bool :=
  match r with
  | Resolved _ => false
  | Rejected error => isTransientError (toError error)
  end.

(** Calls number [from] to [from + retries], each but the last followed
    by its wait. *)
Fixpoint schedule (initialDelay from : Z) (retries : nat) : list Event :=
  match retries with
  | O => [Attempt from]
  | S n => Attempt from :: Wait (initialDelay * 2 ^ from)
           :: schedule initialDelay (from + 1) n
  end.

Definition isAttempt (e : Event) : bool :=
  match e with Attempt _ => true | Wait _ => false end.

End RetrySpec.

Module AdapterSpec.

(** Every record sits under the key its [id] field names (the object
    stores are created with the key path ['id']). *)
Definition keyed (s : gmap string JsObject) : Prop :=
  forall k o, s !! k = Some o -> o !! "id" = Some (VStr k).

End AdapterSpec.

(* ===================================================================== *)
(** ** The budget service ([services/budgetService.ts]) *)
(* ===================================================================== *)

(** [x !== undefined] *)
Definition isDefined {A : Type} (x : option A) : bool :=
  match x with Some _ => true | None => false end.

(** [Omit<Budget, 'id'>] *)
Record BudgetData := mkBudgetData {
  d_month : string;
  d_category : string;
  d_limit : number
}.

(** [Partial<Budget>]; [None] is a property that is not there. *)
Record BudgetPatch := mkBudgetPatch {
  p_id : option string;
  p_month : option string;
  p_category : option string;
  p_limit : option number
}.

(** [Partial<Omit<Budget, 'id'>>] *)
Record BudgetUpdate := mkBudgetUpdate {
  u_month : option string;
  u_category : option string;
  u_limit : option number
}.

#[global] Instance Budget_Entity : Entity Budget := {
  Draft := BudgetData;
  Patch := BudgetPatch;
  withId item id := mkBudget id (d_month item) (d_category item) (d_limit item);
  spread existing item id :=
    mkBudget id
      (default (b_month existing) (p_month item))
      (default (b_category existing) (p_category item))
      (default (b_limit existing) (p_limit item));
  keyOf := b_id;
  keyOf_withId := fun _ _ => eq_refl;
  keyOf_spread := fun _ _ _ => eq_refl
}.

Module BudgetService.
Import JsString.

Abbreviation Store := (gmap string Budget).

(** A synchronous check inside an asynchronous function. *)
Definition check {St : Type} (failure : option Error) : Async St unit :=
  match failure with
  | Some e => throw e
  | None => ret tt
  end.

(** [catch (error) { logError(...); throw error; }] *)
Definition logged {St A : Type} (c : Async St A) : Async St A :=
  catchRethrow c (fun error => error).

(** The unique index ['month-category'] of the object store of budgets. *)
Definition budgetIndexes : list (Budget -> option IndexKey) :=
  [fun budget => Some [VStr (b_month budget); VStr (b_category budget)]].

(** [/^\d{4}-\d{2}$/.test(month)] *)
Definition monthRegex (month : string) : bool :=
  match list_ascii_of_string month with
  | [y1; y2; y3; y4; h; m1; m2] =>
      JsDate.isDigit y1 && JsDate.isDigit y2 && JsDate.isDigit y3
      && JsDate.isDigit y4 && Ascii.eqb h "-"
      && JsDate.isDigit m1 && JsDate.isDigit m2
  | _ => false
  end.

Section WithRuntime.
Context {R : Runtime}.

(** [validateBudgetData]: the error it throws, if any.  The checks of the
    JavaScript type of a field hold by the type of [data]. *)
Definition validateBudgetData (data : BudgetData) : option Error :=
  if String.eqb (d_month data) ""
  then Some (ValidationError "Month is required and must be a string")
  else if negb (monthRegex (d_month data))
  then Some (ValidationError "Month must be in YYYY-MM format")
  else if negb (isDefined (newDate (d_month data +:+ "-01")))
  then Some (ValidationError "Month must be a valid month")
  else if String.eqb (d_category data) ""
  then Some (ValidationError "Category is required and must be a string")
  else if (String.length (trim (d_category data)) =? 0)%nat
  then Some (ValidationError "Category cannot be empty")
  else if (50 <? String.length (d_category data))%nat
  then Some (ValidationError "Category must not exceed 50 characters")
  else if negb (JsNumber.isFinite (d_limit data))
  then Some (ValidationError "Limit must be a finite number")
  else if JsNumber.leb (d_limit data) JsNumber.zero
  then Some (ValidationError "Limit must be a positive number")
  else None.

(** [excludeId && budget.id === excludeId] *)
Definition excluded (excludeId : option string) (budget : Budget) : bool :=
  match excludeId with
  | Some e => negb (String.eqb e "") && String.eqb (b_id budget) e
  | None => false
  end.

(** The callback of [allBudgets.some]. *)
Definition collidesWith (month normalizedCategory : string)
    (excludeId : option string) (budget : Budget) : bool :=
  if excluded excludeId budget then false
  else String.eqb (b_month budget) month
       && String.eqb (toLowerCase (b_category budget)) normalizedCategory.

Definition isDuplicateBudget (month category : string) (excludeId : option string)
  : Async Store bool :=
  await allBudgets <- IndexedDBAdapter.getAll;
  let normalizedCategory := toLowerCase (trim category) in
  ret (existsb (collidesWith month normalizedCategory excludeId) allBudgets).

Definition alreadyExists (category month : string) : Error :=
  ValidationError
    ("A budget for " +:+ category +:+ " in " +:+ month +:+ " already exists").

Definition addBudget (rnd : nat -> Z) (data : BudgetData) : Async Store Budget :=
  logged (
    awaiting check (validateBudgetData data);
    let sanitizedData :=
      mkBudgetData (d_month data) (trim (d_category data)) (d_limit data) in
    await isDuplicate <-
      isDuplicateBudget (d_month sanitizedData) (d_category sanitizedData) None;
    if isDuplicate : bool
    then throw (alreadyExists (d_category sanitizedData) (d_month sanitizedData))
    else
      await id <- IndexedDBAdapter.add (EntityT := Budget_Entity) budgetIndexes rnd
                  sanitizedData;
      ret (mkBudget id (d_month sanitizedData) (d_category sanitizedData)
                    (d_limit sanitizedData))).

(** [Object.keys(data).length === 0] *)
Definition noKeys (data : BudgetUpdate) : bool :=
  negb (isDefined (u_month data)) && negb (isDefined (u_category data))
  && negb (isDefined (u_limit data)).

(** The merged view that [updateBudget] validates. *)
Definition mergedData (existing : Budget) (data : BudgetUpdate) : BudgetData :=
  mkBudgetData
    (default (b_month existing) (u_month data))
    (default (b_category existing) (u_category data))
    (default (b_limit existing) (u_limit data)).

(** The fields that [updateBudget] writes. *)
Definition sanitizedUpdate (data : BudgetUpdate) : BudgetPatch :=
  mkBudgetPatch None (u_month data) (trim <$> u_category data) (u_limit data).

Definition updateBudget (id : string) (data : BudgetUpdate) : Async Store unit :=
  logged (
    if noKeys data then throw (ValidationError "No data provided for update")
    else
      await existing <- IndexedDBAdapter.getById id;
      match existing with
      | None => throw (newError ("Budget with id " +:+ id +:+ " not found"))
      | Some existing =>
          let mergedData := mergedData existing data in
          awaiting check (validateBudgetData mergedData);
          awaiting
            (if isDefined (u_month data) || isDefined (u_category data)
             then
               await isDuplicate <-
                 isDuplicateBudget (d_month mergedData) (d_category mergedData)
                                   (Some id);
               if isDuplicate : bool
               then throw (alreadyExists (d_category mergedData) (d_month mergedData))
               else ret tt
             else ret tt);
          IndexedDBAdapter.update (EntityT := Budget_Entity) budgetIndexes id
            (sanitizedUpdate data)
      end).

Definition deleteBudget (id : string) : Async Store unit :=
  logged (IndexedDBAdapter.delete id).

Definition getAllBudgets : Async Store (list Budget) :=
  logged IndexedDBAdapter.getAll.

End WithRuntime.
End BudgetService.

(* ===================================================================== *)
(** ** Vocabulary of the specification: the budget service *)
(* ===================================================================== *)

Module BudgetSpec.
Import JsString BudgetService.

(** A call of the service that can write. *)
Inductive Request :=
| AddBudget (rnd : nat -> Z) (data : BudgetData)
| UpdateBudget (id : string) (data : BudgetUpdate)
| DeleteBudget (id : string).

Section WithRuntime.
Context {R : Runtime}.

(** The store after a call, whether the call succeeded or not. *)
Definition after (request : Request) (s : Store) : Store :=
  match request with
  | AddBudget rnd data => snd (addBudget rnd data s)
  | UpdateBudget id data => snd (updateBudget id data s)
  | DeleteBudget id => snd (deleteBudget id s)
  end.

(** The stores the service can bring about, from the empty one. *)
Inductive reachable : Store -> Prop :=
| reachable_empty : reachable ∅
| reachable_after (request : Request) (s : Store) :
    reachable s -> reachable (after request s).

(** Two budgets of one month whose categories are equal up to case are
    one budget. *)
Definition uniqueBudgets (s : Store) : Prop :=
  forall k1 k2 b1 b2,
    s !! k1 = Some b1 -> s !! k2 = Some b2 ->
    b_month b1 = b_month b2 ->
    toLowerCase (b_category b1) = toLowerCase (b_category b2) ->
    k1 = k2.

(** A stored budget takes the month, and up to case the trimmed category. *)
Definition takes (budget : Budget) (month category : string) : Prop :=
  b_month budget = month
  /\ toLowerCase (b_category budget) = toLowerCase (trim category).

Definition valid (data : BudgetData) : Prop := validateBudgetData data = None.

(** The budgets [getAll] answers with. *)
Definition values (s : Store) : list Budget := IndexedDBAdapter.records s.

(** What the service keeps true of every stored budget: it sits under its
    own identifier, which is not the empty string, and its category has
    no white space around it. *)
Definition wellKept (s : Store) : Prop :=
  forall k b,
    s !! k = Some b ->
    b_id b = k /\ k <> "" /\ trim (b_category b) = b_category b.

(** The two properties every reachable store has. *)
Definition kept (s : Store) : Prop := wellKept s /\ uniqueBudgets s.

(** The record [updateBudget] leaves under [id]. *)
Definition updated (id : string) (existing : Budget) (data : BudgetUpdate) : Budget :=
  mkBudget id
    (default (b_month existing) (u_month data))
    (default (b_category existing) (trim <$> u_category data))
    (default (b_limit existing) (u_limit data)).

End WithRuntime.
End BudgetSpec.

(* ===================================================================== *)
(** ** Sample data *)
(* ===================================================================== *)

Module Examples.
Import JsObjects BudgetService BudgetSpec.

#[local] Existing Instance AsciiRuntime.runtime.

(** A function that settles as a script says, one entry per call. *)
Definition scripted {A : Type} (default : Outcome A) : Async (list (Outcome A)) A :=
  fun script =>
    match script with
    | [] => (default, [])
    | r :: rest => (r, rest)
    end.

Definition networkDown : Thrown := ThrowError (newError "Network request failed").
Definition timedOut : Thrown := ThrowError (newError "Operation timeout").

(** A transaction as the adapter receives it, before its identifier. *)
Definition groceries : JsObject :=
  {[ "date" := VStr "2025-01-15"; "amount" := VNum (JsNumber.decimal (-4550) 100);
     "category" := VStr "Groceries" ]}.

(** A source of random numbers that always answers 7. *)
Definition sevens : nat -> Z := fun _ => 7.

Definition oneRecord : gmap string JsObject :=
  snd (IndexedDBAdapter.add transactionStoreIndexes sevens groceries ∅).

Definition stored : JsObject := <["id" := VStr "a1"]> groceries.

Definition lowerAmount : JsObject := {[ "amount" := VNum (JsNumber.ofZ (-50)) ]}.

Definition afterUpdate : gmap string JsObject :=
  snd (IndexedDBAdapter.update transactionStoreIndexes "a1" lowerAmount
         {[ "a1" := stored ]}).


(** The collection that holds [stored] under its identifier. *)
Definition oneStored : gmap string JsObject := {[ "a1" := stored ]}.

(** A partial object that names the [id] field. *)
Definition otherId : JsObject :=
  {[ "id" := VStr "z9"; "amount" := VNum (JsNumber.ofZ (-1)) ]}.

Definition afterOtherId : gmap string JsObject :=
  snd (IndexedDBAdapter.update transactionStoreIndexes "a1" otherId oneStored).

(** Two purchases of groceries, the second one filed in lower case. *)
Definition groceriesBudget : Budget :=
  mkBudget "b1" "2025-01" "Groceries" (JsNumber.ofZ 400).
Definition purchase1 : Transaction :=
  mkTransaction "t1" "2025-01-15" (JsNumber.decimal (-4550) 100) "Groceries" None.
Definition purchase2 : Transaction :=
  mkTransaction "t2" "2025-01-20" (JsNumber.ofZ (-10)) "groceries" None.

(** An array with a hole in it. *)
Definition withNull : CalculationServiceJs.Argument :=
  CalculationServiceJs.AnArray
    [CalculationServiceJs.ElTransaction purchase1; CalculationServiceJs.ElNull].

(** A source of random numbers that always answers 3. *)
Definition threes : nat -> Z := fun _ => 3.

Definition id7 : string := "77777777-7777-4777-b777-777777777777".
Definition id3 : string := "33333333-3333-4333-b333-333333333333".

(** The store after a budget for groceries and one for rent were added. *)
Definition twoBudgets : Store :=
  after (AddBudget threes (mkBudgetData "2025-01" "Rent" (JsNumber.ofZ 1200)))
    (after (AddBudget sevens
              (mkBudgetData "2025-01" " Groceries" (JsNumber.ofZ 400))) ∅).

End Examples.

(* ===================================================================== *)
(** ** Messages for the user ([utils/errorHandling.ts]) *)
(* ===================================================================== *)

Module ErrorMessages.
Import JsString.

Definition storageFull : string :=
  "Storage is full. Please export your data and clear old records.".
Definition saveFailed : string := "Failed to save data. Please try again.".
Definition itemNotFound : string := "The requested item was not found.".
Definition unexpected : string := "An unexpected error occurred. Please try again.".

(** [getUserFriendlyErrorMessage(error)]: the [instanceof] tests in the
    order of the source, then the fallback for what is not an [Error]. *)
Definition getUserFriendlyErrorMessage (error : Thrown) : string :=
  match error with
  | ThrowError e =>
      match err_class e with
      | ValidationErrorClass => err_message e
      | StorageErrorClass =>
          if includes (err_message e) "quota exceeded" then storageFull
          else saveFailed
      | _ =>
          if includes (err_message e) "not found" then itemNotFound
          else if includes (err_message e) "duplicate" then err_message e
          else if includes (err_message e) "quota exceeded" then storageFull
          else if (String.length (err_message e) <? 100)%nat
                  && negb (includes (err_message e) "undefined")
          then err_message e
          else unexpected
      end
  | ThrowValue _ => unexpected
  end.

End ErrorMessages.

(* ===================================================================== *)
(** ** The transaction service ([services/transactionService.ts]) *)
(* ===================================================================== *)

(** [Omit<Transaction, 'id'>] *)
Record TransactionData := mkTransactionData {
  td_date : string;
  td_amount : number;
  td_category : string;
  td_notes : option string
}.

(** [Partial<Transaction>]; [None] is a property that is not there. *)
Record TransactionPatch := mkTransactionPatch {
  tp_id : option string;
  tp_date : option string;
  tp_amount : option number;
  tp_category : option string;
  tp_notes : option string
}.

(** [Partial<Omit<Transaction, 'id'>>] *)
Record TransactionUpdate := mkTransactionUpdate {
  tu_date : option string;
  tu_amount : option number;
  tu_category : option string;
  tu_notes : option string
}.

#[global] Instance Transaction_Entity : Entity Transaction := {
  Draft := TransactionData;
  Patch := TransactionPatch;
  withId item id :=
    mkTransaction id (td_date item) (td_amount item) (td_category item)
                  (td_notes item);
  spread existing item id :=
    mkTransaction id
      (default (tx_date existing) (tp_date item))
      (default (tx_amount existing) (tp_amount item))
      (default (tx_category existing) (tp_category item))
      (match tp_notes item with
       | Some notes => Some notes
       | None => tx_notes existing
       end);
  keyOf := tx_id;
  keyOf_withId := fun _ _ => eq_refl;
  keyOf_spread := fun _ _ _ => eq_refl
}.

Module TransactionService.
Import JsString.

Abbreviation TxStore := (gmap string Transaction).

(** The object store of transactions has no unique index. *)
Definition transactionIndexes : list (Transaction -> option IndexKey) := [].

(** [/^\d{4}-\d{2}-\d{2}$/.test(date)] *)
Definition dateRegex (date : string) : bool :=
  match list_ascii_of_string date with
  | [y1; y2; y3; y4; h1; m1; m2; h2; d1; d2] =>
      JsDate.isDigit y1 && JsDate.isDigit y2 && JsDate.isDigit y3
      && JsDate.isDigit y4 && Ascii.eqb h1 "-"
      && JsDate.isDigit m1 && JsDate.isDigit m2 && Ascii.eqb h2 "-"
      && JsDate.isDigit d1 && JsDate.isDigit d2
  | _ => false
  end.

Section WithRuntime.
Context {R : Runtime}.

(** [validateTransactionData]: the error it throws, if any.  The checks
    of the JavaScript type of a field hold by the type of [data]. *)
Definition validateTransactionData (data : TransactionData) : option Error :=
  if String.eqb (td_date data) ""
  then Some (ValidationError "Date is required and must be a string")
  else if negb (dateRegex (td_date data))
  then Some (ValidationError "Date must be in YYYY-MM-DD format")
  else if negb (isDefined (newDate (td_date data)))
  then Some (ValidationError "Date must be a valid date")
  else if negb (JsNumber.isFinite (td_amount data))
  then Some (ValidationError "Amount must be a finite number")
  else if String.eqb (td_category data) ""
  then Some (ValidationError "Category is required and must be a string")
  else if (String.length (trim (td_category data)) =? 0)%nat
  then Some (ValidationError "Category cannot be empty")
  else if (50 <? String.length (td_category data))%nat
  then Some (ValidationError "Category must not exceed 50 characters")
  else
    match td_notes data with
    | Some notes =>
        if (500 <? String.length notes)%nat
        then Some (ValidationError "Notes must not exceed 500 characters")
        else None
    | None => None
    end.

Definition addTransaction (rnd : nat -> Z) (data : TransactionData)
  : Async TxStore Transaction :=
  BudgetService.logged (
    awaiting BudgetService.check (validateTransactionData data);
    let sanitizedData :=
      mkTransactionData (td_date data) (td_amount data)
                        (trim (td_category data)) (trim <$> td_notes data) in
    await id <- IndexedDBAdapter.add (EntityT := Transaction_Entity)
                  transactionIndexes rnd sanitizedData;
    ret (mkTransaction id (td_date sanitizedData) (td_amount sanitizedData)
                       (td_category sanitizedData) (td_notes sanitizedData))).

(** [Object.keys(data).length === 0] *)
Definition noKeys (data : TransactionUpdate) : bool :=
  negb (isDefined (tu_date data)) && negb (isDefined (tu_amount data))
  && negb (isDefined (tu_category data)) && negb (isDefined (tu_notes data)).

(** The merged view that [updateTransaction] validates. *)
Definition mergedData (existing : Transaction) (data : TransactionUpdate)
  : TransactionData :=
  mkTransactionData
    (default (tx_date existing) (tu_date data))
    (default (tx_amount existing) (tu_amount data))
    (default (tx_category existing) (tu_category data))
    (match tu_notes data with
     | Some notes => Some notes
     | None => tx_notes existing
     end).

(** The fields that [updateTransaction] writes. *)
Definition sanitizedUpdate (data : TransactionUpdate) : TransactionPatch :=
  mkTransactionPatch None (tu_date data) (tu_amount data)
                     (trim <$> tu_category data) (trim <$> tu_notes data).

Definition updateTransaction (id : string) (data : TransactionUpdate)
  : Async TxStore unit :=
  BudgetService.logged (
    if noKeys data then throw (ValidationError "No data provided for update")
    else
      await existing <- IndexedDBAdapter.getById id;
      match existing with
      | None => throw (newError ("Transaction with id " +:+ id +:+ " not found"))
      | Some existing =>
          let mergedData := mergedData existing data in
          awaiting BudgetService.check (validateTransactionData mergedData);
          IndexedDBAdapter.update (EntityT := Transaction_Entity)
            transactionIndexes id (sanitizedUpdate data)
      end).

Definition deleteTransaction (id : string) : Async TxStore unit :=
  BudgetService.logged (IndexedDBAdapter.delete id).

Definition getAllTransactions : Async TxStore (list Transaction) :=
  BudgetService.logged IndexedDBAdapter.getAll.

Definition getTransactionsByMonth (month : string)
  : Async TxStore (list Transaction) :=
  BudgetService.logged (
    if negb (BudgetService.monthRegex month)
    then throw (ValidationError "Month must be in YYYY-MM format")
    else
      await allTransactions <- IndexedDBAdapter.getAll;
      ret (List.filter (fun transaction => startsWith (tx_date transaction) month)
                       allTransactions)).

Definition getTransactionsByCategory (category : string)
  : Async TxStore (list Transaction) :=
  BudgetService.logged (
    if String.eqb category ""
    then throw (ValidationError "Category must be a non-empty string")
    else
      await allTransactions <- IndexedDBAdapter.getAll;
      let normalizedCategory := toLowerCase (trim category) in
      ret (List.filter
             (fun transaction =>
                String.eqb (toLowerCase (tx_category transaction))
                           normalizedCategory)
             allTransactions)).

End WithRuntime.
End TransactionService.

(* ===================================================================== *)
(** ** Budgets with their remainder ([services/budgetService.ts]) *)
(* ===================================================================== *)

(** [BudgetWithRemaining]: [{ ...budget, spent, remaining }] *)
Record BudgetWithRemaining := mkBudgetWithRemaining {
  bw_id : string;
  bw_month : string;
  bw_category : string;
  bw_limit : number;
  bw_spent : number;
  bw_remaining : number
}.

(** The two collections a budget service works on: its own storage and
    the storage behind its transaction service. *)
Record Stores := mkStores {
  budgets : gmap string Budget;
  transactions : gmap string Transaction
}.

Module BudgetReports.
Import JsString BudgetService.

(** A computation on the budgets, run inside the two collections. *)
Definition onBudgets {A : Type} (c : Async (gmap string Budget) A)
  : Async Stores A :=
  fun s =>
    let '(result, budgets') := c (budgets s) in
    (result, mkStores budgets' (transactions s)).

(** A computation on the transactions, run inside the two collections. *)
Definition onTransactions {A : Type} (c : Async (gmap string Transaction) A)
  : Async Stores A :=
  fun s =>
    let '(result, transactions') := c (transactions s) in
    (result, mkStores (budgets s) transactions').

Section WithRuntime.
Context {R : Runtime}.

(** The object built for one budget. *)
Definition withRemaining (budget : Budget) (allTransactions : list Transaction)
  : BudgetWithRemaining :=
  let remaining :=
    CalculationService.calculateBudgetRemaining budget allTransactions in
  let spent := JsNumber.sub (b_limit budget) remaining in
  mkBudgetWithRemaining (b_id budget) (b_month budget) (b_category budget)
                        (b_limit budget) spent remaining.

Definition getBudgetWithRemaining (id : string) : Async Stores BudgetWithRemaining :=
  logged (
    await budget <- onBudgets (IndexedDBAdapter.getById id);
    match budget with
    | None => throw (newError ("Budget with id " +:+ id +:+ " not found"))
    | Some budget =>
        await allTransactions <- onTransactions TransactionService.getAllTransactions;
        ret (withRemaining budget allTransactions)
    end).

Definition getAllBudgetsWithRemaining : Async Stores (list BudgetWithRemaining) :=
  logged (
    await allBudgets <- onBudgets IndexedDBAdapter.getAll;
    await allTransactions <- onTransactions TransactionService.getAllTransactions;
    ret (List.map (fun budget => withRemaining budget allTransactions) allBudgets)).

End WithRuntime.
End BudgetReports.

(* ===================================================================== *)
(** ** Lines of CSV (the CSV utility functions) *)
(* ===================================================================== *)

Module CSV.
Import JsString.

Definition dquote : ascii := "034"%char.
Definition newline : ascii := "010"%char.
Definition comma : ascii := ","%char.

(** [value.includes(c)] for a one character string [c] *)
Definition contains (value : string) (c : ascii) : bool :=
  includes value (String c EmptyString).

(** The [replace] of [escapeCSVField]: every double quote is doubled. *)
Fixpoint doubleQuotes (value : string) : string :=
  match value with
  | EmptyString => EmptyString
  | String c rest =>
      if Ascii.eqb c dquote
      then String dquote (String dquote (doubleQuotes rest))
      else String c (doubleQuotes rest)
  end.

Definition escapeCSVField (value : string) : string :=
  if contains value comma || contains value newline || contains value dquote
  then String dquote (doubleQuotes value +:+ String dquote EmptyString)
  else value.

(** The loop of [parseCSVLine], from the character [char] on; [nextChar]
    is [undefined] at the end of the line. *)
Fixpoint parseFrom (line : string) (fields : list string) (currentField : string)
    (inQuotes : bool) : list string :=
  match line with
  | EmptyString => fields ++ [currentField]
  | String char rest =>
      if Ascii.eqb char dquote
      then
        match rest with
        | String nextChar rest' =>
            if inQuotes && Ascii.eqb nextChar dquote
            then parseFrom rest' fields
                   (currentField +:+ String dquote EmptyString) inQuotes
            else parseFrom rest fields currentField (negb inQuotes)
        | EmptyString => parseFrom rest fields currentField (negb inQuotes)
        end
      else if Ascii.eqb char comma && negb inQuotes
      then parseFrom rest (fields ++ [currentField]) EmptyString inQuotes
      else parseFrom rest fields (currentField +:+ String char EmptyString) inQuotes
  end.

Definition parseCSVLine (line : string) : list string :=
  parseFrom line [] EmptyString false.

(** [fields.join(',')] *)
Definition joinFields (fields : list string) : string :=
  String.concat "," fields.

End CSV.

(* ===================================================================== *)
(** ** The import loop (the [handleImport] of the import view) *)
(* ===================================================================== *)

Record ImportError := mkImportError {
  ie_row : Z;
  ie_message : string
}.

(** The counters and the list the loop keeps. *)
Record ImportProgress := mkImportProgress {
  successCount : Z;
  failedCount : Z;
  importErrors : list ImportError
}.

Module ImportCSV.

Section Loop.
Context {St Row Added : Type}.
(** The call of the service for one row, with the random numbers it
    draws. *)
Variable addRow : (nat -> Z) -> Row -> Async St Added.
(** The message for a failure that is not an [Error]. *)
Variable fallback : string.
(** The random numbers the call for row number [i] draws. *)
Variable rnd : Z -> nat -> Z.

(** [for (let i = ...; i < rows.length; i++) { try { await add; successCount++ }
    catch (error) { failedCount++; importErrors.push(...) } }] *)
Fixpoint importFrom (i : Z) (rows : list Row) (progress : ImportProgress)
    (s : St) : ImportProgress * St :=
  match rows with
  | [] => (progress, s)
  | row :: rest =>
      match addRow (rnd i) row s with
      | (Resolved _, s') =>
          importFrom (i + 1) rest
            (mkImportProgress (successCount progress + 1) (failedCount progress)
                              (importErrors progress)) s'
      | (Rejected error, s') =>
          importFrom (i + 1) rest
            (mkImportProgress (successCount progress) (failedCount progress + 1)
               (importErrors progress
                ++ [mkImportError (i + 2)
                      match error with
                      | ThrowError e => err_message e
                      | ThrowValue _ => fallback
                      end])) s'
      end
  end.

Definition importRows (rows : list Row) (s : St) : ImportProgress * St :=
  importFrom 0 rows (mkImportProgress 0 0 []) s.
End Loop.

(** [const { id, ...transactionData } = transaction] *)
Definition transactionData (t : Transaction) : TransactionData :=
  mkTransactionData (tx_date t) (tx_amount t) (tx_category t) (tx_notes t).

(** [const { id, ...budgetData } = budget] *)
Definition budgetData (b : Budget) : BudgetData :=
  mkBudgetData (b_month b) (b_category b) (b_limit b).

Definition importTransactions {R : Runtime} (rnd : Z -> nat -> Z)
    (rows : list Transaction)
  : gmap string Transaction -> ImportProgress * gmap string Transaction :=
  importRows
    (fun r t => TransactionService.addTransaction r (transactionData t))
    "Failed to import transaction" rnd rows.

Definition importBudgets {R : Runtime} (rnd : Z -> nat -> Z) (rows : list Budget)
  : gmap string Budget -> ImportProgress * gmap string Budget :=
  importRows
    (fun r b => BudgetService.addBudget r (budgetData b))
    "Failed to import budget" rnd rows.

End ImportCSV.

(* ===================================================================== *)
(** ** Vocabulary for the further properties *)
(* ===================================================================== *)

Module MoreSpec.
Import JsString.

(** The time spent waiting, in milliseconds. *)
Definition totalWait (events : list Event) : Z :=
  sumZ (List.map (fun e => match e with Wait delay => delay | Attempt _ => 0 end)
                 events).

(** The number of calls made. *)
Definition attempts (events : list Event) : nat :=
  length (List.filter RetrySpec.isAttempt events).

(** The entries of [transientMessages] that are written in lower case. *)
Definition lowerCaseWords : list string :=
  ["network"; "timeout"; "temporarily unavailable"; "connection"].

Definition isHexDigit (c : ascii) : bool :=
  JsDate.isDigit c
  || (let n := N_of_ascii c in ((97 <=? n) && (n <=? 102))%N).

(** A string follows the template of [generateUUID]: a hexadecimal digit
    for each x, one of 8, 9, a, b for the y, the template's own character
    elsewhere. *)
Fixpoint followsTemplate (template s : string) : bool :=
  match template, s with
  | EmptyString, EmptyString => true
  | String t template', String c s' =>
      (if Ascii.eqb t "x" then isHexDigit c
       else if Ascii.eqb t "y"
       then Ascii.eqb c "8" || Ascii.eqb c "9" || Ascii.eqb c "a" || Ascii.eqb c "b"
       else Ascii.eqb c t)
      && followsTemplate template' s'
  | _, _ => false
  end.

(** A call of the transaction service that can write. *)
Inductive TxRequest :=
| AddTransaction (rnd : nat -> Z) (data : TransactionData)
| UpdateTransaction (id : string) (data : TransactionUpdate)
| DeleteTransaction (id : string).

(** A call of the adapter that can write, on stored objects. *)
Inductive ObjectRequest :=
| ObjectAdd (rnd : nat -> Z) (item : JsObject)
| ObjectUpdate (id : string) (item : JsObject)
| ObjectDelete (id : string).

(** The rows the import loop has reported are in ascending order. *)
Definition ascendingRows (errors : list ImportError) : Prop :=
  Sorted (fun a b => ie_row a < ie_row b) errors.

(** No two records hold the same key in the unique index [index]. *)
Definition respectsIndex (index : JsObject -> option IndexKey)
    (s : gmap string JsObject) : Prop :=
  forall k1 k2 o1 o2 key,
    s !! k1 = Some o1 -> s !! k2 = Some o2 ->
    index o1 = Some key -> index o2 = Some key -> k1 = k2.

(** The key of a date when the expenses are grouped by day or by month:
    the date itself, or its first seven characters. *)
Definition plainKey (groupBy : GroupBy) (date : string) : string :=
  match groupBy with
  | Month => substring0 7 date
  | Day | Week => date
  end.

(** The sum of |amount| over the expenses of a bucket, added up in the
    order of the list. *)
Definition bucketSpending (groupBy : GroupBy) (bucket : string)
    (l : list Transaction) : number :=
  JsNumber.sumOf
    (CalculationSpec.absAmounts
       (List.filter
          (fun t => CalculationService.isExpense t
                    && String.eqb (plainKey groupBy (tx_date t)) bucket) l)).

Section WithRuntime.
Context {R : Runtime}.

(** A stored transaction is one the service accepts: it passes the
    validation, its category and notes have no white space around them,
    and it sits under its own identifier. *)
Definition accepted (k : string) (t : Transaction) : Prop :=
  TransactionService.validateTransactionData (ImportCSV.transactionData t) = None
  /\ trim (tx_category t) = tx_category t
  /\ tx_id t = k.

Definition txAfter (request : TxRequest) (s : gmap string Transaction)
  : gmap string Transaction :=
  match request with
  | AddTransaction rnd data => snd (TransactionService.addTransaction rnd data s)
  | UpdateTransaction id data => snd (TransactionService.updateTransaction id data s)
  | DeleteTransaction id => snd (TransactionService.deleteTransaction id s)
  end.

(** The collections the transaction service can bring about. *)
Inductive txReachable : gmap string Transaction -> Prop :=
| txReachable_empty : txReachable ∅
| txReachable_after (request : TxRequest) (s : gmap string Transaction) :
    txReachable s -> txReachable (txAfter request s).

Definition objectAfter (indexes : list (JsObject -> option IndexKey))
    (request : ObjectRequest) (s : gmap string JsObject) : gmap string JsObject :=
  match request with
  | ObjectAdd rnd item => snd (IndexedDBAdapter.add indexes rnd item s)
  | ObjectUpdate id item => snd (IndexedDBAdapter.update indexes id item s)
  | ObjectDelete id => snd (IndexedDBAdapter.delete id s)
  end.

Inductive objectReachable (indexes : list (JsObject -> option IndexKey))
  : gmap string JsObject -> Prop :=
| objectReachable_empty : objectReachable indexes ∅
| objectReachable_after (request : ObjectRequest) (s : gmap string JsObject) :
    objectReachable indexes s ->
    objectReachable indexes (objectAfter indexes request s).

(** The record [addTransaction] stores under [id]. *)
Definition storedTransaction (id : string) (data : TransactionData) : Transaction :=
  mkTransaction id (td_date data) (td_amount data) (trim (td_category data))
                (trim <$> td_notes data).

(** The record [updateTransaction] leaves under [id]. *)
Definition updatedTransaction (id : string) (existing : Transaction)
    (data : TransactionUpdate) : Transaction :=
  mkTransaction id
    (default (tx_date existing) (tu_date data))
    (default (tx_amount existing) (tu_amount data))
    (default (tx_category existing) (trim <$> tu_category data))
    (match tu_notes data with
     | Some notes => Some (trim notes)
     | None => tx_notes existing
     end).

(** The record [addBudget] stores under [id]. *)
Definition storedBudget (id : string) (data : BudgetData) : Budget :=
  mkBudget id (d_month data) (trim (d_category data)) (d_limit data).

End WithRuntime.
End MoreSpec.

(* ===================================================================== *)
(** ** The cards of the dashboard ([BalanceCard], [MonthlySpendingCard]) *)
(* ===================================================================== *)

(** What a card shows once loading is over. *)
Inductive CardState :=
| Loaded (value : number)
| LoadFailed (message : string).

Module Dashboard.

(** [value >= 0 ? 'text-green-600' : 'text-red-600'] *)
Definition amountClass (value : number) : string :=
  if JsNumber.leb JsNumber.zero value then "text-green-600" else "text-red-600".

Section WithRuntime.
Context {R : Runtime}.

(** The effect of [BalanceCard]: [try { ... setBalance(totalBalance) }
    catch (err) { setError('Failed to load balance') }] *)
Definition fetchBalance (s : gmap string Transaction)
  : CardState * gmap string Transaction :=
  match TransactionService.getAllTransactions s with
  | (Resolved transactions, s') =>
      let totalBalance := CalculationService.calculateTotalBalance transactions in
      (Loaded totalBalance, s')
  | (Rejected _, s') => (LoadFailed "Failed to load balance", s')
  end.

(** The effect of [MonthlySpendingCard]. *)
Definition fetchMonthlySpending (currentMonth : string)
    (s : gmap string Transaction) : CardState * gmap string Transaction :=
  match TransactionService.getTransactionsByMonth currentMonth s with
  | (Resolved transactions, s') =>
      let monthlySpending :=
        CalculationService.calculateMonthlySpending transactions currentMonth in
      (Loaded monthlySpending, s')
  | (Rejected _, s') => (LoadFailed "Failed to load monthly spending", s')
  end.

End WithRuntime.
End Dashboard.

Module CsvSpec.

(** What follows a field in a line: the end of the line, or a comma. *)
Definition fieldEnd (rest : string) : Prop :=
  rest = "" \/ exists r, rest = String CSV.comma r.

(** A text of digits and hyphens only: it needs no quoting. *)
Definition plainText (s : string) : bool :=
  forallb (fun c => JsDate.isDigit c || Ascii.eqb c "-") (list_ascii_of_string s).

End CsvSpec.

(* ===================================================================== *)
(** ** Writing CSV ([generateTransactionsCSV], [generateBudgetsCSV]) *)
(* ===================================================================== *)

Module CsvExport.
Import CSV.

(** [lines.join('\n')] *)
Definition joinLines (lines : list string) : string :=
  String.concat (String newline EmptyString) lines.

Section WithRuntime.
Context {R : Runtime}.

(** The line written for one transaction. *)
Definition transactionLine (transaction : Transaction) : string :=
  let fields :=
    [tx_date transaction;
     numberToString (tx_amount transaction);
     escapeCSVField (tx_category transaction);
     (* [transaction.notes || ''] *)
     escapeCSVField (match tx_notes transaction with
                     | Some notes => notes
                     | None => ""
                     end)] in
  joinFields fields.

Definition generateTransactionsCSV (transactions : list Transaction) : string :=
  let headers := ["date"; "amount"; "category"; "notes"] in
  joinLines (joinFields headers :: List.map transactionLine transactions).

(** The line written for one budget. *)
Definition budgetLine (budget : Budget) : string :=
  let fields :=
    [b_month budget;
     escapeCSVField (b_category budget);
     numberToString (b_limit budget)] in
  joinFields fields.

Definition generateBudgetsCSV (budgets : list Budget) : string :=
  let headers := ["month"; "category"; "limit"] in
  joinLines (joinFields headers :: List.map budgetLine budgets).

End WithRuntime.
End CsvExport.

(* ===================================================================== *)
(** ** More sample data *)
(* ===================================================================== *)

Module MoreExamples.
Import JsObjects Examples MoreSpec.

#[local] Existing Instance AsciiRuntime.runtime.

(** A source of random numbers that always answers 5. *)
Definition fives : nat -> Z := fun _ => 5.

(** The collection that holds [stored], after [groceries] was added. *)
Definition twoRecords : gmap string JsObject :=
  snd (IndexedDBAdapter.add transactionStoreIndexes sevens groceries oneStored).

(** A budget as the adapter receives it, and the collection that holds it. *)
Definition rent : JsObject :=
  {[ "month" := VStr "2025-01"; "category" := VStr "Rent";
     "limit" := VNum (JsNumber.ofZ 1200) ]}.

Definition oneBudget : gmap string JsObject :=
  objectAfter budgetStoreIndexes (ObjectAdd sevens rent) ∅.

(** A lunch, typed with white space around the category and the notes. *)
Definition lunch : TransactionData :=
  mkTransactionData "2025-01-15" (JsNumber.decimal (-1250) 100) " Food "
                    (Some " noodles ").

Definition lunchStored : Transaction :=
  mkTransaction id7 "2025-01-15" (JsNumber.decimal (-1250) 100) "Food"
                (Some "noodles").

Definition oneTransaction : gmap string Transaction :=
  txAfter (AddTransaction sevens lunch) ∅.

(** A date written the wrong way round. *)
Definition badDate : TransactionData :=
  mkTransactionData "15/01/2025" (JsNumber.decimal (-1250) 100) "Food" None.

(** The lunch turns out dearer. *)
Definition dearer : TransactionUpdate :=
  mkTransactionUpdate None (Some (JsNumber.ofZ (-14))) None None.

Definition afterDearer : gmap string Transaction :=
  txAfter (UpdateTransaction id7 dearer) oneTransaction.

Definition groceriesData : BudgetData :=
  mkBudgetData "2025-01" " Groceries" (JsNumber.ofZ 400).

Definition groceriesAgain : BudgetData :=
  mkBudgetData "2025-01" "groceries" (JsNumber.ofZ 50).

Definition raiseLimit : BudgetUpdate :=
  mkBudgetUpdate None None (Some (JsNumber.ofZ 500)).

(** A budget for groceries and the two purchases. *)
Definition household : Stores :=
  mkStores {[ "b1" := groceriesBudget ]}
           {[ "t1" := purchase1; "t2" := purchase2 ]}.

(** Fields with a comma and with a quote in them. *)
Definition awkwardFields : list string :=
  ["2025-01-15"; "Food, drink"; String CSV.dquote "quoted"].

End MoreExamples.

(* ===================================================================== *)
(** ** Facts about the comparator sort *)
(* ===================================================================== *)

Section SortFacts.
Context {A : Type}.
Variable cmp : A -> A -> Z.

Lemma sortInsert_perm (x : A) (l : list A) :
  Permutation (x :: l) (sortInsert cmp x l).
Proof.
  induction l as [|y ys IH]; simpl.
  - apply Permutation_refl.
  - destruct (cmp x y <=? 0).
    + apply Permutation_refl.
    + eapply perm_trans; [apply perm_swap|]. now apply perm_skip.
Qed.

Lemma sortWith_perm (l : list A) : Permutation l (sortWith cmp l).
Proof.
  induction l as [|x xs IH]; simpl.
  - apply perm_nil.
  - eapply perm_trans; [apply perm_skip, IH|]. apply sortInsert_perm.
Qed.

(** A comparator never asks for both orders of a pair. *)
Hypothesis cmp_flip : forall x y, 0 < cmp x y -> cmp y x <= 0.

Lemma sortInsert_sorted (x : A) (l : list A) :
  Sorted (inOrder cmp) l -> Sorted (inOrder cmp) (sortInsert cmp x l).
Proof.
  induction l as [|y ys IH]; intros Hs; simpl.
  - repeat constructor.
  - destruct (cmp x y <=? 0) eqn:E.
    + constructor; [assumption|]. constructor. unfold inOrder. lia.
    + inversion Hs as [|? ? Hys Hhd]; subst.
      constructor; [now apply IH|].
      assert (Hyx : inOrder cmp y x) by (apply cmp_flip; lia).
      destruct ys as [|z zs]; simpl.
      * now constructor.
      * destruct (cmp x z <=? 0); constructor; trivial.
        now inversion Hhd.
Qed.

Lemma sortWith_sorted (l : list A) : Sorted (inOrder cmp) (sortWith cmp l).
Proof.
  induction l as [|x xs IH]; simpl.
  - constructor.
  - now apply sortInsert_sorted.
Qed.
End SortFacts.

Lemma Sorted_weaken {A : Type} (R R' : A -> A -> Prop) (l : list A) :
  (forall a b, R a b -> R' a b) -> Sorted R l -> Sorted R' l.
Proof.
  intros HR. induction 1 as [|a l _ IH Hhd]; constructor; [exact IH|].
  destruct Hhd; constructor. now apply HR.
Qed.

(** The same, when the two orders agree on the elements of the list. *)
Lemma Sorted_weaken_in {A : Type} (R R' : A -> A -> Prop) (l : list A) :
  (forall a b, In a l -> In b l -> R a b -> R' a b) -> Sorted R l -> Sorted R' l.
Proof.
  intros HR Hs. induction Hs as [|a l Hs IH Hhd]; constructor.
  - apply IH. intros x y Hx Hy. apply HR; now right.
  - destruct Hhd as [|b l' Hab]; constructor.
    apply HR; [now left|right; now left|exact Hab].
Qed.

Lemma sumZ_perm (l l' : list Z) : Permutation l l' -> sumZ l = sumZ l'.
Proof. induction 1; simpl; lia. Qed.

Lemma sumZ_app (l l' : list Z) : sumZ (l ++ l') = sumZ l + sumZ l'.
Proof. induction l; simpl; lia. Qed.

(* ===================================================================== *)
(** ** The arithmetic of doubles *)
(* ===================================================================== *)

Module JsNumberFacts.
Import JsNumber.

(** What is not zero does not round to zero. *)
Lemma roundMagnitude_pos (m : N) : (0 < m -> 0 < roundMagnitude m)%N.
Proof.
  intros Hm. unfold roundMagnitude. cbv zeta.
  destruct (N.eqb_spec (N.size m - 53) 0) as [E|E]; [exact Hm|].
  set (shift := (N.size m - 53)%N) in *.
  assert (Hq : (0 < m / 2 ^ shift)%N).
  { apply N.div_str_pos. split; [apply N.neq_0_lt_0, N.pow_nonzero; lia|].
    pose proof (N.size_le m) as Hle.
    assert (Hs : (N.size m = N.succ (N.pred (N.size m)))%N) by lia.
    assert (Hp : (2 ^ shift <= 2 ^ N.pred (N.size m))%N)
      by (apply N.pow_le_mono_r; unfold shift; lia).
    rewrite Hs, N.pow_succ_r' in Hle. lia. }
  assert (Hp : (0 < 2 ^ shift)%N) by (apply N.neq_0_lt_0, N.pow_nonzero; lia).
  destruct (_ || _); nia.
Qed.

Lemma abs_round (s : bool) (m : N) : abs (round s m) = round false m.
Proof. unfold round. cbv zeta. now destruct (_ <=? _)%N. Qed.

(** The sign of a rounded number that is not zero. *)
Lemma signum_round (s : bool) (m : N) :
  (0 < m)%N -> signum (round s m) = if s then -1 else 1.
Proof.
  intros Hm. pose proof (roundMagnitude_pos m Hm) as Hr.
  unfold round. cbv zeta. destruct (_ <=? _)%N; cbn [signum]; [reflexivity|].
  destruct (N.eqb_spec (roundMagnitude m) 0); [lia|reflexivity].
Qed.

Lemma ltb_round_zero (m : N) : (0 < m)%N -> ltb (round true m) zero = true.
Proof.
  intros Hm. pose proof (roundMagnitude_pos m Hm) as Hr.
  unfold round. cbv zeta. destruct (_ <=? _)%N; cbn; [reflexivity|].
  apply Z.ltb_lt. lia.
Qed.

Lemma ltb_zero_round (m : N) : (0 < m)%N -> ltb zero (round false m) = true.
Proof.
  intros Hm. pose proof (roundMagnitude_pos m Hm) as Hr.
  unfold round. cbv zeta. destruct (_ <=? _)%N; cbn; [reflexivity|].
  apply Z.ltb_lt. lia.
Qed.

(** Adding an expense to what was spent so far: the absolute value of the
    sum is the sum of the absolute values, and the sum is below zero. *)
Lemma abs_add (a x : number) :
  leb a zero = true -> ltb x zero = true ->
  abs (add a x) = add (abs a) (abs x) /\ ltb (add a x) zero = true.
Proof.
  destruct a as [|[]|s m], x as [|[]|s' m']; try discriminate;
    try (split; reflexivity).
  unfold leb, ltb, zero, signed. cbn [Z.of_N]. intros Ha Hx.
  apply Z.leb_le in Ha. apply Z.ltb_lt in Hx.
  destruct s'; [|lia].
  assert (Hz : (if s then - Z.of_N m else Z.of_N m) + - Z.of_N m'
               = - Z.of_N (m + m')) by (destruct s; lia).
  assert (Hpos : (0 < m + m')%N) by lia.
  unfold add, signed. rewrite Hz.
  replace (- Z.of_N (m + m') =? 0) with false by (symmetry; apply Z.eqb_neq; lia).
  replace (- Z.of_N (m + m') <? 0) with true by (symmetry; apply Z.ltb_lt; lia).
  replace (Z.abs_N (- Z.of_N (m + m'))) with (m + m')%N by lia.
  cbn [abs].
  replace (Z.of_N m + Z.of_N m' =? 0) with false by (symmetry; apply Z.eqb_neq; lia).
  replace (Z.of_N m + Z.of_N m' <? 0) with false by (symmetry; apply Z.ltb_ge; lia).
  replace (Z.abs_N (Z.of_N m + Z.of_N m')) with (m + m')%N by lia.
  split; [apply abs_round|]. now apply ltb_round_zero.
Qed.

Lemma ltb_leb (a b : number) : ltb a b = true -> leb a b = true.
Proof.
  destruct a as [|[]|s m], b as [|[]|s' m']; try discriminate; try reflexivity.
  unfold ltb, leb. intros H. apply Z.ltb_lt in H. apply Z.leb_le. lia.
Qed.

(** The absolute value of an expense is above zero. *)
Lemma abs_negative (x : number) : ltb x zero = true -> ltb zero (abs x) = true.
Proof.
  destruct x as [|[]|s m]; try discriminate; try reflexivity.
  unfold ltb, zero, signed, abs. cbn [Z.of_N]. intros H. apply Z.ltb_lt in H.
  apply Z.ltb_lt. destruct s; lia.
Qed.

(** The absolute value of a number that is not above zero is not below
    zero (and it is a number). *)
Lemma abs_nonneg (x : number) : leb x zero = true -> leb zero (abs x) = true.
Proof.
  destruct x as [|[]|s m]; try discriminate; try reflexivity.
  intros _. unfold leb, zero, signed, abs. apply Z.leb_le. lia.
Qed.

(** What is above zero counts as true in a condition, and is a number. *)
Lemma positive_truthy (v : number) : ltb zero v = true -> truthy v = true.
Proof.
  destruct v as [|[]|s m]; try discriminate; try reflexivity.
  unfold ltb, zero, signed, truthy. cbn [Z.of_N]. intros H. apply Z.ltb_lt in H.
  apply Bool.negb_true_iff, N.eqb_neq. destruct s; lia.
Qed.

Lemma positive_number (v : number) : ltb zero v = true -> v <> NaN.
Proof. now destruct v. Qed.

(** The sum of a number that is not below zero and a number above zero
    is above zero. *)
Lemma add_positive (a b : number) :
  leb zero a = true -> ltb zero b = true -> ltb zero (add a b) = true.
Proof.
  destruct a as [|[]|s m], b as [|[]|s' m']; try discriminate; try reflexivity.
  unfold leb, ltb, zero, signed. cbn [Z.of_N]. intros Ha Hb.
  apply Z.leb_le in Ha. apply Z.ltb_lt in Hb.
  destruct s'; [lia|].
  assert (Hz : (if s then - Z.of_N m else Z.of_N m) + Z.of_N m' = Z.of_N (m + m'))
    by (destruct s; lia).
  unfold add, signed. rewrite Hz.
  replace (Z.of_N (m + m') =? 0) with false by (symmetry; apply Z.eqb_neq; lia).
  replace (Z.of_N (m + m') <? 0) with false by (symmetry; apply Z.ltb_ge; lia).
  apply ltb_zero_round. lia.
Qed.

Lemma leb_zero_zero : leb zero zero = true.
Proof. reflexivity. Qed.

(** *** The comparator [(a, b) => b - a] *)

(** The sign of a difference. *)
Lemma signum_sub (a b : number) :
  signum (sub a b)
  = match a, b with
    | NaN, _ | _, NaN => 0
    | Infinity s, Infinity s' =>
        if Bool.eqb s s' then 0 else if s then -1 else 1
    | Infinity s, Finite _ _ => if s then -1 else 1
    | Finite _ _, Infinity s' => if s' then 1 else -1
    | Finite s m, Finite s' m' => Z.sgn (signed s m - signed s' m')
    end.
Proof.
  destruct a as [|s|s m], b as [|s'|s' m']; try reflexivity.
  - now destruct s, s'.
  - now destruct s'.
  - unfold sub, negate, add.
    replace (signed s m + signed (negb s') m') with (signed s m - signed s' m')
      by (unfold signed; destruct s'; cbn [negb]; lia).
    destruct (Z.eqb_spec (signed s m - signed s' m') 0) as [E|E].
    + rewrite E. reflexivity.
    + rewrite signum_round by lia.
      destruct (Z.ltb_spec (signed s m - signed s' m') 0); lia.
Qed.

(** The comparator never asks for both orders of a pair. *)
Lemma signum_sub_flip (x y : number) :
  0 < signum (sub x y) -> signum (sub y x) <= 0.
Proof.
  rewrite !signum_sub.
  destruct x as [|s|s m], y as [|s'|s' m']; try lia.
  - destruct s, s'; cbn; lia.
  - destruct s; lia.
  - destruct s'; lia.
Qed.

(** Of two numbers, the one that the comparator lets stand first is not
    less than the other. *)
Lemma signum_sub_leb (a b : number) :
  a <> NaN -> b <> NaN -> signum (sub b a) <= 0 -> leb b a = true.
Proof.
  rewrite signum_sub.
  destruct a as [|s|s m], b as [|s'|s' m']; try congruence; intros _ _.
  - destruct s, s'; cbn; (reflexivity || lia).
  - destruct s; cbn; (reflexivity || lia).
  - destruct s'; cbn; (reflexivity || lia).
  - unfold leb. intros H. apply Z.leb_le. lia.
Qed.

(** *** Sums *)

(** The absolute value of a sum of expenses, added from the left to what
    was spent so far, is the sum of their absolute values. *)
Lemma abs_fold_add (l : list number) :
  Forall (fun x => ltb x zero = true) l ->
  forall acc, leb acc zero = true ->
    abs (fold_left add l acc) = fold_left add (List.map abs l) (abs acc)
    /\ leb (fold_left add l acc) zero = true.
Proof.
  induction 1 as [|x l Hx _ IH]; intros acc Hacc; cbn [fold_left List.map].
  - now split.
  - destruct (abs_add acc x Hacc Hx) as [Habs Hneg].
    rewrite <- Habs. apply IH. now apply ltb_leb.
Qed.

(** A sum of numbers above zero, added from the left to a number that is
    not below zero, is not below zero. *)
Lemma fold_add_nonneg (l : list number) :
  Forall (fun x => ltb zero x = true) l ->
  forall acc, leb zero acc = true -> leb zero (fold_left add l acc) = true.
Proof.
  induction 1 as [|x l Hx _ IH]; intros acc Hacc; cbn [fold_left]; [exact Hacc|].
  apply IH, ltb_leb. now apply add_positive.
Qed.

(** *** Whole numbers *)

(** A magnitude of at most 53 significant bits is kept as it is. *)
Lemma roundMagnitude_exact (n k : N) :
  (n < 2 ^ 53 -> roundMagnitude (n * 2 ^ k) = n * 2 ^ k)%N.
Proof.
  intros Hn. unfold roundMagnitude. cbv zeta.
  destruct (N.eqb_spec (N.size (n * 2 ^ k) - 53) 0) as [E|E]; [reflexivity|].
  set (m := (n * 2 ^ k)%N) in *. set (shift := (N.size m - 53)%N) in *.
  assert (Hk : (0 < 2 ^ k)%N) by (apply N.neq_0_lt_0, N.pow_nonzero; lia).
  assert (Hm : (m <> 0)%N) by (intros Hz; apply E; unfold shift; rewrite Hz; reflexivity).
  assert (Hshift : (shift <= k)%N).
  { assert (Hlt : (m < 2 ^ (53 + k))%N).
    { rewrite N.pow_add_r. unfold m. apply N.mul_lt_mono_pos_r; assumption. }
    apply N.log2_lt_pow2 in Hlt; [|lia].
    unfold shift. rewrite (N.size_log2 m Hm). lia. }
  assert (Hs : (0 < 2 ^ shift)%N) by (apply N.neq_0_lt_0, N.pow_nonzero; lia).
  assert (Hsplit : (m = n * 2 ^ (k - shift) * 2 ^ shift)%N).
  { unfold m. rewrite <- N.mul_assoc, <- N.pow_add_r. f_equal. f_equal. lia. }
  assert (Hr : (m mod 2 ^ shift = 0)%N).
  { rewrite Hsplit. apply N.Div0.mod_mul. }
  assert (Hq : (m / 2 ^ shift = n * 2 ^ (k - shift))%N).
  { rewrite Hsplit at 1. apply N.div_mul. lia. }
  rewrite Hr, Hq.
  assert (Hh : (0 < 2 ^ (shift - 1))%N) by (apply N.neq_0_lt_0, N.pow_nonzero; lia).
  destruct (N.ltb_spec (2 ^ (shift - 1)) 0) as [Hlt|_]; [lia|].
  destruct (N.eqb_spec 0 (2 ^ (shift - 1))) as [Heq|_]; [lia|].
  cbn [orb andb]. symmetry. exact Hsplit.
Qed.

(** A whole number below 2^53 is a double. *)
Lemma round_whole (s : bool) (n : N) :
  (n < 2 ^ 53)%N -> round s (n * 2 ^ 1074) = Finite s (n * 2 ^ 1074).
Proof.
  intros Hn. unfold round. cbv zeta. rewrite (roundMagnitude_exact n 1074 Hn).
  destruct (N.leb_spec (2 ^ 2098) (n * 2 ^ 1074)) as [Hle|_]; [|reflexivity].
  exfalso.
  assert (Hlt : (n * 2 ^ 1074 < 2 ^ 53 * 2 ^ 1074)%N).
  { apply N.mul_lt_mono_pos_r; [|exact Hn].
    apply N.neq_0_lt_0, N.pow_nonzero; lia. }
  rewrite <- N.pow_add_r in Hlt.
  assert (Hp : (2 ^ (53 + 1074) <= 2 ^ 2098)%N) by (apply N.pow_le_mono_r; lia).
  lia.
Qed.

Lemma ofZ_whole (z : Z) :
  Z.abs z < 2 ^ 53 -> ofZ z = Finite (z <? 0) (Z.abs_N z * 2 ^ 1074).
Proof.
  intros Hz. unfold ofZ. apply round_whole.
  apply N2Z.inj_lt. rewrite N2Z.inj_abs_N. exact Hz.
Qed.

(** Whole numbers add up exactly as long as the sum stays below 2^53. *)
Lemma add_ofZ (a b : Z) :
  Z.abs a + Z.abs b < 2 ^ 53 -> add (ofZ a) (ofZ b) = ofZ (a + b).
Proof.
  intros Hab.
  rewrite (ofZ_whole a), (ofZ_whole b) by lia.
  unfold add. cbv zeta.
  assert (Hp : 0 < Z.of_N (2 ^ 1074)).
  { apply (N2Z.inj_lt 0). apply N.neq_0_lt_0, N.pow_nonzero. lia. }
  assert (Hsa : signed (a <? 0) (Z.abs_N a * 2 ^ 1074) = a * Z.of_N (2 ^ 1074)).
  { unfold signed. rewrite N2Z.inj_mul, N2Z.inj_abs_N.
    destruct (Z.ltb_spec a 0); [rewrite Z.abs_neq|rewrite Z.abs_eq]; lia. }
  assert (Hsb : signed (b <? 0) (Z.abs_N b * 2 ^ 1074) = b * Z.of_N (2 ^ 1074)).
  { unfold signed. rewrite N2Z.inj_mul, N2Z.inj_abs_N.
    destruct (Z.ltb_spec b 0); [rewrite Z.abs_neq|rewrite Z.abs_eq]; lia. }
  rewrite Hsa, Hsb, <- Z.mul_add_distr_r.
  destruct (Z.eqb_spec ((a + b) * Z.of_N (2 ^ 1074)) 0) as [E|E].
  - assert (Hz : a + b = 0) by nia. rewrite Hz.
    replace ((a <? 0) && (b <? 0)) with false; [reflexivity|].
    destruct (Z.ltb_spec a 0), (Z.ltb_spec b 0); try reflexivity. lia.
  - unfold ofZ.
    replace ((a + b) * Z.of_N (2 ^ 1074) <? 0) with (a + b <? 0).
    + f_equal. apply N2Z.inj.
      rewrite N2Z.inj_mul, !N2Z.inj_abs_N, Z.abs_mul. f_equal;
        try (apply Z.abs_eq; lia).
    + destruct (Z.ltb_spec (a + b) 0), (Z.ltb_spec ((a + b) * Z.of_N (2 ^ 1074)) 0);
        try reflexivity; nia.
Qed.

Lemma abs_ofZ (z : Z) : abs (ofZ z) = ofZ (Z.abs z).
Proof.
  unfold ofZ. rewrite abs_round.
  replace (Z.abs z <? 0) with false
    by (symmetry; apply Z.ltb_ge, Z.abs_nonneg).
  f_equal. f_equal. apply N2Z.inj. rewrite !N2Z.inj_abs_N. symmetry.
  apply Z.abs_eq, Z.abs_nonneg.
Qed.

Lemma fold_add_ofZ (l : list Z) (acc : Z) :
  Z.abs acc + sumZ (List.map Z.abs l) < 2 ^ 53 ->
  fold_left add (List.map ofZ l) (ofZ acc) = ofZ (acc + sumZ l).
Proof.
  revert acc. induction l as [|z l IH]; intros acc Hb; cbn [List.map fold_left sumZ fold_right] in *.
  - now rewrite Z.add_0_r.
  - assert (Hnn : 0 <= sumZ (List.map Z.abs l)).
    { clear. induction l as [|x l IH]; cbn; [lia|]. unfold sumZ in IH. lia. }
    unfold sumZ in *. rewrite add_ofZ by lia. rewrite IH by lia. f_equal. lia.
Qed.

(** The sum of whole numbers is exact as long as their absolute values
    add up to less than 2^53. *)
Lemma sumOf_ofZ (l : list Z) :
  sumZ (List.map Z.abs l) < 2 ^ 53 -> sumOf (List.map ofZ l) = ofZ (sumZ l).
Proof.
  intros Hb. unfold sumOf. change zero with (Finite false 0).
  replace (Finite false 0) with (ofZ 0) by (vm_compute; reflexivity).
  now rewrite fold_add_ofZ.
Qed.

End JsNumberFacts.

(* ===================================================================== *)
(** ** Properties of the calculation engine *)
(* ===================================================================== *)

Module CalculationFacts.
Import JsString CalculationService CalculationSpec Examples.

(** *** The insertion-ordered map *)

Lemma get_set (m : JsMap.NumberMap) (k k' : string) (v : number) :
  JsMap.get (JsMap.set m k v) k'
  = if String.eqb k k' then Some v else JsMap.get m k'.
Proof.
  induction m as [|[k0 v0] m IH]; cbn [JsMap.set JsMap.get].
  - reflexivity.
  - destruct (String.eqb_spec k0 k) as [->|Hne]; cbn [JsMap.get].
    + destruct (String.eqb k k'); reflexivity.
    + rewrite IH. destruct (String.eqb_spec k0 k') as [->|Hne'];
        [|reflexivity].
      apply String.eqb_neq in Hne. rewrite String.eqb_sym in Hne.
      now rewrite Hne.
Qed.

Lemma keys_set (m : JsMap.NumberMap) (k : string) (v : number) :
  forall k', In k' (List.map fst (JsMap.set m k v))
             <-> k' = k \/ In k' (List.map fst m).
Proof.
  induction m as [|[k0 v0] m IH]; intros k'; cbn [JsMap.set List.map fst In].
  - intuition congruence.
  - destruct (String.eqb_spec k0 k) as [->|Hne]; cbn [List.map fst In].
    + intuition congruence.
    + rewrite IH. intuition congruence.
Qed.

Lemma NoDup_set (m : JsMap.NumberMap) (k : string) (v : number) :
  List.NoDup (List.map fst m) -> List.NoDup (List.map fst (JsMap.set m k v)).
Proof.
  induction m as [|[k0 v0] m IH]; cbn [JsMap.set List.map fst]; intros Hnd.
  - constructor; [intros []|constructor].
  - destruct (String.eqb_spec k0 k) as [->|Hne]; cbn [List.map fst].
    + exact Hnd.
    + inversion Hnd as [|? ? Hnotin Hnd']; subst. constructor.
      * rewrite keys_set. intros [E|Hin]; [congruence|contradiction].
      * now apply IH.
Qed.

Lemma In_get (m : JsMap.NumberMap) (k : string) (v : number) :
  List.NoDup (List.map fst m) ->
  (In (k, v) m <-> JsMap.get m k = Some v).
Proof.
  induction m as [|[k0 v0] m IH]; cbn [List.map fst In JsMap.get]; intros Hnd.
  - split; [intros []|discriminate].
  - inversion Hnd as [|? ? Hnotin Hnd']; subst.
    destruct (String.eqb_spec k0 k) as [->|Hne].
    + split.
      * intros [[= ->]|Hin]; [reflexivity|].
        exfalso. apply Hnotin. apply List.in_map_iff. now exists (k, v).
      * intros [= ->]. now left.
    + rewrite <- (IH Hnd'). split; [|tauto].
      intros [[= E _]|Hin]; [congruence|exact Hin].
Qed.

Lemma get_key (m : JsMap.NumberMap) (k : string) :
  In k (List.map fst m) -> JsMap.get m k <> None.
Proof.
  induction m as [|[k0 v0] m IH]; cbn [List.map fst In JsMap.get]; [intros []|].
  destruct (String.eqb_spec k0 k) as [->|Hne]; [discriminate|].
  intros [E|Hin]; [congruence|now apply IH].
Qed.

(** *** Grouping expenses under keys *)

Section Grouping.
Variable key : Transaction -> string.

Lemma getOr0_nonneg (m : JsMap.NumberMap) (k : string) :
  positiveValues m -> JsNumber.leb JsNumber.zero (JsMap.getOr0 m k) = true.
Proof.
  intros Hm. unfold JsMap.getOr0. destruct (JsMap.get m k) as [v|] eqn:E;
    [|reflexivity].
  specialize (Hm k v E). rewrite (JsNumberFacts.positive_truthy v Hm).
  now apply JsNumberFacts.ltb_leb.
Qed.

Lemma getOr0_positive (m : JsMap.NumberMap) (k : string) (v : number) :
  positiveValues m -> JsMap.get m k = Some v -> JsMap.getOr0 m k = v.
Proof.
  intros Hm E. unfold JsMap.getOr0. rewrite E.
  now rewrite (JsNumberFacts.positive_truthy v (Hm k v E)).
Qed.

Lemma groupStep_positive (m : JsMap.NumberMap) (t : Transaction) :
  JsNumber.ltb (tx_amount t) JsNumber.zero = true ->
  positiveValues m -> positiveValues (groupStep key m t).
Proof.
  intros Ht Hm k v. unfold groupStep. rewrite get_set.
  destruct (String.eqb (key t) k); [|apply Hm].
  intros [= <-]. apply JsNumberFacts.add_positive.
  - now apply getOr0_nonneg.
  - now apply JsNumberFacts.abs_negative.
Qed.

Lemma grouped_positive (expenses : list Transaction) :
  Forall (fun t => JsNumber.ltb (tx_amount t) JsNumber.zero = true) expenses ->
  forall m, positiveValues m -> positiveValues (fold_left (groupStep key) expenses m).
Proof.
  induction 1 as [|t l Ht _ IH]; intros m Hm; [exact Hm|].
  cbn [fold_left]. apply IH. now apply groupStep_positive.
Qed.

Lemma grouped_keys (expenses : list Transaction) :
  forall m,
    List.NoDup (List.map fst m) ->
    List.NoDup (List.map fst (fold_left (groupStep key) expenses m)).
Proof.
  induction expenses as [|t l IH]; intros m Hnd; [exact Hnd|].
  cbn [fold_left]. apply IH. now apply NoDup_set.
Qed.

Lemma grouped_has_key (expenses : list Transaction) :
  forall m k,
    In k (List.map fst m) \/ In k (List.map key expenses) ->
    In k (List.map fst (fold_left (groupStep key) expenses m)).
Proof.
  induction expenses as [|t l IH]; intros m k; cbn [fold_left List.map In].
  - now intros [H|[]].
  - intros H. apply IH. unfold groupStep. rewrite keys_set.
    destruct H as [H|[H|H]]; auto.
Qed.

(** What the map holds under a key once the expenses are in: what it held
    there, with the absolute amounts of the expenses of that key added to
    it, one after the other. *)
Lemma grouped_get (expenses : list Transaction) :
  Forall (fun t => JsNumber.ltb (tx_amount t) JsNumber.zero = true) expenses ->
  forall m k,
    positiveValues m ->
    JsMap.getOr0 (fold_left (groupStep key) expenses m) k
    = fold_left JsNumber.add
        (absAmounts (List.filter (fun t => String.eqb (key t) k) expenses))
        (JsMap.getOr0 m k).
Proof.
  induction 1 as [|t l Ht _ IH]; intros m k Hm; [reflexivity|].
  cbn [fold_left List.filter]. rewrite IH by (now apply groupStep_positive).
  assert (Hstep : JsMap.getOr0 (groupStep key m t) k
                  = if String.eqb (key t) k
                    then JsNumber.add (JsMap.getOr0 m k)
                                      (JsNumber.abs (tx_amount t))
                    else JsMap.getOr0 m k).
  { destruct (String.eqb_spec (key t) k) as [E|E].
    - apply getOr0_positive; [now apply groupStep_positive|].
      unfold groupStep. rewrite get_set, E, String.eqb_refl. reflexivity.
    - unfold JsMap.getOr0 at 1, groupStep. rewrite get_set.
      apply String.eqb_neq in E. rewrite E. reflexivity. }
  rewrite Hstep. destruct (String.eqb (key t) k); reflexivity.
Qed.

End Grouping.

Lemma positiveValues_empty : positiveValues [].
Proof. intros k v. discriminate. Qed.

(** *** Sums of expenses *)

Lemma sumAmounts_fold (l : list Transaction) (acc : number) :
  fold_left (fun sum t => JsNumber.add sum (tx_amount t)) l acc
  = fold_left JsNumber.add (List.map tx_amount l) acc.
Proof.
  revert acc. induction l as [|t l IH]; intros acc; [reflexivity|].
  cbn [fold_left List.map]. apply IH.
Qed.

(** On expenses the absolute value of the sum is the sum of the absolute
    values, added in the same order; and the sum is a number that is not
    above zero. *)
Lemma abs_sum_expenses (l : list Transaction) :
  Forall (fun t => JsNumber.ltb (tx_amount t) JsNumber.zero = true) l ->
  JsNumber.abs (sumAmounts l) = JsNumber.sumOf (absAmounts l)
  /\ JsNumber.leb (sumAmounts l) JsNumber.zero = true.
Proof.
  intros Hl. unfold sumAmounts, JsNumber.sumOf, absAmounts.
  rewrite sumAmounts_fold, <- (List.map_map tx_amount JsNumber.abs).
  apply (JsNumberFacts.abs_fold_add (List.map tx_amount l)); [|reflexivity].
  apply List.Forall_map. exact Hl.
Qed.

Lemma filter_expenses (f : Transaction -> bool) (l : list Transaction) :
  (forall t, f t = true -> JsNumber.ltb (tx_amount t) JsNumber.zero = true) ->
  Forall (fun t => JsNumber.ltb (tx_amount t) JsNumber.zero = true)
         (List.filter f l).
Proof.
  intros Hf. apply List.Forall_forall. intros t Ht.
  apply List.filter_In in Ht. now apply Hf.
Qed.

Lemma expenses_negative (l : list Transaction) :
  Forall (fun t => JsNumber.ltb (tx_amount t) JsNumber.zero = true)
         (List.filter isExpense l).
Proof. apply filter_expenses. now intros t. Qed.

(** *** Budget remainder *)

Lemma isRelevant_countsAgainst (budget : Budget) (t : Transaction) :
  isRelevant budget t = countsAgainst budget t.
Proof.
  unfold isRelevant, countsAgainst, startsWith.
  destruct (string_dec (tx_category t) (b_category budget)) as [E|E].
  - apply String.eqb_eq in E. now rewrite E.
  - apply String.eqb_neq in E. now rewrite E.
Qed.


Lemma budgetRemaining_spent (budget : Budget) (l : list Transaction) :
  calculateBudgetRemaining budget l
  = JsNumber.sub (b_limit budget) (spent budget l).
Proof.
  unfold calculateBudgetRemaining, spent. cbv zeta.
  rewrite (List.filter_ext _ _ (isRelevant_countsAgainst budget)).
  destruct (abs_sum_expenses (List.filter (countsAgainst budget) l)) as [-> _];
    [|reflexivity].
  apply filter_expenses. intros t Ht. unfold countsAgainst in Ht.
  apply Bool.andb_true_iff in Ht. now destruct Ht as [_ Ht].
Qed.

Section WithRuntime.
Context {R : Runtime}.


End WithRuntime.

(** *** Category totals *)

(** The map of [calculateCategoryTotals], once the expenses are in. *)
Lemma categoryMap_grouped (expenses : list Transaction) :
  fold_left addToCategory expenses [] = fold_left (groupStep tx_category) expenses [].
Proof. reflexivity. Qed.

Lemma entries_of_totals (m : JsMap.NumberMap) (e : CategoryTotal) :
  In e (List.map (fun '(category, total) => mkCategoryTotal category total) m)
  <-> In (ct_category e, ct_total e) m.
Proof.
  rewrite List.in_map_iff. split.
  - intros ([c v] & <- & Hin). exact Hin.
  - intros Hin. exists (ct_category e, ct_total e). split; [now destruct e|exact Hin].
Qed.

Lemma filter_category_expense (category : string) (l : list Transaction) :
  List.filter (fun t => String.eqb (tx_category t) category)
              (List.filter isExpense l)
  = List.filter (fun t => isExpense t && String.eqb (tx_category t) category) l.
Proof.
  induction l as [|t l IH]; [reflexivity|]. cbn [List.filter].
  destruct (isExpense t); cbn [List.filter andb]; rewrite IH; reflexivity.
Qed.

(** An entry of the category totals holds the sum of |amount| over the
    expenses of its category, a number above zero. *)
Lemma categoryTotals_entry (transactions : list Transaction) (e : CategoryTotal) :
  In e (calculateCategoryTotals transactions) ->
  ct_total e = categorySpending (ct_category e) transactions
  /\ JsNumber.ltb JsNumber.zero (ct_total e) = true.
Proof.
  unfold calculateCategoryTotals, categoryTotalsOf, JsMap.entries. cbv zeta.
  rewrite categoryMap_grouped.
  set (expenses := List.filter isExpense transactions).
  set (m := fold_left (groupStep tx_category) expenses []).
  intros He.
  apply (Permutation_in _ (Permutation_sym (sortWith_perm byTotal _))) in He.
  assert (Hnd : List.NoDup (List.map fst m))
    by (apply grouped_keys; constructor).
  assert (Hpos : positiveValues m).
  { apply grouped_positive; [apply expenses_negative|apply positiveValues_empty]. }
  apply entries_of_totals, (In_get m _ _ Hnd) in He.
  split; [|now apply (Hpos _ _ He)].
  rewrite <- (getOr0_positive m _ _ Hpos He). unfold m.
  rewrite grouped_get;
    [|apply expenses_negative|apply positiveValues_empty].
  unfold expenses. rewrite filter_category_expense. reflexivity.
Qed.

Lemma byTotal_flip (x y : CategoryTotal) : 0 < byTotal x y -> byTotal y x <= 0.
Proof. apply JsNumberFacts.signum_sub_flip. Qed.

Lemma categoryTotals_descending (transactions : list Transaction) :
  descending (calculateCategoryTotals transactions).
Proof.
  unfold descending.
  apply (Sorted_weaken_in (inOrder byTotal)).
  - intros a b Ha Hb. unfold inOrder, byTotal.
    apply JsNumberFacts.signum_sub_leb; apply JsNumberFacts.positive_number;
      now apply (categoryTotals_entry transactions).
  - unfold calculateCategoryTotals, categoryTotalsOf.
    apply sortWith_sorted. apply byTotal_flip.
Qed.

(** *** Whole amounts *)

Section Whole.
Context {A : Type}.
Variable amount : A -> number.
Variable val : A -> Z.

Lemma weights_nonneg (l : list A) : 0 <= sumZ (List.map (fun x => Z.abs (val x)) l).
Proof. induction l as [|x l IH]; cbn; [lia|]. unfold sumZ in IH. lia. Qed.

Lemma sumZ_abs_nonneg (zs : list Z) : 0 <= sumZ (List.map Z.abs zs).
Proof. induction zs as [|z zs IH]; cbn; [lia|]. unfold sumZ in IH. lia. Qed.

Lemma sumZ_abs_le (zs : list Z) : Z.abs (sumZ zs) <= sumZ (List.map Z.abs zs).
Proof. induction zs as [|z zs IH]; cbn; [lia|]. unfold sumZ in IH. lia. Qed.

Lemma weights_filter (P : A -> bool) (l : list A) :
  sumZ (List.map (fun x => Z.abs (val x)) (List.filter P l))
  <= sumZ (List.map (fun x => Z.abs (val x)) l).
Proof.
  induction l as [|x l IH]; cbn; [lia|].
  destruct (P x); cbn; unfold sumZ in *; lia.
Qed.

(** Whole amounts, whatever their signs, have an exact sum of absolute
    values. *)
Lemma sumOf_abs_whole (l : list A) :
  (forall x, In x l -> amount x = JsNumber.ofZ (val x)) ->
  sumZ (List.map (fun x => Z.abs (val x)) l) < 2 ^ 53 ->
  JsNumber.sumOf (List.map (fun x => JsNumber.abs (amount x)) l)
  = JsNumber.ofZ (sumZ (List.map (fun x => Z.abs (val x)) l)).
Proof.
  intros Hw Hb.
  rewrite (List.map_ext_in (fun x => JsNumber.abs (amount x))
             (fun x => JsNumber.ofZ (Z.abs (val x))))
    by (intros x Hx; rewrite (Hw x Hx); apply JsNumberFacts.abs_ofZ).
  rewrite <- (List.map_map (fun x => Z.abs (val x)) JsNumber.ofZ).
  apply JsNumberFacts.sumOf_ofZ. rewrite List.map_map.
  rewrite (List.map_ext (fun x => Z.abs (Z.abs (val x))) (fun x => Z.abs (val x)))
    by (intros x; apply Z.abs_idemp).
  exact Hb.
Qed.

Variable key : A -> string.

Lemma sum_one_key (k : string) (c : Z) (ks : list string) :
  List.NoDup ks -> In k ks ->
  sumZ (List.map (fun k' => if String.eqb k k' then c else 0) ks) = c.
Proof.
  induction 1 as [|k0 ks Hnotin Hnd IH]; intros Hin; [destruct Hin|].
  cbn [List.map sumZ fold_right].
  destruct (String.eqb_spec k k0) as [E|E].
  - subst k0.
    assert (Hz : sumZ (List.map (fun k' => if String.eqb k k' then c else 0) ks) = 0).
    { clear IH Hnd Hin. induction ks as [|k1 ks IH]; [reflexivity|].
      cbn [List.map sumZ fold_right].
      destruct (String.eqb_spec k k1) as [E|E].
      - subst k1. exfalso. apply Hnotin. now left.
      - unfold sumZ in IH. rewrite IH; [reflexivity|].
        intros Hin. apply Hnotin. now right. }
    unfold sumZ in Hz. rewrite Hz. lia.
  - destruct Hin as [Hin|Hin]; [congruence|].
    specialize (IH Hin). unfold sumZ in IH. rewrite IH. lia.
Qed.

Lemma sumZ_add (f g : string -> Z) (ks : list string) :
  sumZ (List.map (fun k => f k + g k) ks)
  = sumZ (List.map f ks) + sumZ (List.map g ks).
Proof.
  induction ks as [|k ks IH]; [reflexivity|].
  cbn [List.map sumZ fold_right]. unfold sumZ in IH. rewrite IH. lia.
Qed.

(** The sums taken key by key, over keys that do not repeat and leave
    none out, add up to the sum of all. *)
Lemma sum_by_key (w : A -> Z) (ks : list string) (l : list A) :
  List.NoDup ks ->
  (forall x, In x l -> In (key x) ks) ->
  sumZ (List.map
          (fun k => sumZ (List.map w (List.filter (fun x => String.eqb (key x) k) l)))
          ks)
  = sumZ (List.map w l).
Proof.
  intros Hnd. induction l as [|x l IH]; intros Hcover.
  - cbn. clear. induction ks as [|k ks IH]; [reflexivity|].
    cbn [List.map sumZ fold_right]. unfold sumZ in IH. now rewrite IH.
  - rewrite (List.map_ext
               (fun k => sumZ (List.map w
                                 (List.filter (fun x => String.eqb (key x) k) (x :: l))))
               (fun k => (if String.eqb (key x) k then w x else 0)
                         + sumZ (List.map w
                                   (List.filter (fun x => String.eqb (key x) k) l)))).
    + rewrite sumZ_add, sum_one_key; [|exact Hnd|apply Hcover; now left].
      rewrite IH by (intros y Hy; apply Hcover; now right). reflexivity.
    + intros k. cbn [List.filter]. destruct (String.eqb (key x) k); reflexivity.
Qed.

End Whole.

Lemma categoryTotals_keys (transactions : list Transaction) :
  List.NoDup (List.map ct_category (calculateCategoryTotals transactions)).
Proof.
  unfold calculateCategoryTotals, categoryTotalsOf, JsMap.entries. cbv zeta.
  rewrite categoryMap_grouped.
  apply (Permutation_NoDup (Permutation_map ct_category (sortWith_perm byTotal _))).
  rewrite List.map_map.
  rewrite (List.map_ext _ fst) by (now intros [c v]).
  apply grouped_keys. constructor.
Qed.

Lemma categoryTotals_covers (transactions : list Transaction) (t : Transaction) :
  In t transactions ->
  JsNumber.ltb (tx_amount t) JsNumber.zero = true ->
  exists e, In e (calculateCategoryTotals transactions)
            /\ ct_category e = tx_category t.
Proof.
  unfold calculateCategoryTotals, categoryTotalsOf, JsMap.entries. cbv zeta.
  rewrite categoryMap_grouped.
  set (expenses := List.filter isExpense transactions).
  set (m := fold_left (groupStep tx_category) expenses []).
  intros Hin Hneg.
  assert (Hnd : List.NoDup (List.map fst m)) by (apply grouped_keys; constructor).
  assert (Hkey : In (tx_category t) (List.map fst m)).
  { apply grouped_has_key. right.
    apply List.in_map. apply List.filter_In. now split. }
  apply get_key in Hkey.
  destruct (JsMap.get m (tx_category t)) as [v|] eqn:E; [|congruence].
  exists (mkCategoryTotal (tx_category t) v). split; [|reflexivity].
  apply (Permutation_in _ (sortWith_perm byTotal _)). apply entries_of_totals.
  cbn [ct_category ct_total]. now apply (In_get m _ _ Hnd).
Qed.

Section Paired.
Context {A B : Type}.

Lemma combine_fst (l : list A) (zs : list B) :
  length l = length zs -> List.map fst (List.combine l zs) = l.
Proof.
  revert zs. induction l as [|x l IH]; intros [|z zs]; cbn; try discriminate;
    [reflexivity|]. intros [= H]. now rewrite IH.
Qed.

Lemma combine_snd (l : list A) (zs : list B) :
  length l = length zs -> List.map snd (List.combine l zs) = zs.
Proof.
  revert zs. induction l as [|x l IH]; intros [|z zs]; cbn; try discriminate;
    [reflexivity|]. intros [= H]. now rewrite IH.
Qed.

Lemma combine_related {C : Type} (f : A -> C) (g : B -> C)
    (l : list A) (zs : list B) :
  List.map f l = List.map g zs ->
  forall p, In p (List.combine l zs) -> f (fst p) = g (snd p).
Proof.
  revert zs. induction l as [|x l IH]; intros [|z zs] Hmap p Hp; cbn in *;
    try discriminate; try contradiction.
  injection Hmap as Hx Hl.
  destruct Hp as [<-|Hp]; [exact Hx|now apply (IH zs)].
Qed.

Lemma filter_combine (P : A -> bool) (l : list A) (zs : list B) :
  length l = length zs ->
  List.filter P l
  = List.map fst (List.filter (fun p => P (fst p)) (List.combine l zs)).
Proof.
  revert zs. induction l as [|x l IH]; intros [|z zs]; cbn; try discriminate;
    [reflexivity|]. intros [= H]. destruct (P x); cbn; now rewrite <- IH.
Qed.

End Paired.

(** When the expenses are whole amounts whose absolute values add up to
    less than 2^53, nothing is rounded: the totals add up to what the
    expenses add up to. *)
Lemma categoryTotals_whole (transactions : list Transaction) (amounts : list Z) :
  List.map tx_amount (List.filter isExpense transactions)
  = List.map JsNumber.ofZ amounts ->
  sumZ (List.map Z.abs amounts) < 2 ^ 53 ->
  JsNumber.sumOf (totals (calculateCategoryTotals transactions))
  = JsNumber.ofZ (sumZ (List.map Z.abs amounts))
  /\ JsNumber.sumOf (absAmounts (List.filter isExpense transactions))
     = JsNumber.ofZ (sumZ (List.map Z.abs amounts)).
Proof.
  set (expenses := List.filter isExpense transactions).
  intros Hmap Hb.
  assert (Hlen : length expenses = length amounts).
  { rewrite <- (List.length_map tx_amount), Hmap. apply List.length_map. }
  set (cl := List.combine expenses amounts).
  set (amount := fun p : Transaction * Z => tx_amount (fst p)).
  set (val := fun p : Transaction * Z => snd p).
  assert (Hw : forall p, In p cl -> amount p = JsNumber.ofZ (val p))
    by (apply combine_related; exact Hmap).
  assert (Hsum : sumZ (List.map (fun p => Z.abs (val p)) cl)
                 = sumZ (List.map Z.abs amounts)).
  { rewrite <- (List.map_map val Z.abs). unfold val, cl.
    now rewrite combine_snd. }
  assert (Hpart : forall P : Transaction -> bool,
            JsNumber.sumOf (absAmounts (List.filter P expenses))
            = JsNumber.ofZ
                (sumZ (List.map (fun p => Z.abs (val p))
                         (List.filter (fun p => P (fst p)) cl)))).
  { intros P. rewrite (filter_combine P expenses amounts Hlen). fold cl.
    unfold absAmounts. rewrite List.map_map.
    apply (sumOf_abs_whole amount val).
    - intros p Hp. apply Hw. now apply List.filter_In in Hp.
    - pose proof (weights_filter val (fun p => P (fst p)) cl). lia. }
  split.
  - set (W := fun c : string =>
                sumZ (List.map (fun p => Z.abs (val p))
                        (List.filter
                           (fun p => String.eqb (tx_category (fst p)) c) cl))).
    unfold totals.
    rewrite (List.map_ext_in ct_total (fun e => JsNumber.ofZ (W (ct_category e)))).
    + rewrite <- (List.map_map (fun e => W (ct_category e)) JsNumber.ofZ).
      assert (Hall : sumZ (List.map (fun e => W (ct_category e))
                             (calculateCategoryTotals transactions))
                     = sumZ (List.map Z.abs amounts)).
      { rewrite <- Hsum, <- (List.map_map ct_category W).
        apply (sum_by_key (fun p => tx_category (fst p))).
        - apply categoryTotals_keys.
        - intros [t z] Hp. apply List.in_combine_l in Hp. unfold expenses in Hp.
          apply List.filter_In in Hp. destruct Hp as [Hin Hneg].
          destruct (categoryTotals_covers transactions t Hin Hneg)
            as (e & He & Hc).
          cbn [fst]. rewrite <- Hc. now apply List.in_map. }
      rewrite <- Hall. apply JsNumberFacts.sumOf_ofZ. rewrite List.map_map.
      rewrite (List.map_ext (fun e => Z.abs (W (ct_category e)))
                 (fun e => W (ct_category e)))
        by (intros e; apply Z.abs_eq, weights_nonneg).
      now rewrite Hall.
    + intros e He. destruct (categoryTotals_entry transactions e He) as [-> _].
      unfold categorySpending. rewrite <- filter_category_expense.
      fold expenses. apply Hpart.
  - rewrite <- Hsum.
    specialize (Hpart (fun _ => true)).
    assert (Hid : forall (X : Type) (l : list X), List.filter (fun _ => true) l = l).
    { intros X l. induction l as [|x l IH]; cbn; congruence. }
    rewrite !Hid in Hpart. exact Hpart.
Qed.

(** C3, as the code has it.  The category totals come in descending
    order, each total at least the next one (categories with equal totals
    stand side by side); each total is the sum of |amount| over the
    expenses of its category, as the code adds them: in the order of the
    list, each partial sum rounded to a double; and when the expenses are
    whole amounts whose absolute values add up to less than 2^53, so that
    nothing is rounded, the totals add up to the sum of |amount| over all
    the expenses. *)
Theorem calculateCategoryTotals_spec (transactions : list Transaction) :
  descending (calculateCategoryTotals transactions)
  /\ (forall e, In e (calculateCategoryTotals transactions) ->
        ct_total e = categorySpending (ct_category e) transactions)
  /\ (forall amounts,
        List.map tx_amount (List.filter isExpense transactions)
        = List.map JsNumber.ofZ amounts ->
        sumZ (List.map Z.abs amounts) < 2 ^ 53 ->
        JsNumber.sumOf (totals (calculateCategoryTotals transactions))
        = JsNumber.sumOf (absAmounts (List.filter isExpense transactions))
        /\ JsNumber.sumOf (totals (calculateCategoryTotals transactions))
           = JsNumber.ofZ (sumZ (List.map Z.abs amounts))).
Proof.
  split; [apply categoryTotals_descending|]. split.
  - intros e He. now apply categoryTotals_entry.
  - intros amounts Hmap Hb.
    destruct (categoryTotals_whole transactions amounts Hmap Hb) as [Ht Ha].
    split; [now rewrite Ht, Ha|exact Ht].
Qed.

(** C3, as the specification has it, fails.  Two categories with the same
    total are not in strictly descending order.  And the totals do not
    add up to the amounts: an expense of 2^53 and an expense of 1 in one
    category have the total 2^53, since the sum is rounded; with the
    expense of 1 made twice in another category, the totals are 2^53 and
    2, which add up to 2^53 + 2, while the three amounts add up to 2^53
    as the code adds amounts. *)
Lemma calculateCategoryTotals_not_strict :
  ~ strictlyDescending
      (calculateCategoryTotals
         [mkTransaction "t1" "2025-01-15" (JsNumber.ofZ (-5)) "Food" None;
          mkTransaction "t2" "2025-01-16" (JsNumber.ofZ (-5)) "Rent" None])
  /\ calculateCategoryTotals
       [mkTransaction "t1" "2025-01-15" (JsNumber.ofZ (- 2 ^ 53)) "Rent" None;
        mkTransaction "t2" "2025-01-16" (JsNumber.ofZ (-1)) "Rent" None]
     = [mkCategoryTotal "Rent" (JsNumber.ofZ (2 ^ 53))]
  /\ JsNumber.sumOf
       (totals
          (calculateCategoryTotals
             [mkTransaction "t1" "2025-01-15" (JsNumber.ofZ (- 2 ^ 53)) "Rent" None;
              mkTransaction "t2" "2025-01-16" (JsNumber.ofZ (-1)) "Food" None;
              mkTransaction "t3" "2025-01-17" (JsNumber.ofZ (-1)) "Food" None]))
     = JsNumber.ofZ (2 ^ 53 + 2)
  /\ JsNumber.sumOf
       (absAmounts
          (List.filter isExpense
             [mkTransaction "t1" "2025-01-15" (JsNumber.ofZ (- 2 ^ 53)) "Rent" None;
              mkTransaction "t2" "2025-01-16" (JsNumber.ofZ (-1)) "Food" None;
              mkTransaction "t3" "2025-01-17" (JsNumber.ofZ (-1)) "Food" None]))
     = JsNumber.ofZ (2 ^ 53)
  /\ JsNumber.ofZ (2 ^ 53 + 2) <> JsNumber.ofZ (2 ^ 53).
Proof.
  refine (conj _ (conj _ (conj _ (conj _ _)))).
  - unfold strictlyDescending.
    replace (calculateCategoryTotals _)
      with [mkCategoryTotal "Food" (JsNumber.ofZ 5);
            mkCategoryTotal "Rent" (JsNumber.ofZ 5)]
      by (vm_compute; exact eq_refl).
    intros H.
    inversion H as [|a l _ Hhd]; subst.
    inversion Hhd as [|b l' Hgt]; subst.
    vm_compute in Hgt. discriminate.
  - vm_compute. exact eq_refl.
  - vm_compute. exact eq_refl.
  - vm_compute. exact eq_refl.
  - vm_compute. discriminate.
Qed.

(** Two expenses of 5 and 7 and an income of 100: the totals add up to
    12, as the expenses do. *)
Lemma calculateCategoryTotals_spec_witness :
  JsNumber.sumOf
    (totals
       (calculateCategoryTotals
          [mkTransaction "t1" "2025-01-15" (JsNumber.ofZ (-5)) "Food" None;
           mkTransaction "t2" "2025-01-16" (JsNumber.ofZ 100) "Salary" None;
           mkTransaction "t3" "2025-01-17" (JsNumber.ofZ (-7)) "Rent" None]))
  = JsNumber.sumOf
      (absAmounts
         (List.filter isExpense
            [mkTransaction "t1" "2025-01-15" (JsNumber.ofZ (-5)) "Food" None;
             mkTransaction "t2" "2025-01-16" (JsNumber.ofZ 100) "Salary" None;
             mkTransaction "t3" "2025-01-17" (JsNumber.ofZ (-7)) "Rent" None]))
  /\ JsNumber.sumOf
       (totals
          (calculateCategoryTotals
             [mkTransaction "t1" "2025-01-15" (JsNumber.ofZ (-5)) "Food" None;
              mkTransaction "t2" "2025-01-16" (JsNumber.ofZ 100) "Salary" None;
              mkTransaction "t3" "2025-01-17" (JsNumber.ofZ (-7)) "Rent" None]))
     = JsNumber.ofZ (sumZ (List.map Z.abs [-5; -7])).
Proof.
  apply (calculateCategoryTotals_spec
           [mkTransaction "t1" "2025-01-15" (JsNumber.ofZ (-5)) "Food" None;
            mkTransaction "t2" "2025-01-16" (JsNumber.ofZ 100) "Salary" None;
            mkTransaction "t3" "2025-01-17" (JsNumber.ofZ (-7)) "Rent" None]).
  - vm_compute. exact eq_refl.
  - vm_compute. exact eq_refl.
Defined.

(** The arithmetic is the one of doubles: with a limit of 0.3 and the
    expenses 0.1 and 0.2 the remainder is not zero but -2^-54, and with
    a limit of 100 and an expense of 0.1 it is the double next to 99.9
    that JavaScript prints as 99.9. *)
Example calculateBudgetRemaining_rounds :
  calculateBudgetRemaining
    (mkBudget "b" "2025-01" "Food" (JsNumber.decimal 3 10))
    [mkTransaction "t1" "2025-01-15" (JsNumber.decimal (-1) 10) "Food" None;
     mkTransaction "t2" "2025-01-16" (JsNumber.decimal (-2) 10) "Food" None]
  = Finite true (2 ^ (1074 - 54))
  /\ calculateBudgetRemaining
       (mkBudget "b" "2025-01" "Food" (JsNumber.ofZ 100))
       [mkTransaction "t1" "2025-01-15" (JsNumber.decimal (-1) 10) "Food" None]
     = JsNumber.decimal 999 10.
Proof. split; vm_compute; exact eq_refl. Qed.

(** *** Spending over time *)

Lemma localeCompare_flip (x y : string) :
  0 < localeCompare x y -> localeCompare y x <= 0.
Proof.
  unfold localeCompare, compareCodeUnits. rewrite (String.compare_antisym x y).
  destruct (String.compare y x); simpl; lia.
Qed.

Lemma localeCompare_leb (x y : string) :
  localeCompare x y <= 0 -> String.leb x y = true.
Proof.
  unfold localeCompare, compareCodeUnits, String.leb.
  destruct (String.compare x y); simpl; (reflexivity || lia).
Qed.

Section Series.
Context {R : Runtime}.

(** The buckets come out in ascending order of their keys, whatever the
    grouping and the time zone. *)
Lemma calculateSpendingOverTime_ascending
    (tz : Z) (transactions : list Transaction) (groupBy : GroupBy) :
  ascendingKeys (calculateSpendingOverTime tz transactions groupBy).
Proof.
  unfold ascendingKeys, calculateSpendingOverTime, spendingOverTimeOf.
  destruct (groupSpending tz groupBy _ []) as [spendingMap|]; [|constructor].
  eapply Sorted_weaken;
    [|apply (sortWith_sorted (fun a b => localeCompare (sp_date a) (sp_date b)))].
  - unfold inOrder. intros a b. apply localeCompare_leb.
  - intros x y. apply localeCompare_flip.
Qed.

Lemma getGroupKey_week (tz : Z) (date : string) :
  getGroupKey tz date Week = weekKeyOf tz (newDate date).
Proof. reflexivity. Qed.

(** The series of a single expense. *)
Lemma calculateSpendingOverTime_single (tz : Z) (t : Transaction)
    (groupBy : GroupBy) :
  isExpense t = true ->
  calculateSpendingOverTime tz [t] groupBy
  = match getGroupKey tz (tx_date t) groupBy with
    | Some groupKey =>
        [mkSpendingOverTime groupKey
           (JsNumber.add JsNumber.zero (JsNumber.abs (tx_amount t)))]
    | None => []
    end.
Proof.
  intros Ht. unfold calculateSpendingOverTime, spendingOverTimeOf.
  cbn [List.filter]. rewrite Ht. cbn [groupSpending].
  destruct (getGroupKey tz (tx_date t) groupBy); reflexivity.
Qed.

(** With the clock of the browser on UTC, or ahead of it, the week of
    Wednesday 2025-01-15 is keyed by Monday 2025-01-13. *)
Example getGroupKey_week_utc :
  getGroupKey 0 "2025-01-15" Week = Some "2025-01-13"
  /\ getGroupKey 330 "2025-01-15" Week = Some "2025-01-13"
  /\ JsDate.getDay 0 (newDate "2025-01-13") = Some 1.
Proof.
  rewrite !getGroupKey_week.
  rewrite (newDate_dateOnly "2025-01-15" 1736899200000)
    by (vm_compute; exact eq_refl).
  rewrite (newDate_dateOnly "2025-01-13" 1736726400000)
    by (vm_compute; exact eq_refl).
  refine (conj _ (conj _ _)); vm_compute; exact eq_refl.
Qed.

(** C4.  Five hours behind UTC (New York in winter) the same Wednesday is
    read as Tuesday evening: [getDay] answers 2, the date goes back one
    day to Monday evening local time, and [toISOString] prints that instant
    as the UTC date 2025-01-14, which is a Tuesday.  The bucket key of the
    week is then not the date of a Monday. *)
Theorem getGroupKey_week_behind_utc :
  JsDate.getDay (-300) (newDate "2025-01-15") = Some 2
  /\ getGroupKey (-300) "2025-01-15" Week = Some "2025-01-14"
  /\ JsDate.getDay 0 (newDate "2025-01-14") = Some 2
  /\ calculateSpendingOverTime (-300) [purchase1] Week
     = [mkSpendingOverTime "2025-01-14" (JsNumber.decimal 4550 100)].
Proof.
  rewrite (calculateSpendingOverTime_single (-300) purchase1 Week)
    by (vm_compute; exact eq_refl).
  change (tx_date purchase1) with "2025-01-15".
  rewrite !getGroupKey_week.
  rewrite (newDate_dateOnly "2025-01-15" 1736899200000)
    by (vm_compute; exact eq_refl).
  rewrite (newDate_dateOnly "2025-01-14" 1736812800000)
    by (vm_compute; exact eq_refl).
  refine (conj _ (conj _ (conj _ _))); vm_compute; exact eq_refl.
Qed.

End Series.


End CalculationFacts.

(* ===================================================================== *)
(** ** Dates and the key of a week *)
(* ===================================================================== *)

Module JsDateFacts.
Import JsDate JsString CalculationService CalculationSpec.

(** Inside a cycle of 400 years: the year of the cycle and the day of
    that year. *)
Lemma era_bounds (doe : Z) :
  0 <= doe < 146097 ->
  let yoe := (doe - doe / 1460 + doe / 36524 - doe / 146096) / 365 in
  let doy := doe - (365 * yoe + yoe / 4 - yoe / 100) in
  0 <= yoe <= 399 /\ 0 <= doy <= 365.
Proof. intros H. cbv zeta. Z.to_euclidean_division_equations; lia. Qed.

(** The day number of a date comes back from its year, month and day. *)
Lemma roundTrip_parts (n : Z) :
  daysFromCivil (fst (fst (civilFromDays n))) (snd (fst (civilFromDays n)))
                (snd (civilFromDays n)) = n.
Proof.
  unfold civilFromDays. cbv zeta. cbn [fst snd].
  set (z := n + 719468). set (era := z / 146097). set (doe := z - era * 146097).
  assert (Hdoe : 0 <= doe < 146097).
  { unfold doe, era. Z.to_euclidean_division_equations; lia. }
  pose proof (era_bounds doe Hdoe) as Hb. cbv zeta in Hb.
  set (yoe := (doe - doe / 1460 + doe / 36524 - doe / 146096) / 365) in *.
  set (doy := doe - (365 * yoe + yoe / 4 - yoe / 100)) in *.
  set (mp := (5 * doy + 2) / 153).
  assert (Hmp : 0 <= mp <= 11) by (unfold mp; Z.to_euclidean_division_equations; lia).
  set (m := if mp <? 10 then mp + 3 else mp - 9).
  assert (Hm : (m + 9) mod 12 = mp).
  { unfold m. destruct (Z.ltb_spec mp 10); Z.to_euclidean_division_equations; lia. }
  unfold daysFromCivil. cbv zeta. rewrite Hm.
  replace (if m <=? 2 then (if m <=? 2 then yoe + era * 400 + 1 else yoe + era * 400) - 1
           else (if m <=? 2 then yoe + era * 400 + 1 else yoe + era * 400))
    with (yoe + era * 400) by (destruct (m <=? 2); lia).
  replace ((yoe + era * 400) / 400) with era
    by (symmetry; rewrite Z.div_add by lia; rewrite Z.div_small by lia; lia).
  pose proof (eq_refl : doy = doe - (365 * yoe + yoe / 4 - yoe / 100)) as Edoy.
  pose proof (eq_refl : doe = z - era * 146097) as Edoe.
  pose proof (eq_refl : z = n + 719468) as Ez.
  replace (yoe + era * 400 - era * 400) with yoe by lia.
  clearbody m mp doy yoe doe era z. lia.
Qed.

Lemma roundTrip (n y m d : Z) :
  civilFromDays n = (y, m, d) -> daysFromCivil y m d = n.
Proof. intros H. pose proof (roundTrip_parts n) as R. now rewrite H in R. Qed.

Lemma daysFromCivil_day (y m d k : Z) :
  daysFromCivil y m (d + k) = daysFromCivil y m d + k.
Proof. unfold daysFromCivil. lia. Qed.

Lemma weekDay_monday (day : Z) :
  let dow := weekDay day in
  let diff := if dow =? 0 then -6 else 1 - dow in
  weekDay (day + diff) = 1 /\ -6 <= diff <= 0.
Proof.
  unfold weekDay. cbv zeta.
  destruct (Z.eqb_spec ((day + 4) mod 7) 0) as [E|E];
    Z.to_euclidean_division_equations; lia.
Qed.

Lemma length_substring (s : string) : forall n m,
  (n + m <= String.length s)%nat -> String.length (String.substring n m s) = m.
Proof.
  induction s as [|c s IH]; intros n m H; simpl in *.
  - destruct n, m; simpl; lia.
  - destruct n as [|n].
    + destruct m as [|m]; simpl; [reflexivity|]. f_equal. apply IH. lia.
    + apply IH. lia.
Qed.

Lemma digitValue_bound (c : ascii) : isDigit c = true -> 0 <= digitValue c <= 9.
Proof.
  unfold isDigit, digitValue. cbv zeta. rewrite Bool.andb_true_iff, !N.leb_le.
  generalize (N_of_ascii c). intros n [H1 H2]. lia.
Qed.

Lemma digitsFrom_bound (s : string) : forall acc v,
  0 <= acc -> digitsFrom acc s = Some v ->
  0 <= v < (acc + 1) * 10 ^ Z.of_nat (String.length s).
Proof.
  induction s as [|c s IH]; intros acc v Hacc H; cbn [digitsFrom] in H.
  - injection H as <-. simpl. lia.
  - destruct (isDigit c) eqn:Hc; [|discriminate].
    pose proof (digitValue_bound c Hc) as Hd.
    specialize (IH (10 * acc + digitValue c) v ltac:(lia) H).
    cbn [String.length]. rewrite Nat2Z.inj_succ, Z.pow_succ_r by lia.
    nia.
Qed.

Lemma parseDigits_bound (s : string) (v : Z) :
  parseDigits s = Some v -> 0 <= v < 10 ^ Z.of_nat (String.length s).
Proof.
  unfold parseDigits. destruct s as [|c s]; [discriminate|].
  intros H. pose proof (digitsFrom_bound _ 0 v ltac:(lia) H). lia.
Qed.

Lemma daysFromCivil_bound (y m d : Z) :
  0 <= y < 10000 -> 1 <= m <= 12 -> 1 <= d <= 31 ->
  -720000 <= daysFromCivil y m d <= 3000000.
Proof.
  intros Hy Hm Hd. unfold daysFromCivil.
  destruct (m <=? 2); Z.to_euclidean_division_equations; lia.
Qed.

Lemma daysInMonth_max (y m : Z) : daysInMonth y m <= 31.
Proof. unfold daysInMonth. repeat destruct (_ : bool); lia. Qed.

(** A date that parses is a midnight, UTC, of the era of four-digit years. *)
Lemma dateOnly_midnight (s : string) (ms : Z) :
  dateOnly s = Some ms ->
  exists day, ms = day * msPerDay /\ -720000 <= day <= 3000000.
Proof.
  unfold dateOnly. destruct (Nat.eqb_spec (String.length s) 10) as [Hlen|]; [|discriminate].
  cbn [andb].
  destruct (_ && _); [|discriminate].
  destruct (parseDigits (String.substring 0 4 s)) as [y|] eqn:Hy; [|discriminate].
  destruct (parseDigits (String.substring 5 2 s)) as [m|] eqn:Hm; [|discriminate].
  destruct (parseDigits (String.substring 8 2 s)) as [d|] eqn:Hd; [|discriminate].
  destruct (_ && _ && _ && _) eqn:Hrange; [|discriminate].
  rewrite !Bool.andb_true_iff, !Z.leb_le in Hrange.
  apply parseDigits_bound in Hy. rewrite length_substring in Hy by lia.
  pose proof (daysInMonth_max y m).
  pose proof (daysFromCivil_bound y m d ltac:(simpl in Hy; lia) ltac:(lia) ltac:(lia)).
  unfold timeClip. destruct (_ <=? _); [|discriminate].
  intros [= <-]. eauto.
Qed.

Lemma mondayShift_spec (localDay : Z) :
  weekDay (localDay + mondayShift localDay) = 1
  /\ weekDay (localDay + 1 + mondayShift localDay) = 2
  /\ -6 <= mondayShift localDay <= 0.
Proof.
  unfold mondayShift, weekDay. cbv zeta.
  destruct (Z.eqb_spec ((localDay + 4) mod 7) 0) as [E|E];
    Z.to_euclidean_division_equations; lia.
Qed.

Section WithRuntime.
Context {R : Runtime}.

Lemma getGroupKey_week_general (tz : Z) (date : string) (ms : Z) :
  dateOnly date = Some ms ->
  -1440 < tz < 1440 ->
  let day := ms / msPerDay in
  let localDay := if tz <? 0 then day - 1 else day in
  getGroupKey tz date Week = dayKey (day + mondayShift localDay).
Proof.
  intros Hp Htz. destruct (dateOnly_midnight _ _ Hp) as (D & -> & HD).
  cbv zeta. rewrite Z.div_mul by (unfold msPerDay; lia).
  set (L := if tz <? 0 then D - 1 else D).
  unfold getGroupKey. rewrite (newDate_dateOnly _ _ Hp).
  unfold getDay, getDate, setDate, localTime, utcOfLocal.
  assert (HL : (D * msPerDay + tz * 60000) / msPerDay = L
               /\ (D * msPerDay + tz * 60000) mod msPerDay
                  = tz * 60000 - (L - D) * msPerDay).
  { unfold L, msPerDay. destruct (Z.ltb_spec tz 0);
      Z.to_euclidean_division_equations; lia. }
  destruct HL as [HL HR]. rewrite HL, HR.
  destruct (civilFromDays L) as [[y m] dd] eqn:Ecivil.
  apply roundTrip in Ecivil.
  fold (mondayShift L).
  pose proof (mondayShift_spec L) as (_ & _ & Hshift).
  pose proof (daysFromCivil_day y m 1 (dd - 1)) as Hday.
  replace (1 + (dd - 1)) with dd in Hday by lia.
  replace ((daysFromCivil y m 1 + (dd + mondayShift L) - 1) * msPerDay
           + (tz * 60000 - (L - D) * msPerDay) - tz * 60000)
    with ((D + mondayShift L) * msPerDay) by lia.
  unfold timeClip.
  replace (Z.abs ((D + mondayShift L) * msPerDay) <=? 8640000000000000) with true
    by (symmetry; apply Z.leb_le; unfold msPerDay; lia).
  reflexivity.
Qed.

(** On UTC and ahead of it, the key of the week of a date is the Monday
    on or before that date. *)
Theorem week_key_ahead_of_utc (tz : Z) (date : string) (ms : Z) :
  0 <= tz < 1440 ->
  dateOnly date = Some ms ->
  let day := ms / msPerDay in
  let monday := day + mondayShift day in
  getGroupKey tz date Week = dayKey monday
  /\ weekDay monday = 1
  /\ monday <= day < monday + 7.
Proof.
  intros Htz Hp day monday.
  pose proof (getGroupKey_week_general tz date ms Hp ltac:(lia)) as H.
  cbv zeta in H. replace (tz <? 0) with false in H
    by (symmetry; apply Z.ltb_ge; lia).
  pose proof (mondayShift_spec day) as (Hm & _ & Hs).
  unfold monday. repeat split; (exact H || exact Hm || lia).
Qed.

(** Behind UTC, the key of the week of a date is never a Monday: it is
    the Tuesday that follows the Monday of the local day before. *)
Theorem week_key_behind_utc (tz : Z) (date : string) (ms : Z) :
  -1440 < tz < 0 ->
  dateOnly date = Some ms ->
  let day := ms / msPerDay in
  let tuesday := day + mondayShift (day - 1) in
  getGroupKey tz date Week = dayKey tuesday
  /\ weekDay tuesday = 2.
Proof.
  intros Htz Hp day tuesday.
  pose proof (getGroupKey_week_general tz date ms Hp ltac:(lia)) as H.
  cbv zeta in H. replace (tz <? 0) with true in H
    by (symmetry; apply Z.ltb_lt; lia).
  pose proof (mondayShift_spec (day - 1)) as (_ & Ht & _).
  unfold tuesday. split; [exact H|].
  replace (day + mondayShift (day - 1)) with (day - 1 + 1 + mondayShift (day - 1))
    by lia.
  exact Ht.
Qed.

End WithRuntime.

Example dayKey_monday : dayKey 20101 = Some "2025-01-13".
Proof. vm_compute. exact eq_refl. Qed.

End JsDateFacts.

(* ===================================================================== *)
(** ** The calculation engine on any input *)
(* ===================================================================== *)

Module FailSoftFacts.
Import CalculationService.
Import CalculationServiceJs.

Lemma reduceAmounts_throws (elements : list Element) (sum : number) :
  In ElNull elements \/ In ElUndefined elements ->
  reduceAmounts sum elements = None.
Proof.
  revert sum. induction elements as [|e rest IH]; intros sum H.
  - destruct H as [[]|[]].
  - destruct e; simpl; try reflexivity; apply IH;
      destruct H as [[H|H]|[H|H]]; (discriminate || tauto).
Qed.

Lemma filterElements_throws (callback : Transaction -> bool)
    (elements : list Element) :
  In ElNull elements \/ In ElUndefined elements ->
  filterElements callback elements = None.
Proof.
  induction elements as [|e rest IH]; intros H.
  - destruct H as [[]|[]].
  - destruct e; simpl; try reflexivity.
    + rewrite IH; [reflexivity|].
      destruct H as [[H|H]|[H|H]]; (discriminate || tauto).
    + apply IH. destruct H as [[H|H]|[H|H]]; (discriminate || tauto).
Qed.

Lemma reduceAmounts_typed (l : list Transaction) (sum : number) :
  reduceAmounts sum (List.map ElTransaction l)
  = Some (fold_left (fun sum t => JsNumber.add sum (tx_amount t)) l sum).
Proof.
  revert sum. induction l as [|t l IH]; intros sum; simpl; [reflexivity|].
  apply IH.
Qed.

Lemma filterElements_typed (callback : Transaction -> bool) (l : list Transaction) :
  filterElements callback (List.map ElTransaction l)
  = Some (List.filter callback l).
Proof.
  induction l as [|t l IH]; simpl; [reflexivity|]. now rewrite IH.
Qed.

Section WithRuntime.
Context {R : Runtime}.

(** On an array of transactions the engine returns what the typed
    functions compute. *)
Lemma typed_agreement (l : list Transaction) :
  CalculationServiceJs.calculateTotalBalanceJs (AnArray (List.map ElTransaction l))
  = Returned (CalculationService.calculateTotalBalance l)
  /\ (forall month,
        CalculationServiceJs.calculateMonthlySpendingJs
          (AnArray (List.map ElTransaction l)) month
        = Returned (CalculationService.calculateMonthlySpending l month))
  /\ CalculationServiceJs.calculateCategoryTotalsJs (AnArray (List.map ElTransaction l))
     = Returned (CalculationService.calculateCategoryTotals l)
  /\ (forall tz groupBy,
        CalculationServiceJs.calculateSpendingOverTimeJs tz
          (AnArray (List.map ElTransaction l)) groupBy
        = Returned (CalculationService.calculateSpendingOverTime tz l groupBy))
  /\ (forall budget,
        CalculationServiceJs.calculateBudgetRemainingJs (BudgetObject budget)
          (AnArray (List.map ElTransaction l))
        = Returned (CalculationService.calculateBudgetRemaining budget l)).
Proof.
  unfold calculateTotalBalanceJs,
    CalculationServiceJs.calculateMonthlySpendingJs,
    CalculationServiceJs.calculateCategoryTotalsJs,
    CalculationServiceJs.calculateSpendingOverTimeJs,
    CalculationServiceJs.calculateBudgetRemainingJs, tryCatch, requireArray.
  repeat split; intros; rewrite ?reduceAmounts_typed, ?filterElements_typed;
    reflexivity.
Qed.

(** C9, as the code has it.  When the transactions argument is not an
    array, or is an array that holds [null] or [undefined], no function of
    the engine raises and each returns its neutral value: 0 for the total
    balance and the monthly spending, the empty list for the category
    totals and the spending over time, and, the budget being an object,
    its limit for the budget remainder. *)
Theorem fail_soft (transactions : Argument) :
  noticed transactions ->
  CalculationServiceJs.calculateTotalBalanceJs transactions
  = Returned JsNumber.zero
  /\ (forall month,
        CalculationServiceJs.calculateMonthlySpendingJs transactions month
        = Returned JsNumber.zero)
  /\ CalculationServiceJs.calculateCategoryTotalsJs transactions = Returned []
  /\ (forall tz groupBy,
        CalculationServiceJs.calculateSpendingOverTimeJs tz transactions groupBy
        = Returned [])
  /\ (forall budget,
        CalculationServiceJs.calculateBudgetRemainingJs (BudgetObject budget)
          transactions
        = Returned (b_limit budget)).
Proof.
  unfold calculateTotalBalanceJs,
    CalculationServiceJs.calculateMonthlySpendingJs,
    CalculationServiceJs.calculateCategoryTotalsJs,
    CalculationServiceJs.calculateSpendingOverTimeJs,
    CalculationServiceJs.calculateBudgetRemainingJs, tryCatch, requireArray.
  destruct transactions as [|elements]; intros H.
  - repeat split.
  - simpl in H.
    repeat split; intros;
      rewrite ?(reduceAmounts_throws elements _ H),
              ?(filterElements_throws _ elements H);
      reflexivity.
Qed.

End WithRuntime.

Lemma fail_soft_witness :
  CalculationServiceJs.calculateTotalBalanceJs Examples.withNull
  = Returned JsNumber.zero
  /\ CalculationServiceJs.calculateCategoryTotalsJs Examples.withNull = Returned []
  /\ CalculationServiceJs.calculateBudgetRemainingJs
       (BudgetObject Examples.groceriesBudget) Examples.withNull
     = Returned (JsNumber.ofZ 400).
Proof.
  destruct (fail_soft (R := AsciiRuntime.runtime) Examples.withNull)
    as (H1 & _ & H3 & _ & H5).
  - simpl. left. right. left. reflexivity.
  - split; [exact H1|]. split; [exact H3|]. apply H5.
Defined.

(** C9, as the specification has it, fails.  An element of the wrong
    shape that raises nothing is not noticed: without an amount it turns
    the total balance into NaN.  And a budget of [null] makes the budget
    remainder raise, from its [catch] clause. *)
Lemma fail_soft_not_total :
  CalculationServiceJs.calculateTotalBalanceJs
    (AnArray [ElNoAmount "2025-01-15" "Groceries"]) = Returned NaN
  /\ CalculationServiceJs.calculateTotalBalanceJs
       (AnArray [ElNoAmount "2025-01-15" "Groceries"]) <> Returned JsNumber.zero
  /\ CalculationServiceJs.calculateBudgetRemainingJs BudgetNull NotAnArray = Raised.
Proof. refine (conj eq_refl (conj _ eq_refl)). discriminate. Qed.

End FailSoftFacts.

(* ===================================================================== *)
(** ** String facts *)
(* ===================================================================== *)

Module StringFacts.
Import JsString.

Lemma prefix_refl (s : string) : String.prefix s s = true.
Proof.
  induction s as [|c s IH]; simpl; [reflexivity|].
  destruct (ascii_dec c c); [exact IH|contradiction].
Qed.

Lemma prefix_append (p s : string) : String.prefix p (p +:+ s) = true.
Proof.
  induction p as [|c p IH]; simpl.
  - now destruct s.
  - destruct (ascii_dec c c); [exact IH|contradiction].
Qed.

Lemma includes_append_l (a b p : string) :
  includes b p = true -> includes (a +:+ b) p = true.
Proof.
  intros Hb. induction a as [|c a IH]; simpl; [exact Hb|].
  rewrite IH. apply Bool.orb_true_r.
Qed.

End StringFacts.

(* ===================================================================== *)
(** ** The retry policy *)
(* ===================================================================== *)

Module RetryFacts.
Import RetrySpec.

Section Run.
Context {R : Runtime} {St A : Type}.
Variable fn : Async St A.
Variables maxRetries initialDelay : Z.

(** The loop, followed through [j] transient failures to the call that
    ends it. *)
Lemma retryLoop_run (j : nat) :
  forall (iterations : nat) (attempt : Z) (lastError : option Error) (s : St),
    (j < iterations)%nat ->
    attempt + Z.of_nat j <= maxRetries ->
    (forall i, (i < j)%nat -> failedTransient (attemptOutcome fn i s) = true) ->
    match attemptOutcome fn j s with
    | Resolved a =>
        retryLoop fn maxRetries initialDelay iterations attempt lastError s
        = (Resolved a, stateAfter fn j s, schedule initialDelay attempt j)
    | Rejected error =>
        isTransientError (toError error) = false
        \/ attempt + Z.of_nat j = maxRetries ->
        retryLoop fn maxRetries initialDelay iterations attempt lastError s
        = (Rejected (ThrowError (toError error)), stateAfter fn j s,
           schedule initialDelay attempt j)
    end.
Proof.
  induction j as [|j IH]; intros iterations attempt lastError s Hit Hle Hpre.
  - destruct iterations as [|n]; [lia|]. clear Hpre.
    unfold attemptOutcome, stateAfter. simpl.
    destruct (fn s) as [[a|error] s1]; simpl; [reflexivity|].
    intros [Hnt|Hlast].
    + now rewrite Hnt.
    + destruct (isTransientError (toError error)); simpl; [|reflexivity].
      replace (attempt =? maxRetries) with true
        by (symmetry; apply Z.eqb_eq; lia).
      reflexivity.
  - destruct iterations as [|n]; [lia|].
    pose proof (Hpre 0%nat ltac:(lia)) as H0.
    unfold attemptOutcome in H0. simpl in H0.
    specialize (IH n (attempt + 1) (Some (toError match fst (fn s) with
                                                   | Rejected e => e
                                                   | Resolved _ => ThrowValue ""
                                                   end))
                   (snd (fn s)) ltac:(lia) ltac:(lia)).
    assert (Hpre' : forall i, (i < j)%nat ->
              failedTransient (attemptOutcome fn i (snd (fn s))) = true).
    { intros i Hi. apply (Hpre (S i)). lia. }
    specialize (IH Hpre').
    unfold attemptOutcome, stateAfter in *. simpl.
    destruct (fn s) as [[a|error] s1]; simpl in *; [discriminate|].
    rewrite H0. simpl.
    replace (attempt =? maxRetries) with false
      by (symmetry; apply Z.eqb_neq; lia).
    destruct (fst (fn (stateBefore fn j s1))) as [a|error'].
    + now rewrite IH.
    + intros Hend. rewrite IH; [reflexivity|].
      destruct Hend as [Hnt|Hlast]; [now left|right; lia].
Qed.

(** No more calls than [maxRetries + 1], whatever [fn] does. *)
Lemma retryLoop_attempts (iterations : nat) :
  forall (attempt : Z) (lastError : option Error) (s : St),
    (length (List.filter isAttempt
       (snd (retryLoop fn maxRetries initialDelay iterations attempt lastError s)))
     <= iterations)%nat.
Proof.
  induction iterations as [|n IH]; intros attempt lastError s; simpl; [lia|].
  destruct (fn s) as [[a|error] s1]; simpl; [lia|].
  destruct (isTransientError (toError error)); simpl; [|lia].
  destruct (attempt =? maxRetries); simpl; [lia|].
  specialize (IH (attempt + 1) (Some (toError error)) s1).
  destruct (retryLoop fn maxRetries initialDelay n (attempt + 1) _ s1)
    as [[r s2] events]. simpl in *. lia.
Qed.

(** A call that fails and leaves the state alone fails every time: the
    policy ends with that failure and the state it started from. *)
Lemma retryLoop_same_failure (error : Thrown) (s : St) :
  fn s = (Rejected error, s) ->
  forall (iterations : nat) (attempt : Z) (lastError : option Error),
    (0 < iterations)%nat ->
    attempt + Z.of_nat iterations = maxRetries + 1 ->
    fst (retryLoop fn maxRetries initialDelay iterations attempt lastError s)
    = (Rejected (ThrowError (toError error)), s).
Proof.
  intros Hfn. induction iterations as [|n IH]; intros attempt lastError Hpos Hsum;
    [lia|].
  simpl. rewrite Hfn.
  destruct (isTransientError (toError error)); simpl; [|reflexivity].
  destruct (Z.eqb_spec attempt maxRetries) as [E|E]; [reflexivity|].
  specialize (IH (attempt + 1) (Some (toError error)) ltac:(lia) ltac:(lia)).
  destruct (retryLoop fn maxRetries initialDelay n (attempt + 1) _ s)
    as [[r s2] events]. simpl in *. exact IH.
Qed.

Lemma retrying_same_failure (error : Thrown) (s : St) :
  0 <= maxRetries ->
  fn s = (Rejected error, s) ->
  retrying fn maxRetries initialDelay s
  = (Rejected (ThrowError (toError error)), s).
Proof.
  intros Hn Hfn. unfold retrying, retryWithBackoff.
  pose proof (retryLoop_same_failure error s Hfn
                (Z.to_nat (maxRetries + 1)) 0 None ltac:(lia) ltac:(lia)) as H.
  destruct (retryLoop fn maxRetries initialDelay _ 0 None s) as [[r s2] events].
  exact H.
Qed.

Lemma retrying_success (a : A) (s s' : St) :
  0 <= maxRetries ->
  fn s = (Resolved a, s') ->
  retrying fn maxRetries initialDelay s = (Resolved a, s').
Proof.
  intros Hn Hfn. unfold retrying, retryWithBackoff.
  destruct (Z.to_nat (maxRetries + 1)) as [|n] eqn:E; [lia|].
  simpl. now rewrite Hfn.
Qed.

End Run.

(** Every further call comes after the wait that the call before it
    earned: [initialDelay * 2^k] after call number [k]. *)
Lemma schedule_next (initialDelay from : Z) (retries : nat) :
  schedule initialDelay from (S retries)
  = schedule initialDelay from retries
    ++ [Wait (initialDelay * 2 ^ (from + Z.of_nat retries));
        Attempt (from + Z.of_nat retries + 1)].
Proof.
  revert from. induction retries as [|n IH]; intros from.
  - simpl. now rewrite Z.add_0_r.
  - change (schedule initialDelay from (S (S n)))
      with (Attempt from :: Wait (initialDelay * 2 ^ from)
            :: schedule initialDelay (from + 1) (S n)).
    rewrite IH. simpl.
    replace (from + 1 + Z.of_nat n) with (from + Z.of_nat (S n)) by lia.
    reflexivity.
Qed.

(** C8.  Let the calls before call number [k] (counted from 0, [k] at
    most [maxRetries]) have failed with errors classified as transient.
    Then call [k] is made, after the waits [initialDelay * 2^i] that
    follow the calls [i < k] and no other wait.  If it succeeds, its value
    is the result.  If it fails with an error that is not transient, or
    if [k] is [maxRetries], nothing more is called or waited for and the
    last error is thrown on: the very [Error] instance that was thrown
    (what is thrown and is not an [Error] instance is first made into
    one, around its [String(value)]). *)
Theorem retryWithBackoff_policy {R : Runtime} {St A : Type} (fn : Async St A)
    (maxRetries initialDelay : Z) (s : St) (k : nat) :
  Z.of_nat k <= maxRetries ->
  (forall i, (i < k)%nat -> failedTransient (attemptOutcome fn i s) = true) ->
  match attemptOutcome fn k s with
  | Resolved a =>
      retryWithBackoff fn maxRetries initialDelay s
      = (Resolved a, stateAfter fn k s, schedule initialDelay 0 k)
  | Rejected error =>
      isTransientError (toError error) = false \/ Z.of_nat k = maxRetries ->
      retryWithBackoff fn maxRetries initialDelay s
      = (Rejected (ThrowError (toError error)), stateAfter fn k s,
         schedule initialDelay 0 k)
      /\ (forall e, error = ThrowError e -> toError error = e)
      /\ (forall v, error = ThrowValue v -> toError error = newError v)
  end.
Proof.
  intros Hk Hpre.
  pose proof (retryLoop_run fn maxRetries initialDelay k
                (Z.to_nat (maxRetries + 1)) 0 None s
                ltac:(lia) ltac:(lia) Hpre) as H.
  unfold retryWithBackoff.
  destruct (attemptOutcome fn k s) as [a|error]; [exact H|].
  intros Hend. split; [now apply H|].
  split; intros ? ->; reflexivity.
Qed.

End RetryFacts.

Module RetryExamples.
Import RetrySpec Examples.

#[local] Existing Instance AsciiRuntime.runtime.


(** Three transient failures against two retries: calls 0, 1 and 2 with
    waits of 100 ms and 200 ms between them, then the last error. *)
Lemma retryWithBackoff_policy_witness :
  retryWithBackoff (scripted (Resolved 0%nat)) 2 100
    [Rejected networkDown; Rejected networkDown; Rejected timedOut; Resolved 7%nat]
  = (Rejected timedOut, [Resolved 7%nat],
     [Attempt 0; Wait 100; Attempt 1; Wait 200; Attempt 2]).
Proof.
  refine (proj1 (RetryFacts.retryWithBackoff_policy
            (scripted (Resolved 0%nat)) 2 100
            [Rejected networkDown; Rejected networkDown; Rejected timedOut;
             Resolved 7%nat] 2 _ _ _)).
  - lia.
  - intros i Hi. destruct i as [|[|i]]; [reflexivity|reflexivity|lia].
  - right. reflexivity.
Defined.

(** A thrown value that is not an [Error] instance is made into one
    before it is classified and thrown on. *)
Example retryWithBackoff_thrown_value :
  let fn : Async unit nat := fun s => (Rejected (ThrowValue "disk full"), s) in
  retryWithBackoff fn 3 100 tt
  = (Rejected (ThrowError (newError "disk full")), tt, [Attempt 0]).
Proof. reflexivity. Qed.

(** Two transient failures, then success: the value of the third call. *)
Example retryWithBackoff_recovers :
  retryWithBackoff (scripted (Resolved 0%nat)) 3 100
    [Rejected networkDown; Rejected timedOut; Resolved 7%nat]
  = (Resolved 7%nat, [], [Attempt 0; Wait 100; Attempt 1; Wait 200; Attempt 2]).
Proof. reflexivity. Qed.

(** Without retries left to make, nothing is called and [undefined] is
    thrown. *)
Example retryWithBackoff_negative :
  retryWithBackoff (scripted (Resolved 0%nat)) (-1) 100 [Resolved 7%nat]
  = (Rejected (ThrowValue "undefined"), [Resolved 7%nat], []).
Proof. reflexivity. Qed.

End RetryExamples.

(* ===================================================================== *)
(** ** The storage adapter *)
(* ===================================================================== *)

Module AdapterFacts.
Import RetryFacts.

(** The records listed in the order of their keys are the records of
    the store. *)
Lemma records_perm {T : Type} (s : gmap string T) :
  Permutation (List.map snd (map_to_list s)) (IndexedDBAdapter.records s).
Proof. unfold IndexedDBAdapter.records. apply Permutation_map, sortWith_perm. Qed.

Lemma records_lookup {T : Type} (s : gmap string T) (r : T) :
  In r (IndexedDBAdapter.records s) <-> exists k, s !! k = Some r.
Proof.
  split.
  - intros Hin. apply (Permutation_in _ (Permutation_sym (records_perm s))) in Hin.
    apply List.in_map_iff in Hin. destruct Hin as [[k r'] [E Hin]].
    simpl in E. subst r'. exists k.
    apply elem_of_map_to_list. now apply list_elem_of_In.
  - intros [k Hk]. apply (Permutation_in _ (records_perm s)).
    apply List.in_map_iff. exists (k, r). split; [reflexivity|].
    apply list_elem_of_In. now apply elem_of_map_to_list.
Qed.

Section Generic.
Context {R : Runtime} {T : Type} {EntityT : Entity T}.
Variable uniqueIndexes : list (T -> option IndexKey).

Lemma getById_lookup (id : string) (s : gmap string T) :
  IndexedDBAdapter.getById id s = (Resolved (s !! id), s).
Proof.
  unfold IndexedDBAdapter.getById, catchRethrow.
  now rewrite (retrying_success _ 2 100 (s !! id) s s).
Qed.

Lemma getAll_values (s : gmap string T) :
  IndexedDBAdapter.getAll s = (Resolved (IndexedDBAdapter.records s), s).
Proof.
  unfold IndexedDBAdapter.getAll, catchRethrow.
  now rewrite (retrying_success _ 2 100 (IndexedDBAdapter.records s) s s).
Qed.

Lemma delete_removes (id : string) (s : gmap string T) :
  IndexedDBAdapter.delete id s = (Resolved tt, delete id s).
Proof.
  unfold IndexedDBAdapter.delete, catchRethrow.
  now rewrite (retrying_success _ 2 100 tt s (delete id s)).
Qed.

Lemma update_missing (id : string) (item : Patch) (s : gmap string T) :
  s !! id = None ->
  IndexedDBAdapter.update uniqueIndexes id item s
  = (Rejected (ThrowError (IndexedDBAdapter.notFound id)), s).
Proof.
  intros Hid. unfold IndexedDBAdapter.update, catchRethrow.
  rewrite (retrying_same_failure _ 2 100
             (ThrowError (IndexedDBAdapter.notFound id)) s); [reflexivity|lia|].
  unfold IndexedDBAdapter.updateAttempt, bind, IndexedDBAdapter.db_get.
  now rewrite Hid.
Qed.

(** What [update] does to a record that is there. *)
Lemma update_present (id : string) (item : Patch) (existing : T)
    (s : gmap string T) :
  s !! id = Some existing ->
  IndexedDBAdapter.update uniqueIndexes id item s
  = if IndexedDBAdapter.indexClash uniqueIndexes s (spread existing item id)
    then (Rejected (ThrowError
            (StorageError
               ("Failed to update item: "
                +:+ err_message IndexedDBAdapter.indexViolated)
               (Some IndexedDBAdapter.indexViolated))), s)
    else (Resolved tt, <[id := spread existing item id]> s).
Proof.
  intros Hid. unfold IndexedDBAdapter.update, catchRethrow.
  destruct (IndexedDBAdapter.indexClash uniqueIndexes s (spread existing item id))
    eqn:Hclash.
  - rewrite (retrying_same_failure _ 2 100
               (ThrowError IndexedDBAdapter.indexViolated) s); [reflexivity|lia|].
    unfold IndexedDBAdapter.updateAttempt, bind, IndexedDBAdapter.db_get,
      IndexedDBAdapter.db_put.
    now rewrite Hid, Hclash.
  - rewrite (retrying_success _ 2 100 tt s (<[id := spread existing item id]> s));
      [reflexivity|lia|].
    unfold IndexedDBAdapter.updateAttempt, bind, IndexedDBAdapter.db_get,
      IndexedDBAdapter.db_put.
    now rewrite Hid, Hclash, keyOf_spread.
Qed.

(** What [add] does, by the identifier drawn and the indexes. *)
Lemma add_cases (rnd : nat -> Z) (item : Draft) (s : gmap string T) :
  let id := UUID.generateUUID rnd in
  IndexedDBAdapter.add uniqueIndexes rnd item s
  = match s !! id with
    | Some _ =>
        (Rejected (ThrowError
           (StorageError
              ("Failed to add item: " +:+ err_message IndexedDBAdapter.keyExists)
              (Some IndexedDBAdapter.keyExists))), s)
    | None =>
        if IndexedDBAdapter.indexClash uniqueIndexes s (withId item id)
        then (Rejected (ThrowError
                (StorageError
                   ("Failed to add item: "
                    +:+ err_message IndexedDBAdapter.indexViolated)
                   (Some IndexedDBAdapter.indexViolated))), s)
        else (Resolved id, <[id := withId item id]> s)
    end.
Proof.
  intros id. unfold IndexedDBAdapter.add, catchRethrow, bind. fold id.
  destruct (s !! id) as [old|] eqn:Hid.
  - rewrite (retrying_same_failure _ 2 100
               (ThrowError IndexedDBAdapter.keyExists) s); [reflexivity|lia|].
    unfold IndexedDBAdapter.db_add. now rewrite keyOf_withId, Hid.
  - destruct (IndexedDBAdapter.indexClash uniqueIndexes s (withId item id))
      eqn:Hclash.
    + rewrite (retrying_same_failure _ 2 100
                 (ThrowError IndexedDBAdapter.indexViolated) s); [reflexivity|lia|].
      unfold IndexedDBAdapter.db_add. now rewrite keyOf_withId, Hid, Hclash.
    + rewrite (retrying_success _ 2 100 tt s (<[id := withId item id]> s));
        [reflexivity|lia|].
      unfold IndexedDBAdapter.db_add. now rewrite keyOf_withId, Hid, Hclash.
Qed.

(** C5.  For an identifier that is not in the store, [update] fails with
    a [StorageError] whose message says that the item was not found, and
    the store is as before; [delete] succeeds and the store is as before. *)
Theorem update_delete_missing (id : string) (item : Patch) (s : gmap string T) :
  s !! id = None ->
  (exists e,
      IndexedDBAdapter.update uniqueIndexes id item s = (Rejected (ThrowError e), s)
      /\ err_class e = StorageErrorClass
      /\ err_message e = "Item with id " +:+ id +:+ " not found"
      /\ JsString.includes (err_message e) "not found" = true)
  /\ IndexedDBAdapter.delete id s = (Resolved tt, s).
Proof.
  intros Hid. split.
  - exists (IndexedDBAdapter.notFound id).
    split; [now apply update_missing|].
    split; [reflexivity|]. split; [reflexivity|].
    simpl err_message.
    apply (StringFacts.includes_append_l "Item with id ").
    apply StringFacts.includes_append_l. reflexivity.
  - rewrite delete_removes. now rewrite delete_id.
Qed.

End Generic.
End AdapterFacts.

Module ObjectStoreFacts.
Import AdapterSpec JsObjects Examples.

Section WithRuntime.
Context {R : Runtime}.

(** C6.  When [add] returns an identifier, [getById] with that identifier
    finds a record: the input with the identifier put in its [id] field.
    Every other field of the record is the field of the input. *)
Theorem add_getById_roundtrip (indexes : list (JsObject -> option IndexKey))
    (rnd : nat -> Z) (item : JsObject) (s s' : gmap string JsObject)
    (id : string) :
  IndexedDBAdapter.add indexes rnd item s = (Resolved id, s') ->
  exists r : JsObject,
    IndexedDBAdapter.getById id s' = (Resolved (Some r), s')
    /\ r = <["id" := VStr id]> item
    /\ r !! "id" = Some (VStr id)
    /\ forall f, f <> "id" -> r !! f = item !! f.
Proof.
  intros Hadd. rewrite AdapterFacts.add_cases in Hadd. cbv zeta in Hadd.
  destruct (s !! UUID.generateUUID rnd) eqn:Hfresh; [discriminate|].
  destruct (IndexedDBAdapter.indexClash indexes s _); [discriminate|].
  injection Hadd as <- <-.
  exists (<["id" := VStr (UUID.generateUUID rnd)]> item).
  rewrite AdapterFacts.getById_lookup. simpl withId.
  rewrite lookup_insert_eq. repeat split.
  - apply lookup_insert_eq.
  - intros f Hf. now apply lookup_insert_ne.
Qed.

(** C7, as the code has it.  After a successful [update] of the record
    stored under [id]: a field named in the partial object, other than
    [id], has the value the partial object gives it; a field the partial
    object does not name is as it was; the [id] field is [id]; the record
    is found under [id]; no other record has changed. *)
Theorem update_frame (indexes : list (JsObject -> option IndexKey))
    (id : string) (partial existing : JsObject) (s s' : gmap string JsObject) :
  s !! id = Some existing ->
  existing !! "id" = Some (VStr id) ->
  IndexedDBAdapter.update indexes id partial s = (Resolved tt, s') ->
  exists r : JsObject,
    IndexedDBAdapter.getById id s' = (Resolved (Some r), s')
    /\ (forall f v, f <> "id" -> partial !! f = Some v -> r !! f = Some v)
    /\ (forall f, partial !! f = None -> r !! f = existing !! f)
    /\ r !! "id" = Some (VStr id)
    /\ (forall k, k <> id -> s' !! k = s !! k).
Proof.
  intros Hid Hkey Hupd.
  rewrite (AdapterFacts.update_present (EntityT := JsObject_Entity) indexes id partial existing s Hid) in Hupd.
  destruct (IndexedDBAdapter.indexClash indexes s _); [discriminate|].
  injection Hupd as <-.
  exists (<["id" := VStr id]> (partial ∪ existing)).
  rewrite AdapterFacts.getById_lookup. simpl spread.
  rewrite lookup_insert_eq. split; [reflexivity|]. repeat split.
  - intros f v Hf Hv. rewrite lookup_insert_ne by congruence.
    now apply lookup_union_Some_l.
  - intros f Hf. destruct (decide (f = "id")) as [->|Hne].
    + now rewrite lookup_insert_eq, Hkey.
    + rewrite lookup_insert_ne by congruence. now apply lookup_union_r.
  - apply lookup_insert_eq.
  - intros k Hk. now apply lookup_insert_ne.
Qed.

(** C10.  Whatever the partial object holds, an [id] field of its own
    included, [update] leaves the identifiers of the collection as they
    are, and a record it writes carries the identifier it was called
    with, under that identifier. *)
Theorem update_preserves_identifiers (indexes : list (JsObject -> option IndexKey))
    (id : string) (partial : JsObject) (s s' : gmap string JsObject)
    (result : Outcome unit) :
  IndexedDBAdapter.update indexes id partial s = (result, s') ->
  dom s' = dom s
  /\ (keyed s -> keyed s')
  /\ (result = Resolved tt ->
      exists existing : JsObject,
        s !! id = Some existing
        /\ s' = <[id := <["id" := VStr id]> (partial ∪ existing)]> s
        /\ (s' !! id) ≫= (.!! "id") = Some (VStr id)).
Proof.
  intros Hupd. destruct (s !! id) as [existing|] eqn:Hid.
  - rewrite (AdapterFacts.update_present (EntityT := JsObject_Entity) indexes id partial existing s Hid) in Hupd.
    destruct (IndexedDBAdapter.indexClash indexes s _).
    + injection Hupd as <- <-. repeat split; [tauto|discriminate].
    + injection Hupd as <- <-. simpl spread. split; [|split].
      * apply dom_insert_lookup_L. now exists existing.
      * intros Hk k o. destruct (decide (id = k)) as [<-|Hne].
        -- rewrite lookup_insert_eq. intros [= <-]. apply lookup_insert_eq.
        -- rewrite lookup_insert_ne by exact Hne. apply Hk.
      * intros _. exists existing. repeat split.
        rewrite lookup_insert_eq. simpl. apply lookup_insert_eq.
  - rewrite (AdapterFacts.update_missing (EntityT := JsObject_Entity) indexes id partial s Hid) in Hupd.
    injection Hupd as <- <-. repeat split; [tauto|discriminate].
Qed.

(** A partial object may name the [id] field; the stored record does not
    take its value, in whatever runtime. *)
Lemma update_keeps_id_argument :
  exists (s' : gmap string JsObject) (r : JsObject),
    IndexedDBAdapter.update transactionStoreIndexes "a1" otherId oneStored
    = (Resolved tt, s')
    /\ s' !! "a1" = Some r
    /\ ~ (forall f v, otherId !! f = Some v -> r !! f = Some v).
Proof.
  exists (<["a1" := <["id" := VStr "a1"]> (otherId ∪ stored)]> oneStored),
         (<["id" := VStr "a1"]> (otherId ∪ stored)).
  split; [|split].
  - rewrite (AdapterFacts.update_present (EntityT := JsObject_Entity)
               transactionStoreIndexes "a1" otherId stored oneStored)
      by (vm_compute; exact eq_refl).
    reflexivity.
  - apply lookup_insert_eq.
  - intros Hall. specialize (Hall "id" (VStr "z9") eq_refl).
    vm_compute in Hall. discriminate.
Qed.

End WithRuntime.

#[local] Existing Instance AsciiRuntime.runtime.

(** C7, as the specification has it, fails: a partial object may name the
    [id] field, and the stored record does not take its value. *)
Lemma update_does_not_take_id_of_partial :
  exists (s' : gmap string JsObject) (r : JsObject),
    IndexedDBAdapter.update transactionStoreIndexes "a1" otherId oneStored
    = (Resolved tt, s')
    /\ s' !! "a1" = Some r
    /\ ~ (forall f v, otherId !! f = Some v -> r !! f = Some v).
Proof. exact update_keeps_id_argument. Qed.

Example generateUUID_sevens :
  UUID.generateUUID sevens = "77777777-7777-4777-b777-777777777777".
Proof. reflexivity. Qed.

Lemma update_delete_missing_witness :
  (exists e,
      IndexedDBAdapter.update transactionStoreIndexes "no-such-id"
        ({[ "amount" := VNum (JsNumber.ofZ 1) ]} : JsObject) oneRecord
      = (Rejected (ThrowError e), oneRecord)
      /\ err_class e = StorageErrorClass
      /\ err_message e = "Item with id no-such-id not found"
      /\ JsString.includes (err_message e) "not found" = true)
  /\ IndexedDBAdapter.delete "no-such-id" oneRecord = (Resolved tt, oneRecord).
Proof.
  apply (AdapterFacts.update_delete_missing (EntityT := JsObject_Entity) transactionStoreIndexes
           "no-such-id" ({[ "amount" := VNum (JsNumber.ofZ 1) ]} : JsObject) oneRecord).
  vm_compute. exact eq_refl.
Defined.

Lemma add_getById_roundtrip_witness :
  exists r : JsObject,
    IndexedDBAdapter.getById "77777777-7777-4777-b777-777777777777" oneRecord
    = (Resolved (Some r), oneRecord)
    /\ r = <["id" := VStr "77777777-7777-4777-b777-777777777777"]> groceries
    /\ r !! "id" = Some (VStr "77777777-7777-4777-b777-777777777777")
    /\ forall f, f <> "id" -> r !! f = groceries !! f.
Proof.
  apply (add_getById_roundtrip transactionStoreIndexes sevens groceries ∅ oneRecord).
  vm_compute. exact eq_refl.
Defined.

Lemma update_frame_witness :
  exists r : JsObject,
    IndexedDBAdapter.getById "a1" afterUpdate = (Resolved (Some r), afterUpdate)
    /\ (forall f v, f <> "id" -> lowerAmount !! f = Some v -> r !! f = Some v)
    /\ (forall f, lowerAmount !! f = None -> r !! f = stored !! f)
    /\ r !! "id" = Some (VStr "a1")
    /\ (forall k, k <> "a1" ->
          afterUpdate !! k = ({[ "a1" := stored ]} : gmap string JsObject) !! k).
Proof.
  apply (update_frame transactionStoreIndexes "a1" lowerAmount stored
           {[ "a1" := stored ]} afterUpdate).
  - vm_compute. exact eq_refl.
  - vm_compute. exact eq_refl.
  - vm_compute. exact eq_refl.
Defined.

Lemma update_preserves_identifiers_witness :
  dom afterOtherId = dom oneStored
  /\ (afterOtherId !! "a1") ≫= (.!! "id") = Some (VStr "a1").
Proof.
  destruct (update_preserves_identifiers transactionStoreIndexes "a1" otherId
              oneStored afterOtherId (Resolved tt)) as (Hdom & _ & Hid).
  - vm_compute. exact eq_refl.
  - split; [exact Hdom|].
    destruct (Hid eq_refl) as (existing & _ & _ & Hfield). exact Hfield.
Defined.

End ObjectStoreFacts.

(* ===================================================================== *)
(** ** The budget service *)
(* ===================================================================== *)

Module BudgetFacts.
Import JsString BudgetService BudgetSpec.

Lemma values_lookup (s : Store) (b : Budget) :
  In b (values s) <-> exists k, s !! k = Some b.
Proof. apply AdapterFacts.records_lookup. Qed.

Lemma generateUUID_nonempty (rnd : nat -> Z) : UUID.generateUUID rnd <> "".
Proof. unfold UUID.generateUUID. simpl. discriminate. Qed.

Section WithRuntime.
Context {R : Runtime}.

Lemma validate_class (data : BudgetData) (e : Error) :
  validateBudgetData data = Some e -> err_class e = ValidationErrorClass.
Proof.
  unfold validateBudgetData. intros H.
  repeat match type of H with
         | context [if ?c then _ else _] => destruct c
         end; try discriminate; injection H as <-; reflexivity.
Qed.

Lemma isDuplicateBudget_run (month category : string) (excludeId : option string)
    (s : Store) :
  isDuplicateBudget month category excludeId s
  = (Resolved (existsb (collidesWith month (toLowerCase (trim category)) excludeId)
                       (values s)), s).
Proof.
  unfold isDuplicateBudget, bind. now rewrite AdapterFacts.getAll_values.
Qed.

Lemma collidesWith_takes (month category : string) (excludeId : option string)
    (b : Budget) :
  collidesWith month (toLowerCase (trim category)) excludeId b = true
  <-> excluded excludeId b = false /\ takes b month category.
Proof.
  unfold collidesWith, takes. destruct (excluded excludeId b).
  - split; [discriminate|intros [? _]; discriminate].
  - rewrite Bool.andb_true_iff, !String.eqb_eq. tauto.
Qed.

Lemma duplicate_found (month category : string) (excludeId : option string)
    (s : Store) (k : string) (b : Budget) :
  s !! k = Some b ->
  excluded excludeId b = false ->
  takes b month category ->
  existsb (collidesWith month (toLowerCase (trim category)) excludeId) (values s)
  = true.
Proof.
  intros Hk Hex Ht. apply List.existsb_exists. exists b. split.
  - apply values_lookup. now exists k.
  - now apply collidesWith_takes.
Qed.

Lemma duplicate_absent (month category : string) (excludeId : option string)
    (s : Store) :
  existsb (collidesWith month (toLowerCase (trim category)) excludeId) (values s)
  = false ->
  forall k b, s !! k = Some b -> excluded excludeId b = false ->
              ~ takes b month category.
Proof.
  intros Hno k b Hk Hex Ht.
  rewrite (duplicate_found month category excludeId s k b Hk Hex Ht) in Hno.
  discriminate.
Qed.

Lemma excluded_other (id : string) (b : Budget) :
  b_id b <> id -> excluded (Some id) b = false.
Proof.
  intros Hne. unfold excluded. apply String.eqb_neq in Hne. rewrite Hne.
  apply Bool.andb_false_r.
Qed.

Lemma excluded_self (id : string) (b : Budget) :
  excluded (Some id) b = true -> b_id b = id.
Proof.
  unfold excluded. rewrite Bool.andb_true_iff, String.eqb_eq. tauto.
Qed.

(** What [addBudget] does, step by step. *)
Lemma addBudget_run (rnd : nat -> Z) (data : BudgetData) (s : Store) :
  addBudget rnd data s
  = match validateBudgetData data with
    | Some e => (Rejected (ThrowError e), s)
    | None =>
        let category := trim (d_category data) in
        if existsb (collidesWith (d_month data) (toLowerCase (trim category)) None)
                   (values s)
        then (Rejected (ThrowError (alreadyExists category (d_month data))), s)
        else
          match IndexedDBAdapter.add (EntityT := Budget_Entity) budgetIndexes rnd
                  (mkBudgetData (d_month data) category (d_limit data)) s with
          | (Resolved id, s') =>
              (Resolved (mkBudget id (d_month data) category (d_limit data)), s')
          | (Rejected error, s') => (Rejected error, s')
          end
    end.
Proof.
  unfold addBudget, logged, catchRethrow, bind, check.
  destruct (validateBudgetData data) as [e|]; [reflexivity|].
  unfold ret. simpl d_month. simpl d_category. simpl d_limit.
  rewrite isDuplicateBudget_run.
  destruct (existsb _ (values s)); [reflexivity|].
  destruct (IndexedDBAdapter.add budgetIndexes rnd _ s) as [[id|error] s'];
    reflexivity.
Qed.

(** The index of the store never objects to a budget the service lets
    through: equal categories are equal up to case. *)
Lemma indexClash_takes (s : Store) (b : Budget) :
  IndexedDBAdapter.indexClash budgetIndexes s b = true ->
  exists k b', s !! k = Some b' /\ k <> b_id b
               /\ b_month b' = b_month b /\ b_category b' = b_category b.
Proof.
  unfold IndexedDBAdapter.indexClash, budgetIndexes. simpl.
  rewrite Bool.orb_false_r. intros H.
  apply List.existsb_exists in H. destruct H as [[k b'] [Hin H]].
  apply list_elem_of_In, elem_of_map_to_list in Hin.
  apply Bool.andb_true_iff in H. destruct H as [Hk Hkey].
  apply Bool.negb_true_iff, String.eqb_neq in Hk.
  apply bool_decide_eq_true in Hkey. simpl in *.
  injection Hkey as Hm Hc. exists k, b'. auto.
Qed.

(** What [updateBudget] does, step by step. *)
Lemma updateBudget_run (id : string) (data : BudgetUpdate) (s : Store) :
  updateBudget id data s
  = if noKeys data
    then (Rejected (ThrowError (ValidationError "No data provided for update")), s)
    else
      match s !! id with
      | None =>
          (Rejected (ThrowError
             (newError ("Budget with id " +:+ id +:+ " not found"))), s)
      | Some existing =>
          let merged := mergedData existing data in
          match validateBudgetData merged with
          | Some e => (Rejected (ThrowError e), s)
          | None =>
              if (isDefined (u_month data) || isDefined (u_category data))
                 && existsb (collidesWith (d_month merged)
                               (toLowerCase (trim (d_category merged))) (Some id))
                            (values s)
              then (Rejected (ThrowError
                      (alreadyExists (d_category merged) (d_month merged))), s)
              else IndexedDBAdapter.update (EntityT := Budget_Entity)
                     budgetIndexes id (sanitizedUpdate data) s
          end
      end.
Proof.
  unfold updateBudget, logged, catchRethrow, bind, check.
  destruct (noKeys data); [reflexivity|].
  rewrite AdapterFacts.getById_lookup.
  destruct (s !! id) as [existing|]; [|reflexivity].
  destruct (validateBudgetData (mergedData existing data)) as [e|]; [reflexivity|].
  unfold ret.
  destruct (isDefined (u_month data) || isDefined (u_category data));
    cbv beta iota; cbn [andb].
  - rewrite isDuplicateBudget_run.
    destruct (existsb _ (values s)); [reflexivity|].
    now destruct (IndexedDBAdapter.update budgetIndexes id _ s) as [[[]|error] s'].
  - now destruct (IndexedDBAdapter.update budgetIndexes id _ s) as [[[]|error] s'].
Qed.

(** The category of the record an update leaves is, up to case, the
    trimmed category of the merged view. *)
Lemma updated_category (id : string) (existing : Budget) (data : BudgetUpdate) :
  trim (b_category existing) = b_category existing ->
  b_category (updated id existing data)
  = trim (d_category (mergedData existing data)).
Proof.
  intros Hex. unfold updated, mergedData. simpl.
  destruct (u_category data) as [c|]; simpl; [reflexivity|now rewrite Hex].
Qed.

Lemma spread_updated (id : string) (existing : Budget) (data : BudgetUpdate) :
  spread existing (sanitizedUpdate data) id = updated id existing data.
Proof. reflexivity. Qed.

Lemma kept_empty : kept ∅.
Proof.
  split.
  - intros k b Hk. now rewrite lookup_empty in Hk.
  - intros k1 k2 b1 b2 Hk. now rewrite lookup_empty in Hk.
Qed.

(** Writing, under [id], a well kept budget that no other budget of the
    store collides with keeps the store in order. *)
Lemma kept_insert (s : Store) (id : string) (b : Budget) :
  kept s ->
  b_id b = id -> id <> "" -> trim (b_category b) = b_category b ->
  (forall k b', s !! k = Some b' -> k <> id ->
                ~ (b_month b' = b_month b
                   /\ toLowerCase (b_category b') = toLowerCase (b_category b))) ->
  kept (<[id := b]> s).
Proof.
  intros [Hw Hu] Hid Hne Htrim Hfree. split.
  - intros k b'. destruct (decide (id = k)) as [<-|Hk].
    + rewrite lookup_insert_eq. intros [= <-]. auto.
    + rewrite lookup_insert_ne by exact Hk. apply Hw.
  - intros k1 k2 b1 b2.
    destruct (decide (id = k1)) as [<-|H1], (decide (id = k2)) as [<-|H2];
      rewrite ?lookup_insert_eq, ?lookup_insert_ne by assumption.
    + reflexivity.
    + intros [= <-] H2' Hm Hc. exfalso.
      apply (Hfree k2 b2 H2' ltac:(congruence)). split; congruence.
    + intros H1' [= <-] Hm Hc. exfalso.
      apply (Hfree k1 b1 H1' ltac:(congruence)). split; congruence.
    + apply Hu.
Qed.

Lemma kept_delete (s : Store) (id : string) : kept s -> kept (delete id s).
Proof.
  intros [Hw Hu]. split.
  - intros k b Hk. apply lookup_delete_Some in Hk. apply Hw, Hk.
  - intros k1 k2 b1 b2 H1 H2.
    apply lookup_delete_Some in H1, H2. apply Hu; tauto.
Qed.

Lemma addBudget_keeps (rnd : nat -> Z) (data : BudgetData) (s : Store) :
  kept s -> kept (snd (addBudget rnd data s)).
Proof.
  intros Hs. rewrite addBudget_run.
  destruct (validateBudgetData data); [exact Hs|]. cbv zeta.
  destruct (existsb _ (values s)) eqn:Hdup; [exact Hs|].
  rewrite AdapterFacts.add_cases. cbv zeta.
  destruct (s !! UUID.generateUUID rnd) eqn:Hfresh; [exact Hs|].
  destruct (IndexedDBAdapter.indexClash budgetIndexes s _); [exact Hs|].
  cbn [snd]. apply kept_insert; try exact Hs.
  - reflexivity.
  - apply generateUUID_nonempty.
  - apply trim_idempotent.
  - intros k b' Hk _ [Hm Hc].
    apply (duplicate_absent _ _ _ _ Hdup k b' Hk eq_refl).
    split; [exact Hm|]. rewrite trim_idempotent. exact Hc.
Qed.

Lemma updateBudget_keeps (id : string) (data : BudgetUpdate) (s : Store) :
  kept s -> kept (snd (updateBudget id data s)).
Proof.
  intros Hs. rewrite updateBudget_run.
  destruct (noKeys data); [exact Hs|].
  destruct (s !! id) as [existing|] eqn:Hid; [|exact Hs]. cbv zeta.
  destruct (validateBudgetData (mergedData existing data)); [exact Hs|].
  destruct (_ && _) eqn:Hdup; [exact Hs|].
  rewrite (AdapterFacts.update_present (EntityT := Budget_Entity)
             budgetIndexes id _ existing s Hid).
  destruct (IndexedDBAdapter.indexClash budgetIndexes s _); [exact Hs|].
  cbn [snd]. rewrite spread_updated.
  destruct Hs as [Hw Hu]. destruct (Hw id existing Hid) as (Hkey & Hne & Htrim).
  apply kept_insert; [split; assumption|reflexivity|assumption| |].
  - rewrite (updated_category id existing data Htrim).
    apply trim_idempotent.
  - intros k b' Hk Hkid [Hm Hc].
    destruct (Hw k b' Hk) as (Hkey' & _ & _).
    destruct (isDefined (u_month data) || isDefined (u_category data)) eqn:Hdef.
    + rewrite (updated_category id existing data Htrim) in Hc.
      cbn [andb] in Hdup.
      apply (duplicate_absent _ _ _ _ Hdup k b' Hk).
      * apply excluded_other. congruence.
      * split; assumption.
    + apply Bool.orb_false_iff in Hdef. destruct Hdef as [Hdm Hdc].
      unfold updated in Hm, Hc.
      destruct (u_month data); [discriminate|].
      destruct (u_category data); [discriminate|].
      simpl in Hm, Hc.
      apply Hkid. apply (Hu k id b' existing Hk Hid Hm Hc).
Qed.

Lemma deleteBudget_keeps (id : string) (s : Store) :
  kept s -> kept (snd (deleteBudget id s)).
Proof.
  intros Hs. unfold deleteBudget, logged, catchRethrow.
  rewrite AdapterFacts.delete_removes. now apply kept_delete.
Qed.

Lemma reachable_kept (s : Store) : reachable s -> kept s.
Proof.
  induction 1 as [|request s _ IH]; [apply kept_empty|].
  destruct request; simpl.
  - now apply addBudget_keeps.
  - now apply updateBudget_keeps.
  - now apply deleteBudget_keeps.
Qed.

(** [addBudget] turns a duplicate down, in any store. *)
Lemma addBudget_duplicate (rnd : nat -> Z) (data : BudgetData) (s : Store)
    (k : string) (b : Budget) :
  valid data -> s !! k = Some b ->
  takes b (d_month data) (d_category data) ->
  addBudget rnd data s
  = (Rejected (ThrowError
       (alreadyExists (trim (d_category data)) (d_month data))), s).
Proof.
  intros Hv Hk Ht. rewrite addBudget_run, Hv. cbv zeta.
  rewrite (duplicate_found _ _ None s k b Hk eq_refl); [reflexivity|].
  destruct Ht as [Hm Hc]. split; [exact Hm|].
  now rewrite trim_idempotent.
Qed.

(** [updateBudget] turns down an update that would collide. *)
Lemma updateBudget_duplicate (id : string) (data : BudgetUpdate) (s : Store)
    (existing : Budget) (k : string) (b : Budget) :
  kept s ->
  s !! id = Some existing -> s !! k = Some b -> k <> id ->
  takes b (d_month (mergedData existing data))
          (d_category (mergedData existing data)) ->
  exists e,
    updateBudget id data s = (Rejected (ThrowError e), s)
    /\ err_class e = ValidationErrorClass
    /\ (noKeys data = false -> valid (mergedData existing data) ->
        e = alreadyExists (d_category (mergedData existing data))
                          (d_month (mergedData existing data))).
Proof.
  intros [Hw Hu] Hid Hk Hne Ht. rewrite updateBudget_run.
  destruct (noKeys data) eqn:Hkeys.
  { eexists. split; [reflexivity|]. split; [reflexivity|discriminate]. }
  rewrite Hid. cbv zeta.
  destruct (validateBudgetData (mergedData existing data)) as [e|] eqn:Hval.
  { exists e. split; [reflexivity|]. split; [now apply validate_class in Hval|].
    unfold valid. intros _ Hv. rewrite Hv in Hval. discriminate. }
  destruct (Hw k b Hk) as (Hkey & _ & _).
  destruct (Hw id existing Hid) as (_ & _ & Htrim).
  destruct (isDefined (u_month data) || isDefined (u_category data)) eqn:Hdef.
  - rewrite (duplicate_found _ _ (Some id) s k b Hk); simpl.
    + eexists. split; [reflexivity|]. split; reflexivity.
    + apply excluded_other. congruence.
    + exact Ht.
  - exfalso. apply Bool.orb_false_iff in Hdef. destruct Hdef as [Hdm Hdc].
    destruct Ht as [Hm Hc]. unfold mergedData in Hm, Hc.
    destruct (u_month data); [discriminate|].
    destruct (u_category data); [discriminate|].
    cbn [d_month d_category default] in Hm, Hc. rewrite Htrim in Hc.
    apply Hne. apply (Hu k id b existing Hk Hid Hm Hc).
Qed.

(** [updateBudget] carries out an update that collides with nothing. *)
Lemma updateBudget_free (id : string) (data : BudgetUpdate) (s : Store)
    (existing : Budget) :
  kept s ->
  s !! id = Some existing ->
  noKeys data = false ->
  valid (mergedData existing data) ->
  (forall k b, s !! k = Some b -> k <> id ->
               ~ takes b (d_month (mergedData existing data))
                         (d_category (mergedData existing data))) ->
  updateBudget id data s = (Resolved tt, <[id := updated id existing data]> s).
Proof.
  intros [Hw Hu] Hid Hkeys Hv Hfree. rewrite updateBudget_run, Hkeys, Hid.
  cbv zeta. rewrite Hv.
  destruct (Hw id existing Hid) as (Hkey & Hne & Htrim).
  assert (Hnodup :
    existsb (collidesWith (d_month (mergedData existing data))
               (toLowerCase (trim (d_category (mergedData existing data))))
               (Some id)) (values s) = false).
  { destruct (existsb _ (values s)) eqn:E; [|reflexivity]. exfalso.
    apply List.existsb_exists in E. destruct E as (b & Hin & Hb).
    apply values_lookup in Hin. destruct Hin as [k Hk].
    apply collidesWith_takes in Hb. destruct Hb as [Hex Ht].
    apply (Hfree k b Hk); [|exact Ht].
    intros ->. rewrite Hid in Hk. injection Hk as <-.
    unfold excluded in Hex. rewrite Hkey, String.eqb_refl in Hex.
    apply String.eqb_neq in Hne. rewrite Hne in Hex. discriminate. }
  rewrite Hnodup, Bool.andb_false_r.
  rewrite (AdapterFacts.update_present (EntityT := Budget_Entity)
             budgetIndexes id _ existing s Hid).
  rewrite spread_updated.
  destruct (IndexedDBAdapter.indexClash budgetIndexes s _) eqn:Hclash;
    [|reflexivity].
  exfalso. apply indexClash_takes in Hclash.
  destruct Hclash as (k & b' & Hk & Hkid & Hm & Hc).
  apply (Hfree k b' Hk Hkid). split; [exact Hm|].
  rewrite Hc. now rewrite (updated_category id existing data Htrim).
Qed.

(** C1.  In every store the budget service can bring about, no two
    budgets have the same month and, up to case, the same category.
    There, [addBudget] with valid data whose month is the month of a
    stored budget and whose trimmed category is, up to case, the category
    of that budget throws the [ValidationError] of a duplicate and leaves
    the store as it is; [updateBudget] throws a [ValidationError] and
    leaves the store as it is when the merged month and category are
    taken by a budget other than the one under [id]; and an update whose
    merged view is valid and taken by no other budget succeeds and
    writes the merged record, category trimmed, under [id]. *)
Theorem budget_uniqueness (s : Store) :
  reachable s ->
  uniqueBudgets s
  /\ (forall rnd data k b,
        valid data -> s !! k = Some b ->
        takes b (d_month data) (d_category data) ->
        addBudget rnd data s
        = (Rejected (ThrowError
             (alreadyExists (trim (d_category data)) (d_month data))), s)
          /\ err_class (alreadyExists (trim (d_category data)) (d_month data))
             = ValidationErrorClass)
  /\ (forall id data existing k b,
        s !! id = Some existing -> s !! k = Some b -> k <> id ->
        takes b (d_month (mergedData existing data))
                (d_category (mergedData existing data)) ->
        exists e,
          updateBudget id data s = (Rejected (ThrowError e), s)
          /\ err_class e = ValidationErrorClass
          /\ (noKeys data = false -> valid (mergedData existing data) ->
              e = alreadyExists (d_category (mergedData existing data))
                                (d_month (mergedData existing data))))
  /\ (forall id data existing,
        s !! id = Some existing ->
        noKeys data = false ->
        valid (mergedData existing data) ->
        (forall k b, s !! k = Some b -> k <> id ->
                     ~ takes b (d_month (mergedData existing data))
                               (d_category (mergedData existing data))) ->
        updateBudget id data s
        = (Resolved tt, <[id := updated id existing data]> s)).
Proof.
  intros Hr. pose proof (reachable_kept s Hr) as Hs.
  split; [apply Hs|]. split; [|split].
  - intros rnd data k b Hv Hk Ht. split; [|reflexivity].
    now apply (addBudget_duplicate rnd data s k b).
  - intros id data existing k b. now apply updateBudget_duplicate.
  - intros id data existing. now apply updateBudget_free.
Qed.

End WithRuntime.
End BudgetFacts.

Module BudgetExamples.
Import JsString BudgetService BudgetSpec Examples.

#[local] Existing Instance AsciiRuntime.runtime.

Example twoBudgets_eq :
  twoBudgets
  = <[id3 := mkBudget id3 "2025-01" "Rent" (JsNumber.ofZ 1200)]>
      {[ id7 := mkBudget id7 "2025-01" "Groceries" (JsNumber.ofZ 400) ]}.
Proof. vm_compute. exact eq_refl. Qed.

(** With a budget for Groceries and one for Rent in January 2025: a
    second budget for "groceries" is turned down, Rent cannot be renamed
    to "GROCERIES", and Rent can be moved to February. *)
Lemma budget_uniqueness_witness :
  uniqueBudgets twoBudgets
  /\ addBudget sevens (mkBudgetData "2025-01" "groceries " (JsNumber.ofZ 100)) twoBudgets
     = (Rejected (ThrowError (alreadyExists "groceries" "2025-01")), twoBudgets)
  /\ updateBudget id3 (mkBudgetUpdate None (Some "GROCERIES") None) twoBudgets
     = (Rejected (ThrowError (alreadyExists "GROCERIES" "2025-01")), twoBudgets)
  /\ updateBudget id3 (mkBudgetUpdate (Some "2025-02") None None) twoBudgets
     = (Resolved tt, <[id3 := mkBudget id3 "2025-02" "Rent" (JsNumber.ofZ 1200)]> twoBudgets).
Proof.
  destruct (BudgetFacts.budget_uniqueness twoBudgets)
    as (Hunique & Hadd & Hupdate & Hfree).
  - apply reachable_after, reachable_after, reachable_empty.
  - split; [exact Hunique|]. split; [|split].
    + apply (Hadd sevens (mkBudgetData "2025-01" "groceries " (JsNumber.ofZ 100)) id7
               (mkBudget id7 "2025-01" "Groceries" (JsNumber.ofZ 400))).
      * vm_compute. exact eq_refl.
      * vm_compute. exact eq_refl.
      * split; vm_compute; exact eq_refl.
    + destruct (Hupdate id3 (mkBudgetUpdate None (Some "GROCERIES") None)
                  (mkBudget id3 "2025-01" "Rent" (JsNumber.ofZ 1200)) id7
                  (mkBudget id7 "2025-01" "Groceries" (JsNumber.ofZ 400)))
        as (e & Hrun & _ & He).
      * vm_compute. exact eq_refl.
      * vm_compute. exact eq_refl.
      * discriminate.
      * split; vm_compute; exact eq_refl.
      * rewrite Hrun, He; [reflexivity|reflexivity|vm_compute; exact eq_refl].
    + apply (Hfree id3 (mkBudgetUpdate (Some "2025-02") None None)
               (mkBudget id3 "2025-01" "Rent" (JsNumber.ofZ 1200))).
      * vm_compute. exact eq_refl.
      * reflexivity.
      * vm_compute. exact eq_refl.
      * intros k b Hk Hne [Hm _]. rewrite twoBudgets_eq in Hk.
        apply lookup_insert_Some in Hk.
        destruct Hk as [[? _]|[_ Hk]]; [congruence|].
        apply lookup_singleton_Some in Hk. destruct Hk as [_ <-].
        discriminate.
Defined.

End BudgetExamples.

(* ===================================================================== *)
(** ** More on the retry policy and on the classification of errors *)
(* ===================================================================== *)

Module RetryBounds.
Import JsString RetrySpec MoreSpec.

Section Bounds.
Context {R : Runtime} {St A : Type}.
Variable fn : Async St A.
Variables maxRetries initialDelay : Z.
Hypothesis delay_nonneg : 0 <= initialDelay.

Lemma retryLoop_wait (iterations : nat) :
  forall (attempt : Z) (lastError : option Error) (s : St),
    0 <= attempt ->
    attempt + Z.of_nat iterations = maxRetries + 1 ->
    (0 < iterations)%nat ->
    totalWait (snd (retryLoop fn maxRetries initialDelay iterations attempt
                      lastError s))
    <= initialDelay * (2 ^ maxRetries - 2 ^ attempt).
Proof.
  induction iterations as [|n IH]; intros attempt lastError s Ha Hsum Hpos; [lia|].
  assert (Hpow : 2 ^ attempt <= 2 ^ maxRetries)
    by (apply Z.pow_le_mono_r; lia).
  assert (Hnn : 0 <= initialDelay * (2 ^ maxRetries - 2 ^ attempt))
    by (apply Z.mul_nonneg_nonneg; lia).
  cbn [retryLoop]. destruct (fn s) as [[a|error] s1]; [exact Hnn|].
  cbv zeta. destruct (isTransientError (toError error)); [|exact Hnn].
  cbn [negb]. destruct (Z.eqb_spec attempt maxRetries) as [E|E]; [exact Hnn|].
  specialize (IH (attempt + 1) (Some (toError error)) s1
                 ltac:(lia) ltac:(lia) ltac:(lia)).
  destruct (retryLoop fn maxRetries initialDelay n (attempt + 1) _ s1)
    as [[r s2] events]. cbn [snd] in *. unfold totalWait in *.
  cbn [List.map sumZ fold_right].
  rewrite Z.pow_add_r in IH by lia. change (2 ^ 1) with 2 in IH.
  fold (sumZ (List.map (fun e => match e with Wait delay => delay | Attempt _ => 0 end) events)).
  lia.
Qed.

Lemma retryLoop_wait_nonneg (iterations : nat) :
  forall (attempt : Z) (lastError : option Error) (s : St),
    0 <= attempt ->
    0 <= totalWait (snd (retryLoop fn maxRetries initialDelay iterations attempt
                           lastError s)).
Proof.
  induction iterations as [|n IH]; intros attempt lastError s Ha;
    cbn [retryLoop]; [unfold totalWait; simpl; lia|].
  destruct (fn s) as [[a|error] s1]; [unfold totalWait; simpl; lia|].
  cbv zeta. destruct (isTransientError (toError error));
    [|unfold totalWait; simpl; lia].
  cbn [negb]. destruct (attempt =? maxRetries); [unfold totalWait; simpl; lia|].
  specialize (IH (attempt + 1) (Some (toError error)) s1 ltac:(lia)).
  destruct (retryLoop fn maxRetries initialDelay n (attempt + 1) _ s1)
    as [[r s2] events]. cbn [snd] in *. unfold totalWait in *.
  cbn [List.map sumZ fold_right].
  fold (sumZ (List.map (fun e => match e with Wait delay => delay | Attempt _ => 0 end) events)).
  assert (0 <= initialDelay * 2 ^ attempt)
    by (apply Z.mul_nonneg_nonneg; [lia|apply Z.pow_nonneg; lia]).
  lia.
Qed.

Lemma retryLoop_first_attempt (iterations : nat) (attempt : Z)
    (lastError : option Error) (s : St) :
  (1 <= attempts (snd (retryLoop fn maxRetries initialDelay (S iterations)
                         attempt lastError s)))%nat.
Proof.
  cbn [retryLoop]. destruct (fn s) as [[a|error] s1]; [unfold attempts; simpl; lia|].
  cbv zeta. destruct (isTransientError (toError error));
    [|unfold attempts; simpl; lia].
  cbn [negb]. destruct (attempt =? maxRetries); [unfold attempts; simpl; lia|].
  destruct (retryLoop fn maxRetries initialDelay iterations (attempt + 1) _ s1)
    as [[r s2] events]. unfold attempts. simpl. lia.
Qed.
End Bounds.

(** X1.  However [fn] behaves, it is called at least once and at most
    [maxRetries + 1] times, and the waits add up to at most
    [initialDelay * (2^maxRetries - 1)] milliseconds. *)
Theorem retryWithBackoff_bounds {R : Runtime} {St A : Type} (fn : Async St A)
    (maxRetries initialDelay : Z) (s : St) :
  0 <= maxRetries -> 0 <= initialDelay ->
  (1 <= attempts (snd (retryWithBackoff fn maxRetries initialDelay s)))%nat
  /\ Z.of_nat (attempts (snd (retryWithBackoff fn maxRetries initialDelay s)))
     <= maxRetries + 1
  /\ 0 <= totalWait (snd (retryWithBackoff fn maxRetries initialDelay s))
       <= initialDelay * (2 ^ maxRetries - 1).
Proof.
  intros Hm Hd. unfold retryWithBackoff.
  destruct (Z.to_nat (maxRetries + 1)) as [|n] eqn:En; [lia|].
  split; [apply retryLoop_first_attempt|]. split.
  - pose proof (RetryFacts.retryLoop_attempts fn maxRetries initialDelay (S n)
                  0 None s) as H.
    unfold attempts. lia.
  - split; [now apply retryLoop_wait_nonneg|].
    pose proof (retryLoop_wait fn maxRetries initialDelay Hd (S n) 0 None s
                  ltac:(lia) ltac:(lia) ltac:(lia)) as H.
    change (2 ^ 0) with 1 in H. exact H.
Qed.

(** With a negative [maxRetries] the function is never called: the
    promise is rejected with [undefined] and the state is untouched. *)
Lemma retryWithBackoff_never_called {R : Runtime} {St A : Type} (fn : Async St A)
    (maxRetries initialDelay : Z) (s : St) :
  maxRetries < 0 ->
  retryWithBackoff fn maxRetries initialDelay s
  = (Rejected (ThrowValue "undefined"), s, []).
Proof.
  intros Hm. unfold retryWithBackoff.
  replace (Z.to_nat (maxRetries + 1)) with 0%nat by lia. reflexivity.
Qed.

(** *** Which errors are retried *)

Section Classification.
Context {R : Runtime}.

(** A string that holds [p] holds the first character of [p]. *)
Lemma includes_first (s : string) (c : ascii) (p : string) :
  includes s (String c p) = true ->
  exists a b, s = a +:+ String c b.
Proof.
  induction s as [|d s IH]; simpl.
  - discriminate.
  - destruct (ascii_dec c d) as [->|Hne].
    + intros _. exists EmptyString, s. reflexivity.
    + simpl. intros H. destruct (IH H) as (a & b & ->).
      exists (String d a), b. reflexivity.
Qed.

Lemma toLowerCase_no_upper (m a b : string) (c : ascii) :
  toLowerCase m = a +:+ String c b -> isUpper c = false.
Proof.
  intros H. apply (toLowerCase_lower m). rewrite H. clear H.
  induction a as [|e a IH]; [now left|]. right. exact IH.
Qed.

Lemma includes_upper (m p : string) (c : ascii) :
  isUpper c = true -> includes (toLowerCase m) (String c p) = false.
Proof.
  intros Hc. destruct (includes (toLowerCase m) (String c p)) eqn:E; [|reflexivity].
  apply includes_first in E. destruct E as (a & b & E).
  apply toLowerCase_no_upper in E. congruence.
Qed.

(** X2.  The two entries of the list that are written in upper case match no
    message, since the message is put in lower case first: an error is
    retried exactly when its message, in lower case, holds one of
    "network", "timeout", "temporarily unavailable", "connection". *)
Theorem isTransientError_lowerCaseWords (error : Error) :
  isTransientError error
  = existsb (fun word => includes (toLowerCase (err_message error)) word)
            lowerCaseWords.
Proof.
  unfold isTransientError, transientMessages, lowerCaseWords. cbv zeta.
  cbn [existsb].
  rewrite (includes_upper (err_message error) "CONNREFUSED" "E" eq_refl).
  rewrite (includes_upper (err_message error) "TIMEDOUT" "E" eq_refl).
  reflexivity.
Qed.

End Classification.

#[local] Existing Instance AsciiRuntime.runtime.

(** Two retries that both fail: three calls, 300 ms of waiting. *)
Lemma retryWithBackoff_bounds_witness :
  (1 <= attempts
          (snd (retryWithBackoff (Examples.scripted (Resolved 0%nat)) 2 100
                  [Rejected Examples.networkDown; Rejected Examples.networkDown;
                   Rejected Examples.timedOut])))%nat
  /\ Z.of_nat (attempts
          (snd (retryWithBackoff (Examples.scripted (Resolved 0%nat)) 2 100
                  [Rejected Examples.networkDown; Rejected Examples.networkDown;
                   Rejected Examples.timedOut]))) <= 2 + 1
  /\ 0 <= totalWait
          (snd (retryWithBackoff (Examples.scripted (Resolved 0%nat)) 2 100
                  [Rejected Examples.networkDown; Rejected Examples.networkDown;
                   Rejected Examples.timedOut]))
       <= 100 * (2 ^ 2 - 1).
Proof.
  apply (retryWithBackoff_bounds (Examples.scripted (Resolved 0%nat)) 2 100);
    lia.
Defined.

End RetryBounds.
(* ===================================================================== *)
(** ** More on the storage adapter *)
(* ===================================================================== *)

Module AdapterMore.
Import JsString ErrorMessages AdapterSpec JsObjects MoreSpec.

(** *** Identifiers *)

Lemma hexDigit_hex (v : Z) : 0 <= v < 16 -> isHexDigit (UUID.hexDigit v) = true.
Proof.
  intros Hv.
  assert (H : v = 0 \/ v = 1 \/ v = 2 \/ v = 3 \/ v = 4 \/ v = 5 \/ v = 6 \/ v = 7
              \/ v = 8 \/ v = 9 \/ v = 10 \/ v = 11 \/ v = 12 \/ v = 13 \/ v = 14
              \/ v = 15) by lia.
  repeat (destruct H as [->|H]; [reflexivity|]). subst v. reflexivity.
Qed.

Lemma variant_digit (r : Z) :
  0 <= r < 16 ->
  let c := UUID.hexDigit (Z.lor (Z.land r 3) 8) in
  Ascii.eqb c "8" || Ascii.eqb c "9" || Ascii.eqb c "a" || Ascii.eqb c "b" = true.
Proof.
  intros Hr.
  assert (H : r = 0 \/ r = 1 \/ r = 2 \/ r = 3 \/ r = 4 \/ r = 5 \/ r = 6 \/ r = 7
              \/ r = 8 \/ r = 9 \/ r = 10 \/ r = 11 \/ r = 12 \/ r = 13 \/ r = 14
              \/ r = 15) by lia.
  repeat (destruct H as [->|H]; [reflexivity|]). subst r. reflexivity.
Qed.

Lemma fill_follows (template : string) (rnd : nat -> Z) :
  forall i, followsTemplate template (UUID.fill template rnd i) = true.
Proof.
  induction template as [|t template IH]; intros i; [reflexivity|].
  cbn [UUID.fill].
  assert (Hr : 0 <= rnd i mod 16 < 16) by (apply Z.mod_pos_bound; lia).
  destruct (Ascii.eqb t "x") eqn:Ex.
  - cbn [orb followsTemplate]. rewrite Ex, IH, Bool.andb_true_r.
    unfold UUID.replacement. rewrite Ex. now apply hexDigit_hex.
  - destruct (Ascii.eqb t "y") eqn:Ey.
    + cbn [orb followsTemplate]. rewrite Ex, Ey, IH, Bool.andb_true_r.
      unfold UUID.replacement. rewrite Ex. now apply variant_digit.
    + cbn [orb followsTemplate]. rewrite Ex, Ey, IH, Bool.andb_true_r.
      apply Ascii.eqb_refl.
Qed.

(** X3.  Whatever [Math.random] answers, the identifier has the shape of the
    template: 36 characters, hyphens at the places of the template, the
    digit 4 at the place of the version, one of 8, 9, a, b at the place of
    the variant, and lower-case hexadecimal digits elsewhere. *)
Theorem generateUUID_shape (rnd : nat -> Z) :
  followsTemplate UUID.template (UUID.generateUUID rnd) = true
  /\ String.length (UUID.generateUUID rnd) = 36%nat
  /\ String.get 14 (UUID.generateUUID rnd) = Some "4"%char.
Proof.
  split; [apply fill_follows|]. split; reflexivity.
Qed.

Lemma map_fmap {A B : Type} (f : A -> B) (l : list A) : List.map f l = f <$> l.
Proof. induction l as [|x l IH]; [reflexivity|]. cbn. now rewrite IH. Qed.

(** *** Messages *)

Lemma storageError_message (e : Error) :
  err_class e = StorageErrorClass ->
  getUserFriendlyErrorMessage (ThrowError e) = saveFailed
  \/ getUserFriendlyErrorMessage (ThrowError e) = storageFull.
Proof.
  intros H. unfold getUserFriendlyErrorMessage. rewrite H.
  destruct (includes (err_message e) "quota exceeded"); auto.
Qed.

Section Generic.
Context {R : Runtime} {T : Type} {EntityT : Entity T}.
Variable uniqueIndexes : list (T -> option IndexKey).

(** *** What the index check means *)

Lemma indexClash_spec (s : gmap string T) (value : T) :
  IndexedDBAdapter.indexClash uniqueIndexes s value = true
  <-> exists index key k r,
        In index uniqueIndexes /\ index value = Some key
        /\ s !! k = Some r /\ k <> keyOf value /\ index r = Some key.
Proof.
  unfold IndexedDBAdapter.indexClash. rewrite List.existsb_exists. split.
  - intros (index & Hin & H). destruct (index value) as [key|] eqn:Hkey;
      [|discriminate].
    apply List.existsb_exists in H. destruct H as ([k r] & Hentry & H).
    apply Bool.andb_true_iff in H. destruct H as [Hk Hr]. cbn [fst snd] in *.
    apply Bool.negb_true_iff, String.eqb_neq in Hk.
    apply bool_decide_eq_true in Hr.
    apply list_elem_of_In, elem_of_map_to_list in Hentry.
    exists index, key, k, r. auto.
  - intros (index & key & k & r & Hin & Hkey & Hk & Hne & Hr).
    exists index. split; [exact Hin|]. rewrite Hkey.
    apply List.existsb_exists. exists (k, r). split.
    + apply list_elem_of_In. now apply elem_of_map_to_list.
    + cbn [fst snd]. apply Bool.andb_true_iff. split.
      * now apply Bool.negb_true_iff, String.eqb_neq.
      * now apply bool_decide_eq_true.
Qed.

(** *** [add] *)

(** X4.  [add] never writes over a record: every record of the collection is
    still there afterwards, whatever the identifier drawn; when [add]
    succeeds the identifier was free, the new record sits under it and
    the collection has one record more. *)
Theorem add_never_overwrites (rnd : nat -> Z) (item : Draft)
    (s s' : gmap string T) (result : Outcome string) :
  IndexedDBAdapter.add uniqueIndexes rnd item s = (result, s') ->
  (forall k old, s !! k = Some old -> s' !! k = Some old)
  /\ (forall id, result = Resolved id ->
        id = UUID.generateUUID rnd
        /\ s !! id = None
        /\ s' !! id = Some (withId item id)
        /\ (forall k, k <> id -> s' !! k = s !! k)
        /\ size s' = S (size s)).
Proof.
  rewrite AdapterFacts.add_cases. cbv zeta.
  destruct (s !! UUID.generateUUID rnd) eqn:Hfresh.
  - intros [= <- <-]. split; [auto|discriminate].
  - destruct (IndexedDBAdapter.indexClash uniqueIndexes s _).
    + intros [= <- <-]. split; [auto|discriminate].
    + intros [= <- <-]. split.
      * intros k old Hk. rewrite lookup_insert_ne; [exact Hk|congruence].
      * intros id [= <-]. split; [reflexivity|]. split; [exact Hfresh|].
        split; [apply lookup_insert_eq|]. split.
        -- intros k Hk. now apply lookup_insert_ne.
        -- now apply map_size_insert_None.
Qed.

(** *** [delete] *)

(** After [delete], [getById] finds nothing under the identifier, every
    other record is as before, and a second [delete] changes nothing. *)
Lemma delete_spec (id : string) (s : gmap string T) :
  exists s',
    IndexedDBAdapter.delete id s = (Resolved tt, s')
    /\ IndexedDBAdapter.getById id s' = (Resolved None, s')
    /\ (forall k, k <> id -> s' !! k = s !! k)
    /\ IndexedDBAdapter.delete id s' = (Resolved tt, s').
Proof.
  exists (delete id s). rewrite !AdapterFacts.delete_removes.
  rewrite AdapterFacts.getById_lookup, lookup_delete_eq.
  split; [reflexivity|]. split; [reflexivity|]. split.
  - intros k Hk. now apply lookup_delete_ne.
  - now rewrite delete_delete_eq.
Qed.

(** X5.  Deleting the record that [add] has just stored gives back the
    collection as it was before the [add]. *)
Theorem add_delete_roundtrip (rnd : nat -> Z) (item : Draft)
    (s s' : gmap string T) (id : string) :
  IndexedDBAdapter.add uniqueIndexes rnd item s = (Resolved id, s') ->
  IndexedDBAdapter.delete id s' = (Resolved tt, s).
Proof.
  rewrite AdapterFacts.add_cases. cbv zeta.
  destruct (s !! UUID.generateUUID rnd) eqn:Hfresh; [discriminate|].
  destruct (IndexedDBAdapter.indexClash uniqueIndexes s _); [discriminate|].
  intros [= <- <-]. rewrite AdapterFacts.delete_removes.
  now rewrite delete_insert_eq, delete_id.
Qed.

(** *** [getAll] *)

(** X6.  [getAll] answers with the records of the collection and leaves the
    collection as it is: as many records as the collection holds, a
    record is listed exactly when it is stored, and no identifier comes
    twice when every record sits under its own identifier. *)
Theorem getAll_spec (s : gmap string T) :
  exists l,
    IndexedDBAdapter.getAll s = (Resolved l, s)
    /\ length l = size s
    /\ (forall r, In r l <-> exists k, s !! k = Some r)
    /\ ((forall k r, s !! k = Some r -> keyOf r = k) ->
        List.NoDup (List.map keyOf l)).
Proof.
  exists (IndexedDBAdapter.records s). rewrite AdapterFacts.getAll_values.
  split; [reflexivity|]. split; [|split].
  - rewrite <- (Permutation_length (AdapterFacts.records_perm s)).
    rewrite List.length_map. apply length_map_to_list.
  - apply AdapterFacts.records_lookup.
  - intros Hkeys.
    apply (Permutation_NoDup (Permutation_map keyOf (AdapterFacts.records_perm s))).
    rewrite List.map_map.
    rewrite (List.map_ext_in _ fst).
    + rewrite map_fmap. apply NoDup_ListNoDup, (NoDup_fst_map_to_list s).
    + intros [k r] Hin. cbn [fst snd]. apply Hkeys.
      apply elem_of_map_to_list. now apply list_elem_of_In.
Qed.

(** *** [update] *)

(** X7.  A failure of [update] is a [StorageError] and leaves the collection
    as it was.  The user is told that saving failed or that the storage
    is full; that the record was not found is never what the user is
    told. *)
Theorem update_failure (id : string) (item : Patch) (s s' : gmap string T)
    (error : Thrown) :
  IndexedDBAdapter.update uniqueIndexes id item s = (Rejected error, s') ->
  s' = s
  /\ (exists e, error = ThrowError e /\ err_class e = StorageErrorClass)
  /\ (getUserFriendlyErrorMessage error = saveFailed
      \/ getUserFriendlyErrorMessage error = storageFull)
  /\ getUserFriendlyErrorMessage error <> itemNotFound.
Proof.
  intros Hupd.
  assert (H : s' = s
              /\ exists e, error = ThrowError e /\ err_class e = StorageErrorClass).
  { destruct (s !! id) as [existing|] eqn:Hid.
    - rewrite (AdapterFacts.update_present uniqueIndexes id item existing s Hid)
        in Hupd.
      destruct (IndexedDBAdapter.indexClash uniqueIndexes s _); [|discriminate].
      injection Hupd as <- <-. split; [reflexivity|].
      eexists. split; reflexivity.
    - rewrite (AdapterFacts.update_missing uniqueIndexes id item s Hid) in Hupd.
      injection Hupd as <- <-. split; [reflexivity|].
      eexists. split; reflexivity. }
  destruct H as (Hs & e & -> & Hclass). split; [exact Hs|].
  split; [now exists e|].
  destruct (storageError_message e Hclass) as [E|E]; rewrite E.
  - split; [now left|discriminate].
  - split; [now right|discriminate].
Qed.

End Generic.

(** *** Stored objects *)

Section Objects.
Context {R : Runtime}.

Lemma spread_again (existing partial : JsObject) (id : string) :
  spread (Entity := JsObject_Entity) (spread (Entity := JsObject_Entity) existing partial id) partial id
  = spread (Entity := JsObject_Entity) existing partial id.
Proof.
  cbn [spread JsObject_Entity]. apply map_eq. intros f.
  destruct (decide (f = "id")) as [->|Hf].
  - now rewrite !lookup_insert_eq.
  - rewrite !lookup_insert_ne by congruence.
    rewrite !lookup_union. rewrite lookup_insert_ne by congruence.
    rewrite lookup_union.
    destruct (partial !! f), (existing !! f); reflexivity.
Qed.

(** X8.  Applying the same partial object a second time changes nothing more:
    when [update] has succeeded, the same [update] succeeds again and
    leaves the collection as the first one left it. *)
Theorem update_idempotent (indexes : list (JsObject -> option IndexKey))
    (id : string) (partial : JsObject) (s s' : gmap string JsObject) :
  IndexedDBAdapter.update indexes id partial s = (Resolved tt, s') ->
  IndexedDBAdapter.update indexes id partial s' = (Resolved tt, s').
Proof.
  intros Hupd. destruct (s !! id) as [existing|] eqn:Hid.
  - rewrite (AdapterFacts.update_present (EntityT := JsObject_Entity) indexes id
               partial existing s Hid) in Hupd.
    pose proof (spread_again existing partial id) as Hagain.
    pose proof (keyOf_spread (Entity := JsObject_Entity) existing partial id)
      as Hkey.
    remember (spread (Entity := JsObject_Entity) existing partial id) as r
      eqn:Hr.
    destruct (IndexedDBAdapter.indexClash indexes s r) eqn:Hclash;
      [discriminate|].
    injection Hupd as <-.
    rewrite (AdapterFacts.update_present (EntityT := JsObject_Entity) indexes id
               partial r); [|apply lookup_insert_eq].
    rewrite Hagain.
    destruct (IndexedDBAdapter.indexClash indexes (<[id := r]> s) r) eqn:Hclash'.
    + exfalso. apply (indexClash_spec (EntityT := JsObject_Entity)) in Hclash'.
      destruct Hclash' as (index & key & k & r' & Hin & Hidx & Hk & Hne & Hr').
      rewrite Hkey in Hne. rewrite lookup_insert_ne in Hk by congruence.
      assert (IndexedDBAdapter.indexClash indexes s r = true) as Hyes.
      { apply (indexClash_spec (EntityT := JsObject_Entity)).
        exists index, key, k, r'. rewrite Hkey. auto. }
      congruence.
    + now rewrite insert_insert_eq.
  - rewrite (AdapterFacts.update_missing (EntityT := JsObject_Entity) indexes id
               partial s Hid) in Hupd.
    discriminate.
Qed.

(** Writing under [id] a record whose identifier is [id] and that clashes
    with no other record keeps the indexes unique. *)
Lemma respectsIndex_insert (indexes : list (JsObject -> option IndexKey))
    (s : gmap string JsObject) (id : string) (value : JsObject) :
  keyOf (Entity := JsObject_Entity) value = id ->
  IndexedDBAdapter.indexClash indexes s value = false ->
  (forall index, In index indexes -> respectsIndex index s) ->
  forall index, In index indexes -> respectsIndex index (<[id := value]> s).
Proof.
  intros Hid Hclash Hs index Hin k1 k2 o1 o2 key.
  assert (Hno : forall k o, s !! k = Some o -> k <> id ->
                            index value = Some key -> index o = Some key -> False).
  { intros k o Hk Hne Hv Ho.
    assert (IndexedDBAdapter.indexClash indexes s value = true) as Hyes.
    { apply (indexClash_spec (EntityT := JsObject_Entity)).
      exists index, key, k, o. rewrite Hid. auto. }
    congruence. }
  destruct (decide (id = k1)) as [<-|H1], (decide (id = k2)) as [<-|H2];
    rewrite ?lookup_insert_eq, ?lookup_insert_ne by assumption.
  - reflexivity.
  - intros [= <-] H2' Hv Ho. exfalso. apply (Hno k2 o2 H2'); auto.
  - intros H1' [= <-] Ho Hv. exfalso. apply (Hno k1 o1 H1'); auto.
  - apply (Hs index Hin).
Qed.

Lemma keyed_insert (s : gmap string JsObject) (id : string) (value : JsObject) :
  keyed s -> value !! "id" = Some (VStr id) -> keyed (<[id := value]> s).
Proof.
  intros Hs Hv k o. destruct (decide (id = k)) as [<-|Hne].
  - rewrite lookup_insert_eq. now intros [= <-].
  - rewrite lookup_insert_ne by exact Hne. apply Hs.
Qed.

(** What every call of the adapter keeps true. *)
Lemma objectAfter_keeps (indexes : list (JsObject -> option IndexKey))
    (request : ObjectRequest) (s : gmap string JsObject) :
  keyed s /\ (forall index, In index indexes -> respectsIndex index s) ->
  keyed (objectAfter indexes request s)
  /\ (forall index, In index indexes ->
        respectsIndex index (objectAfter indexes request s)).
Proof.
  intros [Hk Hu]. destruct request as [rnd item|id item|id]; cbn [objectAfter].
  - rewrite AdapterFacts.add_cases. cbv zeta.
    destruct (s !! UUID.generateUUID rnd); [now split|].
    destruct (IndexedDBAdapter.indexClash indexes s _) eqn:Hclash; [now split|].
    cbn [snd]. split.
    + apply keyed_insert; [exact Hk|]. apply lookup_insert_eq.
    + apply respectsIndex_insert; [apply (keyOf_withId (Entity := JsObject_Entity))|exact Hclash|exact Hu].
  - destruct (s !! id) as [existing|] eqn:Hid.
    + rewrite (AdapterFacts.update_present (EntityT := JsObject_Entity) indexes id
                 item existing s Hid).
      destruct (IndexedDBAdapter.indexClash indexes s _) eqn:Hclash; [now split|].
      cbn [snd]. split.
      * apply keyed_insert; [exact Hk|]. apply lookup_insert_eq.
      * apply respectsIndex_insert; [apply (keyOf_spread (Entity := JsObject_Entity))|exact Hclash|exact Hu].
    + rewrite (AdapterFacts.update_missing (EntityT := JsObject_Entity) indexes id
                 item s Hid). now split.
  - rewrite AdapterFacts.delete_removes. cbn [snd]. split.
    + intros k o Ho. apply lookup_delete_Some in Ho. apply Hk, Ho.
    + intros index Hin k1 k2 o1 o2 key H1 H2.
      apply lookup_delete_Some in H1, H2. apply (Hu index Hin); tauto.
Qed.

Lemma objectReachable_keeps (indexes : list (JsObject -> option IndexKey))
    (s : gmap string JsObject) :
  objectReachable indexes s ->
  keyed s /\ (forall index, In index indexes -> respectsIndex index s).
Proof.
  induction 1 as [|request s _ IH].
  - split.
    + intros k o Hk. now rewrite lookup_empty in Hk.
    + intros index _ k1 k2 o1 o2 key Hk. now rewrite lookup_empty in Hk.
  - now apply objectAfter_keeps.
Qed.

(** X9.  In every collection that calls of [add], [update] and [delete] bring
    about from the empty one, each record carries in its [id] field the
    key it is stored under, so that [getById] with the [id] of a listed
    record finds that record. *)
Theorem reachable_keyed (indexes : list (JsObject -> option IndexKey))
    (s : gmap string JsObject) :
  objectReachable indexes s ->
  keyed s
  /\ (forall k o, s !! k = Some o ->
        IndexedDBAdapter.getById (idOf o) s = (Resolved (Some o), s)).
Proof.
  intros Hr. destruct (objectReachable_keeps indexes s Hr) as [Hk _].
  split; [exact Hk|]. intros k o Ho.
  rewrite AdapterFacts.getById_lookup. unfold idOf.
  now rewrite (Hk k o Ho), Ho.
Qed.

(** X10.  The unique index of the budget store holds: in every collection that
    calls of the adapter bring about, no two records have the same month
    together with the same category, and [add] of a record whose month
    and category are those of a stored record fails with a
    [StorageError] and leaves the collection as it is. *)
Theorem budgetStore_unique (s : gmap string JsObject) :
  objectReachable budgetStoreIndexes s ->
  forall k1 o1 month category,
    s !! k1 = Some o1 ->
    o1 !! "month" = Some (VStr month) -> o1 !! "category" = Some (VStr category) ->
    (forall k2 o2,
        s !! k2 = Some o2 ->
        o2 !! "month" = Some (VStr month) ->
        o2 !! "category" = Some (VStr category) ->
        k1 = k2)
    /\ (forall rnd item,
          item !! "month" = Some (VStr month) ->
          item !! "category" = Some (VStr category) ->
          exists e,
            IndexedDBAdapter.add budgetStoreIndexes rnd item s
            = (Rejected (ThrowError e), s)
            /\ err_class e = StorageErrorClass).
Proof.
  intros Hr k1 o1 month category H1 Hm1 Hc1.
  destruct (objectReachable_keeps budgetStoreIndexes s Hr) as [_ Hu].
  assert (Hkey : forall o : JsObject,
            o !! "month" = Some (VStr month) ->
            o !! "category" = Some (VStr category) ->
            indexKey ["month"; "category"] o = Some [VStr month; VStr category]).
  { intros o Hm Hc. cbn [indexKey]. now rewrite Hm, Hc. }
  split.
  - intros k2 o2 H2 Hm2 Hc2.
    apply (Hu (indexKey ["month"; "category"]) (or_introl eq_refl)
              k1 k2 o1 o2 [VStr month; VStr category] H1 H2); now apply Hkey.
  - intros rnd item Hm Hc. rewrite AdapterFacts.add_cases. cbv zeta.
    destruct (s !! UUID.generateUUID rnd) eqn:Hfresh.
    { eexists. split; reflexivity. }
    assert (Hclash : IndexedDBAdapter.indexClash budgetStoreIndexes s
                       (withId (Entity := JsObject_Entity) item
                          (UUID.generateUUID rnd)) = true).
    { apply (indexClash_spec (EntityT := JsObject_Entity)).
      exists (indexKey ["month"; "category"]), [VStr month; VStr category], k1, o1.
      split; [now left|]. split.
      - apply Hkey; cbn [withId JsObject_Entity];
          rewrite lookup_insert_ne by discriminate; assumption.
      - split; [exact H1|]. split; [|now apply Hkey].
        rewrite (keyOf_withId (Entity := JsObject_Entity)). congruence. }
    rewrite Hclash. eexists. split; reflexivity.
Qed.

End Objects.
End AdapterMore.

(* ===================================================================== *)
(** ** The transaction service *)
(* ===================================================================== *)

Module TransactionFacts.
Import JsString ErrorMessages TransactionService MoreSpec.

(** *** Strings *)

Lemma eqb_empty_length (s : string) :
  String.eqb s "" = false <-> String.length s <> 0%nat.
Proof.
  destruct s as [|c s]; cbn [String.length].
  - split; [discriminate|intros H; now contradiction H].
  - split; [intros _; lia|reflexivity].
Qed.

(** The message for an error that says that something was not found. *)
Lemma notFound_message (what id : string) :
  getUserFriendlyErrorMessage
    (ThrowError (newError (what +:+ id +:+ " not found")))
  = itemNotFound.
Proof.
  unfold getUserFriendlyErrorMessage. cbn [err_class newError err_message].
  rewrite (StringFacts.includes_append_l what (id +:+ " not found") "not found");
    [reflexivity|].
  now apply StringFacts.includes_append_l.
Qed.

Section WithRuntime.
Context {R : Runtime}.

(** *** Validation *)

Lemma validateTransaction_class (data : TransactionData) (e : Error) :
  validateTransactionData data = Some e -> err_class e = ValidationErrorClass.
Proof.
  unfold validateTransactionData. intros H.
  repeat match type of H with
         | context [if ?c then _ else _] => destruct c
         | context [match ?c with Some _ => _ | None => _ end] => destruct c
         end; try discriminate; injection H as <-; reflexivity.
Qed.

(** What a valid transaction is. *)
Lemma validate_None (data : TransactionData) :
  validateTransactionData data = None
  <-> String.eqb (td_date data) "" = false
      /\ dateRegex (td_date data) = true
      /\ isDefined (newDate (td_date data)) = true
      /\ JsNumber.isFinite (td_amount data) = true
      /\ String.eqb (td_category data) "" = false
      /\ String.length (trim (td_category data)) <> 0%nat
      /\ (String.length (td_category data) <= 50)%nat
      /\ (forall notes, td_notes data = Some notes ->
            (String.length notes <= 500)%nat).
Proof.
  unfold validateTransactionData.
  destruct (String.eqb (td_date data) ""); [split; [discriminate|intros [? _]; discriminate]|].
  destruct (dateRegex (td_date data)); cbn [negb];
    [|split; [discriminate|intros (_ & ? & _); discriminate]].
  destruct (isDefined (newDate (td_date data))); cbn [negb];
    [|split; [discriminate|intros (_ & _ & ? & _); discriminate]].
  destruct (JsNumber.isFinite (td_amount data)); cbn [negb];
    [|split; [discriminate|intros (_ & _ & _ & ? & _); discriminate]].
  destruct (String.eqb (td_category data) "");
    [split; [discriminate|intros (_ & _ & _ & _ & ? & _); discriminate]|].
  destruct (Nat.eqb_spec (String.length (trim (td_category data))) 0) as [E|E];
    [split; [discriminate|intros (_ & _ & _ & _ & _ & ? & _); contradiction]|].
  destruct (Nat.ltb_spec 50 (String.length (td_category data))) as [L|L];
    [split; [discriminate|intros (_ & _ & _ & _ & _ & _ & ? & _); lia]|].
  destruct (td_notes data) as [notes|].
  - destruct (Nat.ltb_spec 500 (String.length notes)) as [N|N].
    + split; [discriminate|]. intros (_ & _ & _ & _ & _ & _ & _ & H).
      specialize (H notes eq_refl). lia.
    + split; [|reflexivity]. intros _. repeat split; auto.
      intros notes' [= <-]. exact N.
  - split; [|reflexivity]. intros _. repeat split; auto. discriminate.
Qed.

(** A valid transaction stays valid when its category is trimmed and its
    notes are replaced by notes that are short enough. *)
Lemma validate_sanitized (date : string) (amount : number) (category : string)
    (notes notes' : option string) :
  validateTransactionData (mkTransactionData date amount category notes) = None ->
  (forall n, notes' = Some n -> (String.length n <= 500)%nat) ->
  validateTransactionData (mkTransactionData date amount (trim category) notes')
  = None.
Proof.
  rewrite !validate_None. cbn [td_date td_amount td_category td_notes].
  intros (Hd & Hr & Hp & Hf & Hc & Ht & Hl & Hn) Hn'.
  rewrite trim_idempotent. pose proof (trim_shorter category).
  repeat split; auto; try lia.
  apply eqb_empty_length. exact Ht.
Qed.

(** *** The calls, step by step *)

Lemma indexClash_none {T : Type} {EntityT : Entity T} (s : gmap string T)
    (value : T) :
  IndexedDBAdapter.indexClash [] s value = false.
Proof. reflexivity. Qed.

Lemma addTransaction_run (rnd : nat -> Z) (data : TransactionData) (s : TxStore) :
  addTransaction rnd data s
  = match validateTransactionData data with
    | Some e => (Rejected (ThrowError e), s)
    | None =>
        match s !! UUID.generateUUID rnd with
        | Some _ =>
            (Rejected (ThrowError
               (StorageError
                  ("Failed to add item: "
                   +:+ err_message (IndexedDBAdapter.keyExists))
                  (Some IndexedDBAdapter.keyExists))), s)
        | None =>
            (Resolved (storedTransaction (UUID.generateUUID rnd) data),
             <[UUID.generateUUID rnd
               := storedTransaction (UUID.generateUUID rnd) data]> s)
        end
    end.
Proof.
  unfold addTransaction, BudgetService.logged, catchRethrow, bind,
    BudgetService.check.
  destruct (validateTransactionData data) as [e|]; [reflexivity|].
  unfold ret. rewrite AdapterFacts.add_cases. cbv zeta.
  destruct (s !! UUID.generateUUID rnd); reflexivity.
Qed.

Lemma spread_updatedTransaction (id : string) (existing : Transaction)
    (data : TransactionUpdate) :
  spread (Entity := Transaction_Entity) existing (sanitizedUpdate data) id
  = updatedTransaction id existing data.
Proof.
  unfold updatedTransaction. cbn. destruct (tu_notes data); reflexivity.
Qed.

Lemma updateTransaction_run (id : string) (data : TransactionUpdate) (s : TxStore) :
  updateTransaction id data s
  = if noKeys data
    then (Rejected (ThrowError (ValidationError "No data provided for update")), s)
    else
      match s !! id with
      | None =>
          (Rejected (ThrowError
             (newError ("Transaction with id " +:+ id +:+ " not found"))), s)
      | Some existing =>
          match validateTransactionData (mergedData existing data) with
          | Some e => (Rejected (ThrowError e), s)
          | None => (Resolved tt, <[id := updatedTransaction id existing data]> s)
          end
      end.
Proof.
  unfold updateTransaction, BudgetService.logged, catchRethrow, bind,
    BudgetService.check.
  destruct (noKeys data); [reflexivity|].
  rewrite AdapterFacts.getById_lookup.
  destruct (s !! id) as [existing|] eqn:Hid; [|reflexivity].
  destruct (validateTransactionData (mergedData existing data)) as [e|];
    [reflexivity|].
  unfold ret.
  rewrite (AdapterFacts.update_present (EntityT := Transaction_Entity)
             transactionIndexes id _ existing s Hid).
  unfold transactionIndexes. rewrite indexClash_none.
  now rewrite spread_updatedTransaction.
Qed.

Lemma getTransactionsByMonth_run (month : string) (s : TxStore) :
  getTransactionsByMonth month s
  = if BudgetService.monthRegex month
    then (Resolved (List.filter (fun t => startsWith (tx_date t) month)
                      (IndexedDBAdapter.records s)), s)
    else (Rejected (ThrowError (ValidationError "Month must be in YYYY-MM format")),
          s).
Proof.
  unfold getTransactionsByMonth, BudgetService.logged, catchRethrow, bind.
  destruct (BudgetService.monthRegex month); [|reflexivity]. cbn [negb].
  now rewrite AdapterFacts.getAll_values.
Qed.

Lemma getTransactionsByCategory_run (category : string) (s : TxStore) :
  getTransactionsByCategory category s
  = if String.eqb category ""
    then (Rejected (ThrowError
            (ValidationError "Category must be a non-empty string")), s)
    else (Resolved
            (List.filter
               (fun t => String.eqb (toLowerCase (tx_category t))
                                    (toLowerCase (trim category)))
               (IndexedDBAdapter.records s)), s).
Proof.
  unfold getTransactionsByCategory, BudgetService.logged, catchRethrow, bind.
  destruct (String.eqb category ""); [reflexivity|].
  now rewrite AdapterFacts.getAll_values.
Qed.

Lemma listed_transactions (s : TxStore) (t : Transaction) :
  In t (IndexedDBAdapter.records s) <-> exists k, s !! k = Some t.
Proof. apply AdapterFacts.records_lookup. Qed.

(** *** Adding *)

(** X11.  A failure of [addTransaction] leaves the collection as it was.  It
    is the [ValidationError] of the first check that fails, shown to the
    user with its own message, or, for valid data, a [StorageError] of
    the adapter, shown as a failure to save or as the storage being
    full. *)
Theorem addTransaction_failure (rnd : nat -> Z) (data : TransactionData)
    (s s' : TxStore) (error : Thrown) :
  addTransaction rnd data s = (Rejected error, s') ->
  s' = s
  /\ exists e,
       error = ThrowError e
       /\ ((validateTransactionData data = Some e
            /\ err_class e = ValidationErrorClass
            /\ getUserFriendlyErrorMessage error = err_message e)
           \/ (validateTransactionData data = None
               /\ err_class e = StorageErrorClass
               /\ (getUserFriendlyErrorMessage error = saveFailed
                   \/ getUserFriendlyErrorMessage error = storageFull))).
Proof.
  rewrite addTransaction_run.
  destruct (validateTransactionData data) as [e|] eqn:Hv.
  - intros [= <- <-]. split; [reflexivity|]. exists e. split; [reflexivity|].
    left. pose proof (validateTransaction_class data e Hv) as Hc.
    split; [reflexivity|]. split; [exact Hc|].
    unfold getUserFriendlyErrorMessage. now rewrite Hc.
  - destruct (s !! UUID.generateUUID rnd); [|discriminate].
    intros [= <- <-]. split; [reflexivity|]. eexists. split; [reflexivity|].
    right. split; [reflexivity|]. split; [reflexivity|]. now left.
Qed.

(** X12.  When [addTransaction] succeeds, the data were valid, the identifier
    is new, the transaction answered is the data with the category and
    the notes trimmed, [getById] finds it under its identifier, and no
    other record has changed. *)
Theorem addTransaction_roundtrip (rnd : nat -> Z) (data : TransactionData)
    (s s' : TxStore) (t : Transaction) :
  addTransaction rnd data s = (Resolved t, s') ->
  validateTransactionData data = None
  /\ t = storedTransaction (tx_id t) data
  /\ s !! tx_id t = None
  /\ IndexedDBAdapter.getById (tx_id t) s' = (Resolved (Some t), s')
  /\ (forall k, k <> tx_id t -> s' !! k = s !! k)
  /\ size s' = S (size s).
Proof.
  rewrite addTransaction_run.
  destruct (validateTransactionData data) as [e|] eqn:Hv; [discriminate|].
  destruct (s !! UUID.generateUUID rnd) eqn:Hfresh; [discriminate|].
  intros [= <- <-]. cbn [tx_id storedTransaction].
  split; [reflexivity|]. split; [reflexivity|]. split; [exact Hfresh|].
  rewrite AdapterFacts.getById_lookup, lookup_insert_eq.
  split; [reflexivity|]. split.
  - intros k Hk. now apply lookup_insert_ne.
  - now apply map_size_insert_None.
Qed.

(** *** Queries *)

(** [getTransactionsByMonth] turns down a month that is not four digits,
    a hyphen and two digits; otherwise it answers with exactly the
    stored transactions whose date starts with the month.  It never
    changes the collection. *)
Lemma getTransactionsByMonth_spec (month : string) (s : TxStore) :
  (BudgetService.monthRegex month = false ->
   getTransactionsByMonth month s
   = (Rejected (ThrowError (ValidationError "Month must be in YYYY-MM format")), s))
  /\ (BudgetService.monthRegex month = true ->
      exists l,
        getTransactionsByMonth month s = (Resolved l, s)
        /\ forall t, In t l
                     <-> (exists k, s !! k = Some t)
                         /\ startsWith (tx_date t) month = true).
Proof.
  rewrite getTransactionsByMonth_run. split; intros ->; [reflexivity|].
  eexists. split; [reflexivity|]. intros t.
  rewrite List.filter_In, listed_transactions. reflexivity.
Qed.

(** [getTransactionsByCategory] turns down the empty string; otherwise
    it answers with exactly the stored transactions whose category is,
    up to case, the trimmed category asked for.  Two ways of writing a
    category that agree up to case and surrounding white space get the
    same answer. *)
Lemma getTransactionsByCategory_spec (category : string) (s : TxStore) :
  category <> "" ->
  exists l,
    getTransactionsByCategory category s = (Resolved l, s)
    /\ (forall t, In t l
                  <-> (exists k, s !! k = Some t)
                      /\ toLowerCase (tx_category t) = toLowerCase (trim category))
    /\ (forall category',
          category' <> "" ->
          toLowerCase (trim category') = toLowerCase (trim category) ->
          getTransactionsByCategory category' s = (Resolved l, s)).
Proof.
  intros Hne. rewrite getTransactionsByCategory_run.
  apply String.eqb_neq in Hne. rewrite Hne.
  eexists. split; [reflexivity|]. split.
  - intros t. rewrite List.filter_In, listed_transactions, String.eqb_eq. reflexivity.
  - intros category' Hne' Heq. rewrite getTransactionsByCategory_run.
    apply String.eqb_neq in Hne'. now rewrite Hne', Heq.
Qed.

Lemma dateRegex_month (date : string) :
  dateRegex date = true ->
  BudgetService.monthRegex (substring0 7 date) = true
  /\ startsWith date (substring0 7 date) = true.
Proof.
  unfold dateRegex, BudgetService.monthRegex, startsWith, substring0.
  destruct date as [|c1 [|c2 [|c3 [|c4 [|c5 [|c6 [|c7 [|c8 [|c9 [|c10 [|c11 r]]]]]]]]]]];
    try discriminate.
  cbn [list_ascii_of_string String.substring].
  generalize JsDate.isDigit. intros digit H.
  repeat (apply Bool.andb_true_iff in H; destruct H as [H ?]).
  split.
  - repeat (apply Bool.andb_true_iff; split); assumption.
  - apply (StringFacts.prefix_append
             (String c1 (String c2 (String c3 (String c4 (String c5
                (String c6 (String c7 EmptyString)))))))
             (String c8 (String c9 (String c10 EmptyString)))).
Qed.

(** X13.  A transaction that [addTransaction] has stored is found by both
    queries: under the category as it was typed, whatever its case and
    the white space around it, and under the month its date begins
    with. *)
Theorem addTransaction_found (rnd : nat -> Z) (data : TransactionData)
    (s s' : TxStore) (t : Transaction) :
  addTransaction rnd data s = (Resolved t, s') ->
  (exists l, getTransactionsByCategory (td_category data) s' = (Resolved l, s')
             /\ In t l)
  /\ (exists l, getTransactionsByMonth (substring0 7 (td_date data)) s'
                = (Resolved l, s')
                /\ In t l).
Proof.
  rewrite addTransaction_run.
  destruct (validateTransactionData data) as [e|] eqn:Hv; [discriminate|].
  destruct (s !! UUID.generateUUID rnd) eqn:Hfresh; [discriminate|].
  intros [= <- <-]. apply validate_None in Hv.
  destruct Hv as (_ & Hr & _ & _ & Hc & _).
  assert (Hin : exists k,
            (<[UUID.generateUUID rnd
               := storedTransaction (UUID.generateUUID rnd) data]> s) !! k
            = Some (storedTransaction (UUID.generateUUID rnd) data)).
  { exists (UUID.generateUUID rnd). apply lookup_insert_eq. }
  split.
  - rewrite getTransactionsByCategory_run, Hc. eexists. split; [reflexivity|].
    apply List.filter_In. split; [now apply listed_transactions|].
    cbn [tx_category storedTransaction]. apply String.eqb_refl.
  - destruct (dateRegex_month _ Hr) as [Hm Hp].
    rewrite getTransactionsByMonth_run, Hm. eexists. split; [reflexivity|].
    apply List.filter_In. split; [now apply listed_transactions|]. exact Hp.
Qed.

(** *** Updating *)

(** X14.  A failure of [updateTransaction] leaves the collection as it was.
    An update with no property is turned down before the record is
    looked for; a record that is not there gives a plain [Error], which
    the user is shown as the item not being found; otherwise the failure
    is the [ValidationError] of the merged record, or a [StorageError]
    of the adapter, which the user is shown as a failure to save or as
    the storage being full. *)
Theorem updateTransaction_failure (id : string) (data : TransactionUpdate)
    (s s' : TxStore) (error : Thrown) :
  updateTransaction id data s = (Rejected error, s') ->
  s' = s
  /\ ((noKeys data = true
       /\ error = ThrowError (ValidationError "No data provided for update"))
      \/ (noKeys data = false /\ s !! id = None
          /\ error = ThrowError
                       (newError ("Transaction with id " +:+ id +:+ " not found"))
          /\ getUserFriendlyErrorMessage error = itemNotFound)
      \/ (noKeys data = false
          /\ exists existing e,
               s !! id = Some existing
               /\ validateTransactionData (mergedData existing data) = Some e
               /\ error = ThrowError e
               /\ err_class e = ValidationErrorClass)
      \/ (noKeys data = false
          /\ exists e,
               error = ThrowError e
               /\ err_class e = StorageErrorClass
               /\ (getUserFriendlyErrorMessage error = saveFailed
                   \/ getUserFriendlyErrorMessage error = storageFull))).
Proof.
  rewrite updateTransaction_run. destruct (noKeys data).
  - intros [= <- <-]. split; [reflexivity|]. left. split; reflexivity.
  - destruct (s !! id) as [existing|].
    + destruct (validateTransactionData (mergedData existing data)) as [e|] eqn:Hv;
        [|discriminate].
      intros [= <- <-]. split; [reflexivity|]. right. right. left.
      split; [reflexivity|]. exists existing, e.
      split; [reflexivity|]. split; [exact Hv|]. split; [reflexivity|].
      now apply validateTransaction_class in Hv.
    + intros [= <- <-]. split; [reflexivity|]. right. left.
      split; [reflexivity|]. split; [reflexivity|]. split; [reflexivity|].
      apply notFound_message.
Qed.

(** X15.  When [updateTransaction] succeeds, the record under [id] keeps its
    identifier, takes the date and the amount given, the category and
    the notes given with the white space around them removed, and keeps
    every property that is not given; no other record changes. *)
Theorem updateTransaction_frame (id : string) (data : TransactionUpdate)
    (s s' : TxStore) :
  updateTransaction id data s = (Resolved tt, s') ->
  exists existing r,
    s !! id = Some existing
    /\ s' !! id = Some r
    /\ tx_id r = id
    /\ tx_date r = default (tx_date existing) (tu_date data)
    /\ tx_amount r = default (tx_amount existing) (tu_amount data)
    /\ tx_category r = default (tx_category existing) (trim <$> tu_category data)
    /\ tx_notes r = match tu_notes data with
                    | Some notes => Some (trim notes)
                    | None => tx_notes existing
                    end
    /\ (forall k, k <> id -> s' !! k = s !! k)
    /\ dom s' = dom s.
Proof.
  rewrite updateTransaction_run. destruct (noKeys data); [discriminate|].
  destruct (s !! id) as [existing|] eqn:Hid; [|discriminate].
  destruct (validateTransactionData (mergedData existing data)); [discriminate|].
  intros [= <-]. exists existing, (updatedTransaction id existing data).
  split; [reflexivity|]. split; [apply lookup_insert_eq|].
  repeat (split; [reflexivity|]). split.
  - intros k Hk. now apply lookup_insert_ne.
  - apply dom_insert_lookup_L. now exists existing.
Qed.

(** *** What the service keeps true *)

Lemma accepted_stored (id : string) (data : TransactionData) :
  validateTransactionData data = None ->
  accepted id (storedTransaction id data).
Proof.
  intros Hv. unfold accepted, storedTransaction, ImportCSV.transactionData.
  cbn [tx_date tx_amount tx_category tx_notes tx_id].
  split; [|split; [apply trim_idempotent|reflexivity]].
  destruct data as [date amount category notes]. cbn [td_date td_amount td_category td_notes].
  apply (validate_sanitized date amount category notes); [exact Hv|].
  apply validate_None in Hv. destruct Hv as (_ & _ & _ & _ & _ & _ & _ & Hn).
  cbn [td_notes] in Hn. intros n Hn'. destruct notes as [n0|]; [|discriminate].
  injection Hn' as <-. pose proof (trim_shorter n0).
  specialize (Hn n0 eq_refl). lia.
Qed.

Lemma accepted_updated (id : string) (existing : Transaction)
    (data : TransactionUpdate) :
  accepted id existing ->
  validateTransactionData (mergedData existing data) = None ->
  accepted id (updatedTransaction id existing data).
Proof.
  intros (Hex & Htrim & _) Hv.
  unfold accepted, updatedTransaction, ImportCSV.transactionData.
  cbn [tx_date tx_amount tx_category tx_notes tx_id].
  assert (Hcat : default (tx_category existing) (trim <$> tu_category data)
                 = trim (default (tx_category existing) (tu_category data))).
  { destruct (tu_category data); [reflexivity|]. symmetry. exact Htrim. }
  rewrite Hcat. split; [|split; [apply trim_idempotent|reflexivity]].
  unfold mergedData in Hv.
  apply (validate_sanitized _ _ _ _ _ Hv).
  intros n Hn. destruct (tu_notes data) as [notes|].
  - injection Hn as <-. apply validate_None in Hv.
    destruct Hv as (_ & _ & _ & _ & _ & _ & _ & Hv). cbn [td_notes] in Hv.
    specialize (Hv notes eq_refl). pose proof (trim_shorter notes). lia.
  - apply validate_None in Hex. destruct Hex as (_ & _ & _ & _ & _ & _ & _ & Hex).
    cbn [td_notes ImportCSV.transactionData] in Hex. now apply Hex.
Qed.

Lemma txAfter_keeps (request : TxRequest) (s : TxStore) :
  (forall k t, s !! k = Some t -> accepted k t) ->
  forall k t, txAfter request s !! k = Some t -> accepted k t.
Proof.
  intros Hs. destruct request as [rnd data|id data|id]; cbn [txAfter].
  - rewrite addTransaction_run.
    destruct (validateTransactionData data) eqn:Hv; [exact Hs|].
    destruct (s !! UUID.generateUUID rnd); [exact Hs|]. cbn [snd].
    intros k t. destruct (decide (UUID.generateUUID rnd = k)) as [<-|Hne].
    + rewrite lookup_insert_eq. intros [= <-]. now apply accepted_stored.
    + rewrite lookup_insert_ne by exact Hne. apply Hs.
  - rewrite updateTransaction_run. destruct (noKeys data); [exact Hs|].
    destruct (s !! id) as [existing|] eqn:Hid; [|exact Hs].
    destruct (validateTransactionData (mergedData existing data)) eqn:Hv;
      [exact Hs|].
    cbn [snd]. intros k t. destruct (decide (id = k)) as [<-|Hne].
    + rewrite lookup_insert_eq. intros [= <-].
      apply accepted_updated; [now apply Hs|exact Hv].
    + rewrite lookup_insert_ne by exact Hne. apply Hs.
  - unfold deleteTransaction, BudgetService.logged, catchRethrow.
    rewrite AdapterFacts.delete_removes. cbn [snd].
    intros k t Hk. apply lookup_delete_Some in Hk. apply Hs, Hk.
Qed.

(** X16.  Every transaction in a collection that calls of [addTransaction],
    [updateTransaction] and [deleteTransaction] bring about from the
    empty one would pass the validation again as it is stored, has no
    white space around its category, and sits under its own identifier. *)
Theorem txReachable_accepted (s : TxStore) :
  txReachable s ->
  forall k t, s !! k = Some t -> accepted k t.
Proof.
  induction 1 as [|request s _ IH].
  - intros k t Hk. now rewrite lookup_empty in Hk.
  - now apply txAfter_keeps.
Qed.

End WithRuntime.
End TransactionFacts.

(* ===================================================================== *)
(** ** More on the budget service *)
(* ===================================================================== *)

Module BudgetMore.
Import JsString ErrorMessages BudgetService BudgetSpec MoreSpec.

Section WithRuntime.
Context {R : Runtime}.

Lemma no_duplicate (month category : string) (excludeId : option string)
    (s : Store) :
  (forall k b, s !! k = Some b -> excluded excludeId b = false ->
               ~ takes b month category) ->
  existsb (collidesWith month (toLowerCase (trim category)) excludeId) (values s)
  = false.
Proof.
  intros Hfree.
  destruct (existsb _ (values s)) eqn:E; [|reflexivity]. exfalso.
  apply List.existsb_exists in E. destruct E as (b & Hin & Hb).
  apply BudgetFacts.values_lookup in Hin. destruct Hin as [k Hk].
  apply BudgetFacts.collidesWith_takes in Hb. destruct Hb as [Hex Ht].
  now apply (Hfree k b Hk Hex).
Qed.

(** *** Adding *)

(** [addBudget] goes through when the data are valid, the identifier is
    free and the check for a duplicate finds none. *)
Lemma addBudget_free (rnd : nat -> Z) (data : BudgetData) (s : Store) :
  valid data ->
  s !! UUID.generateUUID rnd = None ->
  existsb (collidesWith (d_month data)
             (toLowerCase (trim (trim (d_category data)))) None) (values s)
  = false ->
  addBudget rnd data s
  = (Resolved (storedBudget (UUID.generateUUID rnd) data),
     <[UUID.generateUUID rnd := storedBudget (UUID.generateUUID rnd) data]> s).
Proof.
  intros Hv Hfresh Hdup. rewrite BudgetFacts.addBudget_run, Hv. cbv zeta.
  rewrite Hdup, AdapterFacts.add_cases. cbv zeta. rewrite Hfresh.
  destruct (IndexedDBAdapter.indexClash budgetIndexes s _) eqn:Hclash;
    [|reflexivity].
  exfalso. apply BudgetFacts.indexClash_takes in Hclash.
  destruct Hclash as (k & b' & Hk & _ & Hm & Hc).
  pose proof (BudgetFacts.duplicate_absent _ _ _ _ Hdup k b' Hk eq_refl) as Hno.
  apply Hno. split; [exact Hm|]. cbn [b_category withId Budget_Entity] in Hc.
  rewrite Hc. cbn [d_category]. now rewrite trim_idempotent.
Qed.

(** X17.  [addBudget] with valid data stores the budget, its category trimmed,
    under the new identifier, when the identifier is free and no stored
    budget has the month and, up to case, the trimmed category. *)
Theorem addBudget_success (rnd : nat -> Z) (data : BudgetData) (s : Store) :
  valid data ->
  s !! UUID.generateUUID rnd = None ->
  (forall k b, s !! k = Some b -> ~ takes b (d_month data) (d_category data)) ->
  addBudget rnd data s
  = (Resolved (storedBudget (UUID.generateUUID rnd) data),
     <[UUID.generateUUID rnd := storedBudget (UUID.generateUUID rnd) data]> s).
Proof.
  intros Hv Hfresh Hfree. apply addBudget_free; [exact Hv|exact Hfresh|].
  apply no_duplicate. intros k b Hk _ [Hm Hc]. apply (Hfree k b Hk).
  split; [exact Hm|]. now rewrite trim_idempotent in Hc.
Qed.

(** *** Updating *)

(** In a store the service has brought about, the unique index never
    objects to an update the service lets through. *)
Lemma update_passes_index (id : string) (data : BudgetUpdate) (s : Store)
    (existing : Budget) :
  kept s ->
  s !! id = Some existing ->
  (isDefined (u_month data) || isDefined (u_category data))
  && existsb (collidesWith (d_month (mergedData existing data))
                (toLowerCase (trim (d_category (mergedData existing data))))
                (Some id)) (values s) = false ->
  IndexedDBAdapter.indexClash budgetIndexes s (updated id existing data) = false.
Proof.
  intros [Hw Hu] Hid Hdup.
  destruct (IndexedDBAdapter.indexClash budgetIndexes s _) eqn:Hclash;
    [|reflexivity].
  exfalso. apply BudgetFacts.indexClash_takes in Hclash.
  destruct Hclash as (k & b' & Hk & Hne & Hm & Hc). cbn [b_id updated] in Hne.
  destruct (Hw k b' Hk) as (Hkey' & _ & _).
  destruct (Hw id existing Hid) as (_ & _ & Htrim).
  destruct (isDefined (u_month data) || isDefined (u_category data)) eqn:Hdef.
  - cbn [andb] in Hdup.
    apply (BudgetFacts.duplicate_absent _ _ _ _ Hdup k b' Hk).
    + apply BudgetFacts.excluded_other. congruence.
    + split; [exact Hm|]. rewrite Hc.
      now rewrite (BudgetFacts.updated_category id existing data Htrim).
  - apply Bool.orb_false_iff in Hdef. destruct Hdef as [Hdm Hdc].
    unfold updated in Hm, Hc.
    destruct (u_month data); [discriminate|].
    destruct (u_category data); [discriminate|].
    cbn in Hm, Hc.
    apply Hne. apply (Hu k id b' existing Hk Hid Hm). now rewrite Hc.
Qed.

(** X18.  In a store the service has brought about, a failure of
    [updateBudget] leaves the store as it was.  It is a
    [ValidationError], shown to the user with its own message; or, when
    the update names a property and no budget has the identifier, a plain
    [Error], shown as the item not being found; or a [StorageError] of
    the adapter, shown as a failure to save or as the storage being
    full.  The unique index of the store is not what fails: the record
    of an update that the checks of the service let through holds, in
    the index, the key of no other record. *)
Theorem updateBudget_failure (id : string) (data : BudgetUpdate) (s : Store) :
  reachable s ->
  (forall s' error,
      updateBudget id data s = (Rejected error, s') ->
      s' = s
      /\ exists e,
           error = ThrowError e
           /\ ((err_class e = ValidationErrorClass
                /\ getUserFriendlyErrorMessage error = err_message e)
               \/ (noKeys data = false /\ s !! id = None
                   /\ err_class e = PlainError
                   /\ getUserFriendlyErrorMessage error = itemNotFound)
               \/ (err_class e = StorageErrorClass
                   /\ (getUserFriendlyErrorMessage error = saveFailed
                       \/ getUserFriendlyErrorMessage error = storageFull))))
  /\ (forall existing,
        s !! id = Some existing ->
        (isDefined (u_month data) || isDefined (u_category data))
        && existsb (collidesWith (d_month (mergedData existing data))
                      (toLowerCase (trim (d_category (mergedData existing data))))
                      (Some id)) (values s) = false ->
        IndexedDBAdapter.indexClash budgetIndexes s (updated id existing data)
        = false).
Proof.
  intros Hr. pose proof (BudgetFacts.reachable_kept s Hr) as Hs.
  split; [|intros existing Hid Hdup; now apply update_passes_index].
  intros s' error.
  rewrite BudgetFacts.updateBudget_run. destruct (noKeys data).
  { intros [= <- <-]. split; [reflexivity|]. eexists. split; [reflexivity|].
    left. split; reflexivity. }
  destruct (s !! id) as [existing|] eqn:Hid.
  - cbv zeta.
    destruct (validateBudgetData (mergedData existing data)) as [e|] eqn:Hv.
    { intros [= <- <-]. split; [reflexivity|]. exists e. split; [reflexivity|].
      left. pose proof (BudgetFacts.validate_class _ e Hv) as Hc.
      split; [exact Hc|]. unfold getUserFriendlyErrorMessage. now rewrite Hc. }
    destruct (_ && _) eqn:Hdup.
    { intros [= <- <-]. split; [reflexivity|]. eexists. split; [reflexivity|].
      left. split; reflexivity. }
    rewrite (AdapterFacts.update_present (EntityT := Budget_Entity)
               budgetIndexes id _ existing s Hid).
    rewrite BudgetFacts.spread_updated.
    rewrite (update_passes_index id data s existing Hs Hid Hdup). discriminate.
  - intros [= <- <-]. split; [reflexivity|]. eexists. split; [reflexivity|].
    right. left. split; [reflexivity|]. split; [reflexivity|]. split; [reflexivity|].
    apply TransactionFacts.notFound_message.
Qed.

(** *** Deleting *)

(** X19.  Deleting a budget frees its month and category: in a store the
    service has brought about, once the budget under [id] is deleted,
    valid data for the month and, up to case, the category of that
    budget are accepted by [addBudget]. *)
Theorem deleteBudget_frees (rnd : nat -> Z) (data : BudgetData) (s : Store)
    (id : string) (b : Budget) :
  reachable s ->
  s !! id = Some b ->
  valid data ->
  takes b (d_month data) (d_category data) ->
  UUID.generateUUID rnd ∉ dom s ->
  exists s1,
    deleteBudget id s = (Resolved tt, s1)
    /\ s1 !! id = None
    /\ addBudget rnd data s1
       = (Resolved (storedBudget (UUID.generateUUID rnd) data),
          <[UUID.generateUUID rnd
            := storedBudget (UUID.generateUUID rnd) data]> s1).
Proof.
  intros Hr Hid Hv [Hm Hc] Hfresh.
  destruct (BudgetFacts.reachable_kept s Hr) as [Hw Hu].
  exists (delete id s). unfold deleteBudget, logged, catchRethrow.
  rewrite AdapterFacts.delete_removes. split; [reflexivity|].
  split; [apply lookup_delete_eq|].
  apply addBudget_free; [exact Hv| |].
  - apply lookup_delete_None. right. now apply not_elem_of_dom.
  - apply no_duplicate. intros k b' Hk _ [Hm' Hc'].
    rewrite trim_idempotent in Hc'. apply lookup_delete_Some in Hk.
    destruct Hk as [Hne Hk]. apply Hne.
    apply (Hu id k b b' Hid Hk); congruence.
Qed.

End WithRuntime.
End BudgetMore.

(* ===================================================================== *)
(** ** Budgets with their remainder *)
(* ===================================================================== *)

Module ReportFacts.
Import JsString ErrorMessages BudgetService BudgetReports CalculationSpec.

Section WithRuntime.
Context {R : Runtime}.

Lemma getAllTransactions_run (s : gmap string Transaction) :
  TransactionService.getAllTransactions s
  = (Resolved (IndexedDBAdapter.records s), s).
Proof.
  unfold TransactionService.getAllTransactions, logged, catchRethrow.
  now rewrite AdapterFacts.getAll_values.
Qed.

Lemma getBudgetWithRemaining_run (id : string) (s : Stores) :
  getBudgetWithRemaining id s
  = match budgets s !! id with
    | Some budget =>
        (Resolved (withRemaining budget
                     (IndexedDBAdapter.records (transactions s))), s)
    | None =>
        (Rejected (ThrowError (newError ("Budget with id " +:+ id +:+ " not found"))),
         s)
    end.
Proof.
  unfold getBudgetWithRemaining, logged, catchRethrow, bind, onBudgets,
    onTransactions.
  rewrite AdapterFacts.getById_lookup. destruct s as [bs ts]. cbn [budgets transactions].
  destruct (bs !! id) as [budget|]; [|reflexivity].
  now rewrite getAllTransactions_run.
Qed.

(** X20.  For a budget that is stored, [getBudgetWithRemaining] answers with
    the budget and two figures.  What remains is the limit less the sum
    of |amount| over the stored expenses of the month and category, the
    expenses taken in the order of their identifiers.  What was spent is
    the limit less what remains: it is computed back from the remainder,
    not added up.  Nothing stored changes. *)
Theorem getBudgetWithRemaining_found (id : string) (s : Stores) (budget : Budget) :
  budgets s !! id = Some budget ->
  exists r,
    getBudgetWithRemaining id s = (Resolved r, s)
    /\ bw_id r = b_id budget /\ bw_month r = b_month budget
    /\ bw_category r = b_category budget /\ bw_limit r = b_limit budget
    /\ bw_remaining r
       = JsNumber.sub (b_limit budget)
           (spent budget (IndexedDBAdapter.records (transactions s)))
    /\ bw_spent r = JsNumber.sub (b_limit budget) (bw_remaining r).
Proof.
  intros Hid. rewrite getBudgetWithRemaining_run, Hid.
  eexists. split; [reflexivity|]. unfold withRemaining.
  cbn [bw_id bw_month bw_category bw_limit bw_spent bw_remaining].
  rewrite CalculationFacts.budgetRemaining_spent.
  repeat (split; [reflexivity|]). reflexivity.
Qed.

(** For an identifier that no budget has, [getBudgetWithRemaining]
    fails with a plain [Error], which the user is shown as the item not
    being found, and nothing stored changes. *)
Lemma getBudgetWithRemaining_missing (id : string) (s : Stores) :
  budgets s !! id = None ->
  exists e,
    getBudgetWithRemaining id s = (Rejected (ThrowError e), s)
    /\ err_class e = PlainError
    /\ err_message e = "Budget with id " +:+ id +:+ " not found"
    /\ getUserFriendlyErrorMessage (ThrowError e) = itemNotFound.
Proof.
  intros Hid. rewrite getBudgetWithRemaining_run, Hid.
  eexists. split; [reflexivity|]. split; [reflexivity|]. split; [reflexivity|].
  apply TransactionFacts.notFound_message.
Qed.

(** X21.  [getAllBudgetsWithRemaining] answers with one entry for each stored
    budget, in the order of the identifiers of the budgets, and each
    entry is what [getBudgetWithRemaining] answers for that budget.
    Nothing stored changes. *)
Theorem getAllBudgetsWithRemaining_spec (s : Stores) :
  exists l,
    getAllBudgetsWithRemaining s = (Resolved l, s)
    /\ length l = size (budgets s)
    /\ List.map bw_id l = List.map b_id (IndexedDBAdapter.records (budgets s))
    /\ (forall id budget,
          budgets s !! id = Some budget ->
          exists r, getBudgetWithRemaining id s = (Resolved r, s) /\ In r l).
Proof.
  unfold getAllBudgetsWithRemaining, logged, catchRethrow, bind, onBudgets,
    onTransactions.
  rewrite AdapterFacts.getAll_values, getAllTransactions_run.
  destruct s as [bs ts]. cbn [budgets transactions].
  eexists. split; [reflexivity|]. split; [|split].
  - rewrite List.length_map.
    rewrite <- (Permutation_length (AdapterFacts.records_perm bs)).
    rewrite List.length_map. apply length_map_to_list.
  - rewrite List.map_map. reflexivity.
  - intros id budget Hid. rewrite getBudgetWithRemaining_run.
    cbn [budgets transactions]. rewrite Hid. eexists. split; [reflexivity|].
    apply List.in_map_iff. exists budget. split; [reflexivity|].
    apply AdapterFacts.records_lookup. now exists id.
Qed.

End WithRuntime.

(** What was spent is computed back from the remainder, in the
    arithmetic of doubles: with a limit of 100 and a single expense of
    0.1, what remains is the double next to 99.9 and what was spent is
    0.09999999999999432, not 0.1. *)
Example withRemaining_rounds :
  bw_spent
    (withRemaining (mkBudget "b" "2025-01" "Food" (JsNumber.ofZ 100))
       [mkTransaction "t1" "2025-01-15" (JsNumber.decimal (-1) 10) "Food" None])
  = JsNumber.decimal 9999999999999432 100000000000000000
  /\ JsNumber.decimal 9999999999999432 100000000000000000 <> JsNumber.decimal 1 10.
Proof. split; [vm_compute; exact eq_refl|vm_compute; discriminate]. Qed.

End ReportFacts.

(* ===================================================================== *)
(** ** More on the calculation engine, and the cards that show it *)
(* ===================================================================== *)

Module CalculationMore.
Import JsString CalculationService CalculationSpec MoreSpec Dashboard.

(** *** Category totals, one category at a time *)

(** X22.  Each category with an expense has exactly one entry in the category
    totals; the total of an entry is the sum of |amount| over the
    expenses of exactly that category, added up in the order of the list
    as the code adds them, and is greater than zero. *)
Theorem calculateCategoryTotals_per_category (transactions : list Transaction) :
  List.NoDup (List.map ct_category (calculateCategoryTotals transactions))
  /\ (forall e, In e (calculateCategoryTotals transactions) ->
        ct_total e = categorySpending (ct_category e) transactions
        /\ JsNumber.ltb JsNumber.zero (ct_total e) = true)
  /\ (forall t, In t transactions ->
        JsNumber.ltb (tx_amount t) JsNumber.zero = true ->
        exists e, In e (calculateCategoryTotals transactions)
                  /\ ct_category e = tx_category t).
Proof.
  split; [apply CalculationFacts.categoryTotals_keys|].
  split; [apply CalculationFacts.categoryTotals_entry|].
  intros t Hin Hneg. now apply CalculationFacts.categoryTotals_covers.
Qed.

(** *** The balance *)

Lemma balance_whole (l : list Transaction) (amounts : list Z) :
  List.map tx_amount l = List.map JsNumber.ofZ amounts ->
  sumZ (List.map Z.abs amounts) < 2 ^ 53 ->
  calculateTotalBalance l = JsNumber.ofZ (sumZ amounts).
Proof.
  intros Hmap Hb. unfold calculateTotalBalance, sumAmounts.
  rewrite CalculationFacts.sumAmounts_fold, Hmap.
  now apply JsNumberFacts.sumOf_ofZ.
Qed.

(** X23.  The balance is the amounts added up from 0 in the order of the
    list, each partial sum rounded to a double.  When the amounts are
    whole numbers whose absolute values add up to less than 2^53, nothing
    is rounded: the balance is their sum, it does not depend on the order
    of the transactions, and the balance of two lists put together is the
    sum of their balances. *)
Theorem calculateTotalBalance_spec (transactions : list Transaction)
    (amounts : list Z) :
  List.map tx_amount transactions = List.map JsNumber.ofZ amounts ->
  sumZ (List.map Z.abs amounts) < 2 ^ 53 ->
  calculateTotalBalance transactions
  = JsNumber.sumOf (List.map tx_amount transactions)
  /\ calculateTotalBalance transactions = JsNumber.ofZ (sumZ amounts)
  /\ (forall transactions',
        Permutation transactions transactions' ->
        calculateTotalBalance transactions' = calculateTotalBalance transactions)
  /\ (forall front back,
        transactions = front ++ back ->
        calculateTotalBalance transactions
        = JsNumber.add (calculateTotalBalance front) (calculateTotalBalance back)).
Proof.
  intros Hmap Hb.
  split; [apply CalculationFacts.sumAmounts_fold|].
  split; [now apply balance_whole|]. split.
  - intros l' Hperm.
    apply (Permutation_map tx_amount) in Hperm. rewrite Hmap in Hperm.
    apply Permutation_sym, Permutation_map_inv in Hperm.
    destruct Hperm as (amounts' & Hmap' & Hperm).
    rewrite (balance_whole _ _ Hmap Hb).
    rewrite (balance_whole _ amounts' Hmap').
    + f_equal. symmetry. now apply sumZ_perm.
    + rewrite <- (sumZ_perm _ _ (Permutation_map Z.abs Hperm)). exact Hb.
  - intros front back ->.
    rewrite List.map_app in Hmap.
    symmetry in Hmap. apply List.map_eq_app in Hmap.
    destruct Hmap as (zs1 & zs2 & -> & Hfront & Hback).
    rewrite List.map_app, sumZ_app in Hb.
    pose proof (CalculationFacts.sumZ_abs_nonneg zs1) as H1.
    pose proof (CalculationFacts.sumZ_abs_nonneg zs2) as H2.
    rewrite (balance_whole (front ++ back) (zs1 ++ zs2)), sumZ_app.
    + rewrite (balance_whole front zs1), (balance_whole back zs2);
        [|now symmetry|lia|now symmetry|lia].
      symmetry. apply JsNumberFacts.add_ofZ.
      pose proof (CalculationFacts.sumZ_abs_le zs1).
      pose proof (CalculationFacts.sumZ_abs_le zs2). lia.
    + rewrite !List.map_app. now rewrite Hfront, Hback.
    + now rewrite List.map_app, sumZ_app.
Qed.

(** Beyond that the order matters: 2^53 + 1 + 1 is 2^53, while
    1 + 1 + 2^53 is 2^53 + 2. *)
Example calculateTotalBalance_order :
  calculateTotalBalance
    [mkTransaction "t1" "2025-01-15" (JsNumber.ofZ (2 ^ 53)) "Salary" None;
     mkTransaction "t2" "2025-01-16" (JsNumber.ofZ 1) "Gift" None;
     mkTransaction "t3" "2025-01-17" (JsNumber.ofZ 1) "Gift" None]
  = JsNumber.ofZ (2 ^ 53)
  /\ calculateTotalBalance
       [mkTransaction "t2" "2025-01-16" (JsNumber.ofZ 1) "Gift" None;
        mkTransaction "t3" "2025-01-17" (JsNumber.ofZ 1) "Gift" None;
        mkTransaction "t1" "2025-01-15" (JsNumber.ofZ (2 ^ 53)) "Salary" None]
     = JsNumber.ofZ (2 ^ 53 + 2)
  /\ JsNumber.ofZ (2 ^ 53) <> JsNumber.ofZ (2 ^ 53 + 2).
Proof.
  refine (conj _ (conj _ _)).
  - vm_compute. exact eq_refl.
  - vm_compute. exact eq_refl.
  - vm_compute. discriminate.
Qed.

(** *** Spending of a month *)

Lemma monthlySpending_sum (l : list Transaction) (month : string) :
  calculateMonthlySpending l month
  = JsNumber.sumOf (absAmounts (List.filter (inMonth month) l))
  /\ JsNumber.leb JsNumber.zero (calculateMonthlySpending l month) = true.
Proof.
  unfold calculateMonthlySpending. cbv zeta.
  destruct (CalculationFacts.abs_sum_expenses (List.filter (inMonth month) l))
    as [Habs Hneg].
  { apply CalculationFacts.filter_expenses. intros t Ht. unfold inMonth in Ht.
    apply Bool.andb_true_iff in Ht. now destruct Ht as [_ Ht]. }
  split; [exact Habs|]. now apply JsNumberFacts.abs_nonneg.
Qed.

Lemma filter_month_again (l : list Transaction) (month : string) :
  List.filter (inMonth month)
    (List.filter (fun t => startsWith (tx_date t) month) l)
  = List.filter (inMonth month) l.
Proof.
  induction l as [|t l IH]; [reflexivity|]. cbn [List.filter]. unfold inMonth at 2 3.
  destruct (startsWith (tx_date t) month) eqn:E; cbn [List.filter andb].
  - unfold inMonth at 1. rewrite E. cbn [andb]. now rewrite IH.
  - exact IH.
Qed.

Lemma monthlySpending_filtered (l : list Transaction) (month : string) :
  calculateMonthlySpending
    (List.filter (fun t => startsWith (tx_date t) month) l) month
  = calculateMonthlySpending l month.
Proof.
  unfold calculateMonthlySpending. cbv zeta. now rewrite filter_month_again.
Qed.

(** X24.  The spending of a month is the sum of |amount| over the expenses
    whose date starts with the month, added up in the order of the list
    as the code adds them; it is a number that is not below zero; and it
    is the same whether the month's transactions are picked out first or
    not. *)
Theorem calculateMonthlySpending_spec (transactions : list Transaction)
    (month : string) :
  calculateMonthlySpending transactions month
  = JsNumber.sumOf (absAmounts (List.filter (inMonth month) transactions))
  /\ JsNumber.leb JsNumber.zero (calculateMonthlySpending transactions month)
     = true
  /\ calculateMonthlySpending
       (List.filter (fun t => startsWith (tx_date t) month) transactions) month
     = calculateMonthlySpending transactions month.
Proof.
  destruct (monthlySpending_sum transactions month) as [Hsum Hnn].
  split; [exact Hsum|]. split; [exact Hnn|].
  apply monthlySpending_filtered.
Qed.

Section WithRuntime.
Context {R : Runtime}.

(** *** The cards *)

(** X25.  The card of the month shows the spending of the month over all the
    stored transactions, a figure that is never negative, so that the
    card is never drawn in red; a month that is not four digits, a
    hyphen and two digits makes it show its error.  The collection is
    left as it is. *)
Theorem fetchMonthlySpending_spec (currentMonth : string)
    (s : gmap string Transaction) :
  (BudgetService.monthRegex currentMonth = true ->
   exists spending,
     fetchMonthlySpending currentMonth s = (Loaded spending, s)
     /\ spending
        = calculateMonthlySpending (IndexedDBAdapter.records s) currentMonth
     /\ JsNumber.leb JsNumber.zero spending = true
     /\ amountClass spending = "text-green-600")
  /\ (BudgetService.monthRegex currentMonth = false ->
      fetchMonthlySpending currentMonth s
      = (LoadFailed "Failed to load monthly spending", s)).
Proof.
  unfold fetchMonthlySpending.
  rewrite TransactionFacts.getTransactionsByMonth_run.
  split; intros ->; [|reflexivity].
  eexists. split; [reflexivity|]. cbv zeta.
  destruct (monthlySpending_sum (IndexedDBAdapter.records s) currentMonth)
    as [_ Hnn].
  rewrite monthlySpending_filtered. split; [reflexivity|]. split; [exact Hnn|].
  unfold amountClass. now rewrite Hnn.
Qed.

(** The card of the balance always loads: it shows the balance of all
    the stored transactions, taken in the order of their identifiers, in
    red exactly when it is not at least zero, and leaves the collection
    as it is. *)
Lemma fetchBalance_spec (s : gmap string Transaction) :
  exists balance,
    fetchBalance s = (Loaded balance, s)
    /\ balance = calculateTotalBalance (IndexedDBAdapter.records s)
    /\ (amountClass balance = "text-red-600"
        <-> JsNumber.leb JsNumber.zero balance = false).
Proof.
  unfold fetchBalance. rewrite ReportFacts.getAllTransactions_run.
  eexists. split; [reflexivity|]. cbv zeta. split; [reflexivity|].
  unfold amountClass.
  destruct (JsNumber.leb JsNumber.zero _); split; (reflexivity || discriminate).
Qed.

(** *** Spending over time *)

(** Grouped by day or by month, the loop never leaves by an exception:
    it is the loop that adds each expense to the figure of its key. *)
Lemma groupSpending_plain (tz : Z) (groupBy : GroupBy)
    (expenses : list Transaction) :
  groupBy <> Week ->
  forall m,
    groupSpending tz groupBy expenses m
    = Some (fold_left (groupStep (fun t => plainKey groupBy (tx_date t)))
                      expenses m).
Proof.
  intros Hg. induction expenses as [|t l IH]; intros m; [reflexivity|].
  cbn [groupSpending fold_left].
  replace (getGroupKey tz (tx_date t) groupBy)
    with (Some (plainKey groupBy (tx_date t)))
    by (destruct groupBy; [reflexivity|contradiction|reflexivity]).
  apply IH.
Qed.

Lemma entries_of_series (m : JsMap.NumberMap) (e : SpendingOverTime) :
  In e (List.map (fun '(date, amount) => mkSpendingOverTime date amount) m)
  <-> In (sp_date e, sp_amount e) m.
Proof.
  rewrite List.in_map_iff. split.
  - intros ([c v] & <- & Hin). exact Hin.
  - intros Hin. exists (sp_date e, sp_amount e). split; [now destruct e|exact Hin].
Qed.

Lemma filter_bucket_expense (groupBy : GroupBy) (bucket : string)
    (l : list Transaction) :
  List.filter (fun t => String.eqb (plainKey groupBy (tx_date t)) bucket)
              (List.filter isExpense l)
  = List.filter
      (fun t => isExpense t && String.eqb (plainKey groupBy (tx_date t)) bucket) l.
Proof.
  induction l as [|t l IH]; [reflexivity|]. cbn [List.filter].
  destruct (isExpense t); cbn [List.filter andb]; rewrite IH; reflexivity.
Qed.

(** X26.  Grouped by day or by month, the series accounts for every expense:
    no key comes twice; the amount of an entry is the sum of |amount|
    over the expenses of exactly its day or month, added up in the order
    of the list as the code adds them, and is greater than zero; and the
    day or month of every expense has its entry. *)
Theorem calculateSpendingOverTime_accounts (tz : Z)
    (transactions : list Transaction) (groupBy : GroupBy) :
  groupBy <> Week ->
  List.NoDup (List.map sp_date (calculateSpendingOverTime tz transactions groupBy))
  /\ (forall e, In e (calculateSpendingOverTime tz transactions groupBy) ->
        sp_amount e = bucketSpending groupBy (sp_date e) transactions
        /\ JsNumber.ltb JsNumber.zero (sp_amount e) = true)
  /\ (forall t, In t transactions ->
        JsNumber.ltb (tx_amount t) JsNumber.zero = true ->
        exists e, In e (calculateSpendingOverTime tz transactions groupBy)
                  /\ sp_date e = plainKey groupBy (tx_date t)).
Proof.
  intros Hg. unfold calculateSpendingOverTime, spendingOverTimeOf, JsMap.entries.
  rewrite (groupSpending_plain tz groupBy _ Hg). cbv zeta.
  set (key := fun t => plainKey groupBy (tx_date t)).
  set (expenses := List.filter isExpense transactions).
  set (m := fold_left (groupStep key) expenses []).
  pose proof (sortWith_perm (fun a b => localeCompare (sp_date a) (sp_date b))
                (List.map (fun '(date, amount) => mkSpendingOverTime date amount) m))
    as Hperm.
  assert (Hnd : List.NoDup (List.map fst m))
    by (apply CalculationFacts.grouped_keys; constructor).
  assert (Hpos : positiveValues m).
  { apply CalculationFacts.grouped_positive;
      [apply CalculationFacts.expenses_negative
      |apply CalculationFacts.positiveValues_empty]. }
  split; [|split].
  - apply (Permutation_NoDup (Permutation_map sp_date Hperm)).
    rewrite List.map_map.
    rewrite (List.map_ext _ fst) by (now intros [c v]). exact Hnd.
  - intros e He. apply (Permutation_in _ (Permutation_sym Hperm)) in He.
    apply entries_of_series, (CalculationFacts.In_get m _ _ Hnd) in He.
    split; [|now apply (Hpos _ _ He)].
    rewrite <- (CalculationFacts.getOr0_positive m _ _ Hpos He). unfold m.
    rewrite CalculationFacts.grouped_get;
      [|apply CalculationFacts.expenses_negative
       |apply CalculationFacts.positiveValues_empty].
    unfold expenses, key, bucketSpending. rewrite filter_bucket_expense.
    reflexivity.
  - intros t Hin Hneg.
    assert (Hkey : In (key t) (List.map fst m)).
    { apply CalculationFacts.grouped_has_key. right.
      apply (List.in_map key). apply List.filter_In. now split. }
    apply CalculationFacts.get_key in Hkey.
    destruct (JsMap.get m (key t)) as [v|] eqn:E; [|congruence].
    exists (mkSpendingOverTime (key t) v). split; [|reflexivity].
    apply (Permutation_in _ Hperm). apply entries_of_series.
    cbn [sp_date sp_amount]. now apply (CalculationFacts.In_get m _ _ Hnd).
Qed.

End WithRuntime.
End CalculationMore.

(* ===================================================================== *)
(** ** Lines of CSV *)
(* ===================================================================== *)

Module CsvFacts.
Import JsString CSV CsvSpec.

Lemma append_nil (s : string) : "" +:+ s = s.
Proof. reflexivity. Qed.

Lemma append_cons (c : ascii) (a b : string) :
  String c a +:+ b = String c (a +:+ b).
Proof. reflexivity. Qed.

Lemma append_empty (s : string) : s +:+ "" = s.
Proof.
  induction s as [|c s IH]; [reflexivity|]. now rewrite append_cons, IH.
Qed.

Lemma append_append (a b c : string) : (a +:+ b) +:+ c = a +:+ (b +:+ c).
Proof.
  induction a as [|x a IH]; [reflexivity|]. now rewrite !append_cons, IH.
Qed.

Lemma contains_cons (a : ascii) (s : string) (c : ascii) :
  contains (String a s) c = Ascii.eqb c a || contains s c.
Proof.
  unfold contains. cbn [includes String.prefix].
  destruct (ascii_dec c a) as [->|Hne].
  - rewrite Ascii.eqb_refl. now destruct s.
  - apply Ascii.eqb_neq in Hne. now rewrite Hne.
Qed.

(** A field written as it is, is read as it is. *)
Lemma parse_plain (value : string) :
  contains value comma = false -> contains value dquote = false ->
  forall rest fields currentField,
    parseFrom (value +:+ rest) fields currentField false
    = parseFrom rest fields (currentField +:+ value) false.
Proof.
  induction value as [|c value IH]; intros Hcomma Hquote rest fields currentField.
  - now rewrite append_nil, append_empty.
  - rewrite contains_cons in Hcomma, Hquote.
    apply Bool.orb_false_iff in Hcomma, Hquote.
    destruct Hcomma as [Hc1 Hc2], Hquote as [Hq1 Hq2].
    rewrite Ascii.eqb_sym in Hc1, Hq1.
    rewrite append_cons. cbn [parseFrom]. rewrite Hq1, Hc1. cbn [andb].
    rewrite (IH Hc2 Hq2). now rewrite append_append.
Qed.

(** Inside quotes, doubled quotes are read as one, up to the closing quote. *)
Lemma parse_quoted (value : string) :
  forall rest fields currentField,
    fieldEnd rest ->
    parseFrom (doubleQuotes value +:+ String dquote rest) fields currentField true
    = parseFrom rest fields (currentField +:+ value) false.
Proof.
  induction value as [|c value IH]; intros rest fields currentField Hrest.
  - cbn [doubleQuotes]. rewrite append_nil, append_empty.
    destruct Hrest as [->|[r ->]]; reflexivity.
  - cbn [doubleQuotes]. destruct (Ascii.eqb c dquote) eqn:Hc.
    + apply Ascii.eqb_eq in Hc. subst c.
      rewrite !append_cons. cbn [parseFrom]. rewrite Ascii.eqb_refl. cbn [andb].
      rewrite (IH _ _ _ Hrest). now rewrite append_append.
    + rewrite append_cons. cbn [parseFrom]. rewrite Hc.
      rewrite Bool.andb_false_r.
      rewrite (IH _ _ _ Hrest). now rewrite append_append.
Qed.

Lemma parse_field (value : string) :
  forall rest fields currentField,
    fieldEnd rest ->
    parseFrom (escapeCSVField value +:+ rest) fields currentField false
    = parseFrom rest fields (currentField +:+ value) false.
Proof.
  intros rest fields currentField Hrest. unfold escapeCSVField.
  destruct (contains value comma || contains value newline
            || contains value dquote) eqn:Hq.
  - rewrite append_cons, append_append, append_cons, append_nil.
    assert (Hopen : forall line,
              parseFrom (String dquote line) fields currentField false
              = parseFrom line fields currentField true).
    { intros line. cbn [parseFrom]. rewrite Ascii.eqb_refl. cbn [andb negb].
      destruct line; reflexivity. }
    rewrite Hopen. now apply parse_quoted.
  - apply Bool.orb_false_iff in Hq. destruct Hq as [Hq Hquote].
    apply Bool.orb_false_iff in Hq. destruct Hq as [Hcomma _].
    now apply parse_plain.
Qed.

Lemma parse_joined (fields : list string) :
  fields <> [] ->
  forall done,
    parseFrom (joinFields (List.map escapeCSVField fields)) done "" false
    = done ++ fields.
Proof.
  unfold joinFields.
  induction fields as [|x fields IH]; intros Hne done; [contradiction|].
  destruct fields as [|y fields].
  - cbn [List.map String.concat].
    rewrite <- (append_empty (escapeCSVField x)).
    rewrite parse_field by (now left). reflexivity.
  - cbn [List.map String.concat] in *.
    rewrite parse_field by (right; eexists; reflexivity).
    change ("," +:+ ?r) with (String comma r).
    cbn [parseFrom].
    replace (Ascii.eqb comma dquote) with false by reflexivity.
    rewrite Ascii.eqb_refl. cbn [andb negb].
    rewrite IH by discriminate. now rewrite <- List.app_assoc.
Qed.

(** X27.  A row written field by field with [escapeCSVField] and commas is
    read back by [parseCSVLine] as the very same fields, whatever
    commas, quotes and line breaks the fields hold. *)
Theorem parseCSVLine_roundtrip (fields : list string) :
  fields <> [] ->
  parseCSVLine (joinFields (List.map escapeCSVField fields)) = fields.
Proof.
  intros Hne. unfold parseCSVLine. now rewrite parse_joined.
Qed.

End CsvFacts.
(* ===================================================================== *)
(** ** Lines written by the export *)
(* ===================================================================== *)

Module CsvExportFacts.
Import JsString CSV CsvSpec CsvExport.

Lemma plainText_cons (c : ascii) (s : string) :
  plainText (String c s)
  = (JsDate.isDigit c || Ascii.eqb c "-") && plainText s.
Proof. reflexivity. Qed.

Lemma plainChar_plain (c : ascii) :
  JsDate.isDigit c || Ascii.eqb c "-" = true ->
  Ascii.eqb comma c = false /\ Ascii.eqb dquote c = false.
Proof.
  intros Hc. split.
  - destruct (Ascii.eqb_spec comma c) as [<-|]; [discriminate|reflexivity].
  - destruct (Ascii.eqb_spec dquote c) as [<-|]; [discriminate|reflexivity].
Qed.

Lemma plainText_contains (s : string) :
  plainText s = true ->
  contains s comma = false /\ contains s dquote = false.
Proof.
  induction s as [|c s IH]; [split; reflexivity|].
  rewrite plainText_cons, !CsvFacts.contains_cons.
  intros H. apply Bool.andb_true_iff in H. destruct H as [Hc Hs].
  destruct (IH Hs) as [-> ->]. destruct (plainChar_plain c Hc) as [-> ->].
  split; reflexivity.
Qed.

Lemma date_plain (date : string) :
  TransactionService.dateRegex date = true -> plainText date = true.
Proof.
  unfold TransactionService.dateRegex.
  destruct date as [|c1 [|c2 [|c3 [|c4 [|c5 [|c6 [|c7 [|c8 [|c9 [|c10 [|c11 r]]]]]]]]]]];
    try discriminate.
  cbn [list_ascii_of_string]. rewrite !plainText_cons.
  generalize JsDate.isDigit. intros digit H.
  repeat (apply Bool.andb_true_iff in H; destruct H as [H ?]).
  repeat match goal with
         | E : _ = true |- _ => rewrite E; clear E
         end.
  rewrite ?Bool.orb_true_r. reflexivity.
Qed.

Lemma month_plain (month : string) :
  BudgetService.monthRegex month = true -> plainText month = true.
Proof.
  unfold BudgetService.monthRegex.
  destruct month as [|c1 [|c2 [|c3 [|c4 [|c5 [|c6 [|c7 [|c8 r]]]]]]]];
    try discriminate.
  cbn [list_ascii_of_string]. rewrite !plainText_cons.
  generalize JsDate.isDigit. intros digit H.
  repeat (apply Bool.andb_true_iff in H; destruct H as [H ?]).
  repeat match goal with
         | E : _ = true |- _ => rewrite E; clear E
         end.
  rewrite ?Bool.orb_true_r. reflexivity.
Qed.

(** The step of the reader over a comma between two fields. *)
Lemma parse_comma (rest : string) (fields : list string) (currentField : string) :
  parseFrom ("," +:+ rest) fields currentField false
  = parseFrom rest (fields ++ [currentField]) "" false.
Proof. reflexivity. Qed.

Lemma parse_plainText (value : string) :
  plainText value = true ->
  forall rest fields currentField,
    parseFrom (value +:+ rest) fields currentField false
    = parseFrom rest fields (currentField +:+ value) false.
Proof.
  intros Hv. destruct (plainText_contains value Hv) as [Hc Hq].
  now apply CsvFacts.parse_plain.
Qed.

Section WithRuntime.
Context {R : Runtime}.

(** A number is printed without a comma and without a quote: it is read
    as it was written. *)
Lemma parse_number (x : number) :
  forall rest fields currentField,
    parseFrom (numberToString x +:+ rest) fields currentField false
    = parseFrom rest fields (currentField +:+ numberToString x) false.
Proof.
  assert (H : forall s : string,
            (forall c, In c (list_ascii_of_string s) ->
                       c <> ","%char /\ c <> "034"%char) ->
            contains s comma = false /\ contains s dquote = false).
  { induction s as [|c s IH]; intros Hs; [split; reflexivity|].
    rewrite !CsvFacts.contains_cons.
    destruct IH as [-> ->]; [intros c' Hc'; apply Hs; now right|].
    destruct (Hs c (or_introl eq_refl)) as [Hc Hq].
    split; apply Bool.orb_false_iff; (split; [|reflexivity]);
      apply Ascii.eqb_neq; unfold comma, dquote; intros E; symmetry in E;
      [now apply Hc|now apply Hq]. }
  destruct (H (numberToString x) (numberToString_plain x)) as [Hc Hq].
  now apply CsvFacts.parse_plain.
Qed.

(** X28.  The line that [generateTransactionsCSV] writes for a transaction
    whose date has the form of a date is read by [parseCSVLine] as four
    fields: the date, the amount as the runtime prints it, the category
    and the notes as they are, commas, quotes and line breaks included;
    missing notes are read as the empty field. *)
Theorem transactionLine_roundtrip (transaction : Transaction) :
  TransactionService.dateRegex (tx_date transaction) = true ->
  parseCSVLine (transactionLine transaction)
  = [tx_date transaction;
     numberToString (tx_amount transaction);
     tx_category transaction;
     default "" (tx_notes transaction)].
Proof.
  intros Hdate. unfold parseCSVLine, transactionLine, joinFields.
  cbv zeta. cbn [String.concat].
  rewrite (parse_plainText _ (date_plain _ Hdate)), parse_comma.
  rewrite parse_number, parse_comma.
  rewrite CsvFacts.parse_field by (right; eexists; reflexivity).
  rewrite parse_comma.
  rewrite <- (CsvFacts.append_empty (escapeCSVField _)).
  rewrite CsvFacts.parse_field by (now left).
  cbn [parseFrom app]. rewrite !CsvFacts.append_nil.
  now destruct (tx_notes transaction).
Qed.

(** The line that [generateBudgetsCSV] writes for a budget whose month
    has the form of a month is read by [parseCSVLine] as three fields:
    the month, the category as it is, and the limit as the runtime
    prints it. *)
Lemma budgetLine_roundtrip (budget : Budget) :
  BudgetService.monthRegex (b_month budget) = true ->
  parseCSVLine (budgetLine budget)
  = [b_month budget; b_category budget; numberToString (b_limit budget)].
Proof.
  intros Hmonth. unfold parseCSVLine, budgetLine, joinFields.
  cbv zeta. cbn [String.concat].
  rewrite (parse_plainText _ (month_plain _ Hmonth)), parse_comma.
  rewrite CsvFacts.parse_field by (right; eexists; reflexivity).
  rewrite parse_comma.
  rewrite <- (CsvFacts.append_empty (numberToString _)).
  rewrite parse_number.
  cbn [parseFrom app]. now rewrite !CsvFacts.append_nil, ?CsvFacts.append_empty.
Qed.

End WithRuntime.
End CsvExportFacts.
(* ===================================================================== *)
(** ** The import loop *)
(* ===================================================================== *)

Module ImportFacts.
Import JsString ImportCSV MoreSpec.

Lemma Sorted_snoc {A : Type} (R : A -> A -> Prop) (l : list A) (a : A) :
  Sorted R l -> (forall x, In x l -> R x a) -> Sorted R (l ++ [a]).
Proof.
  induction l as [|x l IH]; intros Hs Hl; cbn [app].
  - repeat constructor.
  - inversion Hs as [|? ? Hs' Hhd]; subst. constructor.
    + apply IH; [exact Hs'|]. intros y Hy. apply Hl. now right.
    + destruct l as [|y l]; cbn [app].
      * constructor. apply Hl. now left.
      * constructor. now inversion Hhd.
Qed.

Section Loop.
Context {T Row Added : Type}.
Variable addRow : (nat -> Z) -> Row -> Async (gmap string T) Added.
Variable fallback : string.
Variable rnd : Z -> nat -> Z.

(** What a call of the service does to the collection: a call that
    succeeds adds one record and keeps the others, a call that fails
    changes nothing. *)
Hypothesis addRow_adds :
  forall r row s,
    match addRow r row s with
    | (Resolved _, s') =>
        size s' = S (size s) /\ forall k old, s !! k = Some old -> s' !! k = Some old
    | (Rejected _, s') => s' = s
    end.

Lemma importFrom_spec (rows : list Row) :
  forall (i : Z) (progress : ImportProgress) (s : gmap string T),
    0 <= i ->
    0 <= successCount progress -> 0 <= failedCount progress ->
    Z.of_nat (length (importErrors progress)) = failedCount progress ->
    ascendingRows (importErrors progress) ->
    (forall e, In e (importErrors progress) -> 2 <= ie_row e < i + 2) ->
    successCount (fst (importFrom addRow fallback rnd i rows progress s))
    + failedCount (fst (importFrom addRow fallback rnd i rows progress s))
    = successCount progress + failedCount progress + Z.of_nat (length rows)
    /\ successCount progress
       <= successCount (fst (importFrom addRow fallback rnd i rows progress s))
    /\ Z.of_nat (length (importErrors
                           (fst (importFrom addRow fallback rnd i rows progress s))))
       = failedCount (fst (importFrom addRow fallback rnd i rows progress s))
    /\ ascendingRows
         (importErrors (fst (importFrom addRow fallback rnd i rows progress s)))
    /\ (forall e,
          In e (importErrors
                  (fst (importFrom addRow fallback rnd i rows progress s))) ->
          2 <= ie_row e < i + 2 + Z.of_nat (length rows))
    /\ Z.of_nat (size (snd (importFrom addRow fallback rnd i rows progress s)))
       = Z.of_nat (size s)
         + (successCount (fst (importFrom addRow fallback rnd i rows progress s))
            - successCount progress)
    /\ (forall k old,
          s !! k = Some old ->
          snd (importFrom addRow fallback rnd i rows progress s) !! k = Some old).
Proof.
  induction rows as [|row rows IH];
    intros i progress s Hi Hsucc Hfail Hlen Hasc Hrows.
  - cbn [importFrom fst snd length].
    refine (conj _ (conj _ (conj _ (conj _ (conj _ (conj _ _)))))); auto; try lia.
    intros e He. specialize (Hrows e He). lia.
  - cbn [importFrom]. pose proof (addRow_adds (rnd i) row s) as Hadd.
    destruct (addRow (rnd i) row s) as [[added|error] s1].
    + destruct Hadd as [Hsize Hold].
      specialize (IH (i + 1)
                    (mkImportProgress (successCount progress + 1)
                       (failedCount progress) (importErrors progress)) s1).
      cbn [successCount failedCount importErrors] in IH.
      destruct IH as (H1 & H2 & H3 & H4 & H5 & H6 & H7); try assumption; try lia.
      { intros e He. specialize (Hrows e He). lia. }
      cbn [length].
      refine (conj _ (conj _ (conj _ (conj _ (conj _ (conj _ _))))));
        try assumption; try lia.
      * intros e He. specialize (H5 e He). lia.
      * intros k old Hk. apply H7. now apply Hold.
    + subst s1.
      specialize (IH (i + 1)
                    (mkImportProgress (successCount progress)
                       (failedCount progress + 1)
                       (importErrors progress
                        ++ [mkImportError (i + 2)
                              match error with
                              | ThrowError e => err_message e
                              | ThrowValue _ => fallback
                              end])) s).
      cbn [successCount failedCount importErrors] in IH.
      destruct IH as (H1 & H2 & H3 & H4 & H5 & H6 & H7); try assumption; try lia.
      { rewrite List.length_app. cbn [length]. lia. }
      { apply Sorted_snoc; [exact Hasc|].
        intros e He. specialize (Hrows e He). cbn [ie_row]. lia. }
      { intros e He. apply List.in_app_iff in He. destruct He as [He|[<-|[]]].
        - specialize (Hrows e He). lia.
        - cbn [ie_row]. lia. }
      cbn [length].
      refine (conj _ (conj _ (conj _ (conj _ (conj _ (conj _ _))))));
        try assumption; try lia.
      intros e He. specialize (H5 e He). lia.
Qed.

End Loop.

Section WithRuntime.
Context {R : Runtime}.

Lemma addTransaction_adds (r : nat -> Z) (t : Transaction)
    (s : gmap string Transaction) :
  match TransactionService.addTransaction r (transactionData t) s with
  | (Resolved _, s') =>
      size s' = S (size s) /\ forall k old, s !! k = Some old -> s' !! k = Some old
  | (Rejected _, s') => s' = s
  end.
Proof.
  rewrite TransactionFacts.addTransaction_run.
  destruct (TransactionService.validateTransactionData (transactionData t));
    [reflexivity|].
  destruct (s !! UUID.generateUUID r) eqn:Hfresh; [reflexivity|]. split.
  - now apply map_size_insert_None.
  - intros k old Hk. rewrite lookup_insert_ne; [exact Hk|congruence].
Qed.

Lemma addBudget_adds (r : nat -> Z) (b : Budget) (s : gmap string Budget) :
  match BudgetService.addBudget r (budgetData b) s with
  | (Resolved _, s') =>
      size s' = S (size s) /\ forall k old, s !! k = Some old -> s' !! k = Some old
  | (Rejected _, s') => s' = s
  end.
Proof.
  rewrite BudgetFacts.addBudget_run.
  destruct (BudgetService.validateBudgetData (budgetData b)); [reflexivity|].
  cbv zeta. destruct (existsb _ _); [reflexivity|].
  rewrite AdapterFacts.add_cases. cbv zeta.
  destruct (s !! UUID.generateUUID r) eqn:Hfresh; [reflexivity|].
  destruct (IndexedDBAdapter.indexClash _ s _); [reflexivity|]. split.
  - now apply map_size_insert_None.
  - intros k old Hk. rewrite lookup_insert_ne; [exact Hk|congruence].
Qed.

(** X29.  The import of transactions accounts for every row: each row is
    counted once, as imported or as failed; there is one error for each
    failed row, the errors come in the order of the rows and name rows
    of the file (the first row after the header is row 2); the
    collection grows by the number of rows imported and no record that
    was there is changed. *)
Theorem importTransactions_accounts (rnd : Z -> nat -> Z) (rows : list Transaction)
    (s : gmap string Transaction) :
  successCount (fst (importTransactions rnd rows s))
  + failedCount (fst (importTransactions rnd rows s))
  = Z.of_nat (length rows)
  /\ 0 <= successCount (fst (importTransactions rnd rows s))
  /\ Z.of_nat (length (importErrors (fst (importTransactions rnd rows s))))
     = failedCount (fst (importTransactions rnd rows s))
  /\ ascendingRows (importErrors (fst (importTransactions rnd rows s)))
  /\ (forall e, In e (importErrors (fst (importTransactions rnd rows s))) ->
                2 <= ie_row e <= Z.of_nat (length rows) + 1)
  /\ Z.of_nat (size (snd (importTransactions rnd rows s)))
     = Z.of_nat (size s) + successCount (fst (importTransactions rnd rows s))
  /\ (forall k old, s !! k = Some old ->
                    snd (importTransactions rnd rows s) !! k = Some old).
Proof.
  unfold importTransactions, importRows.
  destruct (importFrom_spec
              (fun r t => TransactionService.addTransaction r (transactionData t))
              "Failed to import transaction" rnd addTransaction_adds rows 0
              (mkImportProgress 0 0 []) s)
    as (H1 & H2 & H3 & H4 & H5 & H6 & H7);
    cbn [successCount failedCount importErrors length] in *;
    try lia; try (now constructor); try (now intros e []).
  refine (conj _ (conj _ (conj _ (conj _ (conj _ (conj _ _))))));
    try assumption; try lia.
  intros e He. specialize (H5 e He). lia.
Qed.

Lemma importBudgets_kept (rnd : Z -> nat -> Z) (rows : list Budget) :
  forall (i : Z) (progress : ImportProgress) (s : gmap string Budget),
    BudgetSpec.kept s ->
    BudgetSpec.kept
      (snd (importFrom (fun r b => BudgetService.addBudget r (budgetData b))
              "Failed to import budget" rnd i rows progress s)).
Proof.
  induction rows as [|b rows IH]; intros i progress s Hs; [exact Hs|].
  cbn [importFrom].
  pose proof (BudgetFacts.addBudget_keeps (rnd i) (budgetData b) s Hs) as Hkept.
  destruct (BudgetService.addBudget (rnd i) (budgetData b) s) as [[added|error] s1];
    cbn [snd] in Hkept; now apply IH.
Qed.

(** X30.  The import of budgets accounts for every row in the same way, and
    it cannot bring two budgets for one month and category into the
    store: in a store without such a pair, the store after the import
    is without one too, whatever the rows of the file. *)
Theorem importBudgets_accounts (rnd : Z -> nat -> Z) (rows : list Budget)
    (s : gmap string Budget) :
  BudgetSpec.reachable s ->
  successCount (fst (importBudgets rnd rows s))
  + failedCount (fst (importBudgets rnd rows s))
  = Z.of_nat (length rows)
  /\ Z.of_nat (length (importErrors (fst (importBudgets rnd rows s))))
     = failedCount (fst (importBudgets rnd rows s))
  /\ ascendingRows (importErrors (fst (importBudgets rnd rows s)))
  /\ Z.of_nat (size (snd (importBudgets rnd rows s)))
     = Z.of_nat (size s) + successCount (fst (importBudgets rnd rows s))
  /\ BudgetSpec.uniqueBudgets (snd (importBudgets rnd rows s)).
Proof.
  intros Hr. unfold importBudgets, importRows.
  destruct (importFrom_spec
              (fun r b => BudgetService.addBudget r (budgetData b))
              "Failed to import budget" rnd addBudget_adds rows 0
              (mkImportProgress 0 0 []) s)
    as (H1 & H2 & H3 & H4 & H5 & H6 & H7);
    cbn [successCount failedCount importErrors length] in *;
    try lia; try (now constructor); try (now intros e []).
  refine (conj _ (conj _ (conj _ (conj _ _)))); try assumption; try lia.
  apply (importBudgets_kept rnd rows 0 (mkImportProgress 0 0 []) s).
  now apply BudgetFacts.reachable_kept.
Qed.

End WithRuntime.
End ImportFacts.

(* ===================================================================== *)
(** ** The further properties on sample data *)
(* ===================================================================== *)

Module MoreWitnesses.
Import JsString ErrorMessages AdapterSpec JsObjects BudgetService BudgetSpec.
Import MoreSpec Examples MoreExamples.

#[local] Existing Instance AsciiRuntime.runtime.

(** Adding [groceries] to the collection that holds [stored] keeps
    [stored] and makes the collection one record larger. *)
Lemma add_never_overwrites_witness :
  twoRecords !! "a1" = Some stored /\ size twoRecords = S (size oneStored).
Proof.
  destruct (AdapterMore.add_never_overwrites (EntityT := JsObject_Entity)
              transactionStoreIndexes sevens groceries oneStored twoRecords
              (Resolved id7)) as [Hold Hnew].
  - vm_compute. exact eq_refl.
  - split.
    + apply Hold. vm_compute. exact eq_refl.
    + destruct (Hnew id7 eq_refl) as (_ & _ & _ & _ & Hsize). exact Hsize.
Defined.

Lemma add_delete_roundtrip_witness :
  IndexedDBAdapter.delete id7 twoRecords = (Resolved tt, oneStored).
Proof.
  apply (AdapterMore.add_delete_roundtrip (EntityT := JsObject_Entity)
           transactionStoreIndexes sevens groceries oneStored twoRecords id7).
  vm_compute. exact eq_refl.
Defined.

(** An update of a record that is not there is shown as a failure to
    save. *)
Lemma update_failure_witness :
  getUserFriendlyErrorMessage
    (ThrowError (IndexedDBAdapter.notFound "no-such-id")) <> itemNotFound.
Proof.
  destruct (AdapterMore.update_failure (EntityT := JsObject_Entity)
              transactionStoreIndexes "no-such-id" lowerAmount oneStored oneStored
              (ThrowError (IndexedDBAdapter.notFound "no-such-id")))
    as (_ & _ & _ & H).
  - vm_compute. exact eq_refl.
  - exact H.
Defined.

Lemma update_idempotent_witness :
  IndexedDBAdapter.update transactionStoreIndexes "a1" lowerAmount afterUpdate
  = (Resolved tt, afterUpdate).
Proof.
  apply (AdapterMore.update_idempotent transactionStoreIndexes "a1" lowerAmount
           {[ "a1" := stored ]} afterUpdate).
  vm_compute. exact eq_refl.
Defined.

Lemma reachable_keyed_witness :
  keyed oneRecord
  /\ IndexedDBAdapter.getById (idOf (<["id" := VStr id7]> groceries)) oneRecord
     = (Resolved (Some (<["id" := VStr id7]> groceries)), oneRecord).
Proof.
  destruct (AdapterMore.reachable_keyed transactionStoreIndexes oneRecord)
    as [Hkeyed Hfound].
  - apply (objectReachable_after _ (ObjectAdd sevens groceries) ∅),
      objectReachable_empty.
  - split; [exact Hkeyed|].
    apply (Hfound id7 (<["id" := VStr id7]> groceries)).
    vm_compute. exact eq_refl.
Defined.

(** A second budget for the rent of January 2025 is turned down by the
    store itself. *)
Lemma budgetStore_unique_witness :
  exists e,
    IndexedDBAdapter.add budgetStoreIndexes threes rent oneBudget
    = (Rejected (ThrowError e), oneBudget)
    /\ err_class e = StorageErrorClass.
Proof.
  destruct (AdapterMore.budgetStore_unique oneBudget
              (objectReachable_after _ (ObjectAdd sevens rent) ∅
                 (objectReachable_empty _))
              id7 (<["id" := VStr id7]> rent) "2025-01" "Rent")
    as [_ Hadd].
  - vm_compute. exact eq_refl.
  - vm_compute. exact eq_refl.
  - vm_compute. exact eq_refl.
  - apply (Hadd threes rent); vm_compute; exact eq_refl.
Defined.

Lemma addTransaction_failure_witness :
  exists e,
    ThrowError (ValidationError "Date must be in YYYY-MM-DD format") = ThrowError e
    /\ ((TransactionService.validateTransactionData badDate = Some e
         /\ err_class e = ValidationErrorClass
         /\ getUserFriendlyErrorMessage
              (ThrowError (ValidationError "Date must be in YYYY-MM-DD format"))
            = err_message e)
        \/ (TransactionService.validateTransactionData badDate = None
            /\ err_class e = StorageErrorClass
            /\ (getUserFriendlyErrorMessage
                  (ThrowError (ValidationError "Date must be in YYYY-MM-DD format"))
                = saveFailed
                \/ getUserFriendlyErrorMessage
                     (ThrowError (ValidationError "Date must be in YYYY-MM-DD format"))
                   = storageFull))).
Proof.
  apply (TransactionFacts.addTransaction_failure sevens badDate ∅ ∅
           (ThrowError (ValidationError "Date must be in YYYY-MM-DD format"))).
  vm_compute. exact eq_refl.
Defined.

(** The lunch is stored with its category and notes trimmed, and found
    again under its identifier. *)
Lemma addTransaction_roundtrip_witness :
  lunchStored = storedTransaction id7 lunch
  /\ IndexedDBAdapter.getById id7 oneTransaction
     = (Resolved (Some lunchStored), oneTransaction).
Proof.
  destruct (TransactionFacts.addTransaction_roundtrip sevens lunch ∅
              oneTransaction lunchStored) as (_ & Hstored & _ & Hfound & _).
  - vm_compute. exact eq_refl.
  - split; [exact Hstored|exact Hfound].
Defined.

Lemma addTransaction_found_witness :
  (exists l, TransactionService.getTransactionsByCategory " Food " oneTransaction
             = (Resolved l, oneTransaction)
             /\ In lunchStored l)
  /\ (exists l, TransactionService.getTransactionsByMonth
                  (substring0 7 "2025-01-15") oneTransaction
                = (Resolved l, oneTransaction)
                /\ In lunchStored l).
Proof.
  apply (TransactionFacts.addTransaction_found sevens lunch ∅ oneTransaction
           lunchStored).
  vm_compute. exact eq_refl.
Defined.

Lemma updateTransaction_failure_witness :
  getUserFriendlyErrorMessage
    (ThrowError (newError "Transaction with id no-such-id not found"))
  = itemNotFound.
Proof.
  destruct (TransactionFacts.updateTransaction_failure "no-such-id" dearer
              oneTransaction oneTransaction
              (ThrowError (newError "Transaction with id no-such-id not found")))
    as (_ & [[H _]|[(_ & _ & _ & H)|[(_ & existing & e & H & _)|(_ & e & H & Hc & _)]]]).
  - vm_compute. exact eq_refl.
  - discriminate H.
  - exact H.
  - vm_compute in H. discriminate H.
  - injection H as <-. discriminate Hc.
Defined.

Lemma updateTransaction_frame_witness :
  exists existing r,
    oneTransaction !! id7 = Some existing
    /\ afterDearer !! id7 = Some r
    /\ tx_id r = id7
    /\ tx_date r = default (tx_date existing) (tu_date dearer)
    /\ tx_amount r = default (tx_amount existing) (tu_amount dearer)
    /\ tx_category r
       = default (tx_category existing) (trim <$> tu_category dearer)
    /\ tx_notes r = match tu_notes dearer with
                    | Some notes => Some (trim notes)
                    | None => tx_notes existing
                    end
    /\ (forall k, k <> id7 -> afterDearer !! k = oneTransaction !! k)
    /\ dom afterDearer = dom oneTransaction.
Proof.
  apply (TransactionFacts.updateTransaction_frame id7 dearer oneTransaction
           afterDearer).
  vm_compute. exact eq_refl.
Defined.

Lemma txReachable_accepted_witness : accepted id7 lunchStored.
Proof.
  apply (TransactionFacts.txReachable_accepted oneTransaction).
  - apply (txReachable_after (AddTransaction sevens lunch) ∅), txReachable_empty.
  - vm_compute. exact eq_refl.
Defined.

Lemma addBudget_success_witness :
  addBudget sevens groceriesData ∅
  = (Resolved (storedBudget id7 groceriesData),
     <[id7 := storedBudget id7 groceriesData]> ∅).
Proof.
  apply (BudgetMore.addBudget_success sevens groceriesData ∅).
  - vm_compute. exact eq_refl.
  - apply lookup_empty.
  - intros k b Hk. rewrite lookup_empty in Hk. discriminate Hk.
Defined.

Lemma updateBudget_failure_witness :
  exists e,
    ThrowError (newError "Budget with id no-such-id not found") = ThrowError e
    /\ ((err_class e = ValidationErrorClass
         /\ getUserFriendlyErrorMessage
              (ThrowError (newError "Budget with id no-such-id not found"))
            = err_message e)
        \/ (noKeys raiseLimit = false /\ twoBudgets !! "no-such-id" = None
            /\ err_class e = PlainError
            /\ getUserFriendlyErrorMessage
                 (ThrowError (newError "Budget with id no-such-id not found"))
               = itemNotFound)
        \/ (err_class e = StorageErrorClass
            /\ (getUserFriendlyErrorMessage
                  (ThrowError (newError "Budget with id no-such-id not found"))
                = saveFailed
                \/ getUserFriendlyErrorMessage
                     (ThrowError (newError "Budget with id no-such-id not found"))
                   = storageFull))).
Proof.
  destruct (BudgetMore.updateBudget_failure "no-such-id" raiseLimit twoBudgets)
    as [Hfail _].
  - apply reachable_after, reachable_after, reachable_empty.
  - apply (Hfail twoBudgets
             (ThrowError (newError "Budget with id no-such-id not found"))).
    vm_compute. exact eq_refl.
Defined.

(** Once the budget for groceries is deleted, a budget for "groceries"
    is accepted. *)
Lemma deleteBudget_frees_witness :
  exists s1,
    deleteBudget id7 twoBudgets = (Resolved tt, s1)
    /\ s1 !! id7 = None
    /\ addBudget fives groceriesAgain s1
       = (Resolved (storedBudget (UUID.generateUUID fives) groceriesAgain),
          <[UUID.generateUUID fives
            := storedBudget (UUID.generateUUID fives) groceriesAgain]> s1).
Proof.
  apply (BudgetMore.deleteBudget_frees fives groceriesAgain twoBudgets id7
           (mkBudget id7 "2025-01" "Groceries" (JsNumber.ofZ 400))).
  - apply reachable_after, reachable_after, reachable_empty.
  - vm_compute. exact eq_refl.
  - vm_compute. exact eq_refl.
  - split; vm_compute; exact eq_refl.
  - apply not_elem_of_dom. vm_compute. exact eq_refl.
Defined.

(** Of the two purchases only the first counts against the budget for
    "Groceries". *)
Lemma getBudgetWithRemaining_found_witness :
  exists r,
    BudgetReports.getBudgetWithRemaining "b1" household = (Resolved r, household)
    /\ bw_id r = "b1" /\ bw_month r = "2025-01"
    /\ bw_category r = "Groceries" /\ bw_limit r = JsNumber.ofZ 400
    /\ bw_remaining r
       = JsNumber.sub (JsNumber.ofZ 400)
           (CalculationSpec.spent groceriesBudget
              (IndexedDBAdapter.records (transactions household)))
    /\ bw_spent r = JsNumber.sub (JsNumber.ofZ 400) (bw_remaining r).
Proof.
  apply (ReportFacts.getBudgetWithRemaining_found "b1" household groceriesBudget).
  vm_compute. exact eq_refl.
Defined.

(** 45.50 are spent and 354.50 remain. *)
Example getBudgetWithRemaining_household :
  BudgetReports.getBudgetWithRemaining "b1" household
  = (Resolved (mkBudgetWithRemaining "b1" "2025-01" "Groceries" (JsNumber.ofZ 400)
                 (JsNumber.decimal 4550 100) (JsNumber.decimal 35450 100)),
     household).
Proof. vm_compute. exact eq_refl. Qed.

(** A salary of 2500 and a purchase of 10. *)
Lemma calculateTotalBalance_spec_witness :
  CalculationService.calculateTotalBalance
    [mkTransaction "t0" "2025-01-02" (JsNumber.ofZ 2500) "Salary" None; purchase2]
  = JsNumber.sumOf
      (List.map tx_amount
         [mkTransaction "t0" "2025-01-02" (JsNumber.ofZ 2500) "Salary" None;
          purchase2])
  /\ CalculationService.calculateTotalBalance
       [mkTransaction "t0" "2025-01-02" (JsNumber.ofZ 2500) "Salary" None; purchase2]
     = JsNumber.ofZ (sumZ [2500; -10])
  /\ (forall transactions',
        Permutation
          [mkTransaction "t0" "2025-01-02" (JsNumber.ofZ 2500) "Salary" None;
           purchase2]
          transactions' ->
        CalculationService.calculateTotalBalance transactions'
        = CalculationService.calculateTotalBalance
            [mkTransaction "t0" "2025-01-02" (JsNumber.ofZ 2500) "Salary" None;
             purchase2])
  /\ (forall front back,
        [mkTransaction "t0" "2025-01-02" (JsNumber.ofZ 2500) "Salary" None;
         purchase2]
        = front ++ back ->
        CalculationService.calculateTotalBalance
          [mkTransaction "t0" "2025-01-02" (JsNumber.ofZ 2500) "Salary" None;
           purchase2]
        = JsNumber.add (CalculationService.calculateTotalBalance front)
                       (CalculationService.calculateTotalBalance back)).
Proof.
  apply (CalculationMore.calculateTotalBalance_spec
           [mkTransaction "t0" "2025-01-02" (JsNumber.ofZ 2500) "Salary" None;
            purchase2]
           [2500; -10]).
  - vm_compute. exact eq_refl.
  - vm_compute. exact eq_refl.
Defined.

(** The two purchases of January 2025, grouped by month. *)
Lemma calculateSpendingOverTime_accounts_witness :
  List.NoDup
    (List.map sp_date
       (CalculationService.calculateSpendingOverTime 0 [purchase1; purchase2] Month))
  /\ (forall e,
        In e (CalculationService.calculateSpendingOverTime 0
                [purchase1; purchase2] Month) ->
        sp_amount e = bucketSpending Month (sp_date e) [purchase1; purchase2]
        /\ JsNumber.ltb JsNumber.zero (sp_amount e) = true)
  /\ (forall t, In t [purchase1; purchase2] ->
        JsNumber.ltb (tx_amount t) JsNumber.zero = true ->
        exists e,
          In e (CalculationService.calculateSpendingOverTime 0
                  [purchase1; purchase2] Month)
          /\ sp_date e = plainKey Month (tx_date t)).
Proof.
  apply (CalculationMore.calculateSpendingOverTime_accounts 0
           [purchase1; purchase2] Month).
  discriminate.
Defined.

Example calculateSpendingOverTime_month :
  CalculationService.calculateSpendingOverTime 0 [purchase1; purchase2] Month
  = [mkSpendingOverTime "2025-01" (JsNumber.decimal 5550 100)].
Proof. vm_compute. exact eq_refl. Qed.

Lemma parseCSVLine_roundtrip_witness :
  CSV.parseCSVLine (CSV.joinFields (List.map CSV.escapeCSVField awkwardFields))
  = awkwardFields.
Proof.
  apply (CsvFacts.parseCSVLine_roundtrip awkwardFields). discriminate.
Defined.

Lemma transactionLine_roundtrip_witness :
  CSV.parseCSVLine (CsvExport.transactionLine purchase1)
  = ["2025-01-15"; numberToString (tx_amount purchase1); "Groceries"; ""].
Proof.
  apply (CsvExportFacts.transactionLine_roundtrip purchase1).
  vm_compute. exact eq_refl.
Defined.

Example transactionLine_purchase :
  CsvExport.transactionLine purchase1 = "2025-01-15,-45.5,Groceries,".
Proof. vm_compute. exact eq_refl. Qed.

(** Importing a budget for groceries into the store that has one
    already: the row is counted as failed and the store stays without
    duplicates. *)
Lemma importBudgets_accounts_witness :
  successCount (fst (ImportCSV.importBudgets (fun _ => fives) [groceriesBudget]
                       twoBudgets))
  + failedCount (fst (ImportCSV.importBudgets (fun _ => fives) [groceriesBudget]
                        twoBudgets))
  = 1
  /\ uniqueBudgets (snd (ImportCSV.importBudgets (fun _ => fives) [groceriesBudget]
                           twoBudgets)).
Proof.
  destruct (ImportFacts.importBudgets_accounts (fun _ => fives) [groceriesBudget]
              twoBudgets) as (Hcount & _ & _ & _ & Hunique).
  - apply reachable_after, reachable_after, reachable_empty.
  - split; [exact Hcount|exact Hunique].
Defined.

End MoreWitnesses.
